(** * Exotel analytics pipeline: phone normalisation, tenant lookup,
      paginated fetch, aggregation and period comparison.

    Shallow embedding of
      - [lambda_package/tenant_lookup.py]  (TenantLookup.normalize_phone,
        TenantLookup.is_tenant, TenantLookup.batch_lookup),
      - [lambda_package/lambda_handler.py] and [app.py]
        (ExotelAnalytics.fetch_calls, ExotelAnalytics.process_analytics,
        calculate_comparison).

    Python strings are [string]s of ASCII characters; [str.isdigit] is
    modelled on the ASCII digits.  Python dictionaries are
    insertion-ordered association lists. *)

From Stdlib Require Import Bool Arith ZArith Lia List.
From Stdlib Require Import Ascii String.
From Stdlib Require Import Numbers.DecimalString.
From Stdlib Require Import QArith Qround.
Import ListNotations.

Open Scope string_scope.
Open Scope list_scope.
Open Scope nat_scope.

(* ================================================================= *)
(** ** Python values and string primitives *)

(** The values a phone, direction or cursor cell can hold.  [PyNaN] is
    the float nan pandas puts in a cell whose key is missing from the
    record. *)
Inductive pyval : Type :=
| PyNone
| PyStr (s : string)
| PyInt (z : Z)
| PyNaN.

Definition pyval_eq_dec (a b : pyval) : {a = b} + {a <> b}.
Proof.
  decide equality; [apply string_dec | apply Z.eq_dec].
Defined.

Definition pyval_eqb (a b : pyval) : bool :=
  if pyval_eq_dec a b then true else false.

(** Python truthiness: [bool(v)]. *)
Definition truthy (v : pyval) : bool :=
  match v with
  | PyNone => false
  | PyStr s => negb (String.eqb s "")
  | PyInt z => negb (Z.eqb z 0)
  | PyNaN => true
  end.

(** [str(v)]. *)
Definition py_str (v : pyval) : string :=
  match v with
  | PyNone => "None"
  | PyStr s => s
  | PyInt z => NilZero.string_of_int (Z.to_int z)
  | PyNaN => "nan"
  end.

(** [str.isdigit] on one character. *)
Definition isdigit (c : ascii) : bool :=
  (48 <=? nat_of_ascii c) && (nat_of_ascii c <=? 57).

(** [''.join(filter(f, s))]. *)
Fixpoint str_filter (f : ascii -> bool) (s : string) : string :=
  match s with
  | EmptyString => EmptyString
  | String c r => if f c then String c (str_filter f r) else str_filter f r
  end.

Fixpoint str_forallb (f : ascii -> bool) (s : string) : bool :=
  match s with
  | EmptyString => true
  | String c r => f c && str_forallb f r
  end.

Fixpoint str_existsb (f : ascii -> bool) (s : string) : bool :=
  match s with
  | EmptyString => false
  | String c r => f c || str_existsb f r
  end.

(** [s[n:]]. *)
Fixpoint str_drop (n : nat) (s : string) : string :=
  match n, s with
  | O, _ => s
  | S _, EmptyString => EmptyString
  | S m, String _ r => str_drop m r
  end.

(** [s[-n:]] for [n > 0]. *)
Definition str_suffix (n : nat) (s : string) : string :=
  str_drop (String.length s - n) s.

(** [s.startswith(p)]. *)
Definition startswith (s p : string) : bool := String.prefix p s.

(** [needle in hay]. *)
Fixpoint str_contains (needle hay : string) : bool :=
  String.prefix needle hay
  || match hay with
     | EmptyString => false
     | String _ r => str_contains needle r
     end.

(* ================================================================= *)
(** ** tenant_lookup.py : TenantLookup.normalize_phone *)

Definition COUNTRY_CODE : string := "91".

Definition normalize_phone (phone : pyval) : pyval :=
  if negb (truthy phone) then PyNone
  else
    let phone_str := py_str phone in
    let normalized := str_filter isdigit phone_str in
    let normalized :=
      if startswith normalized "0" && (String.length normalized =? 11)
      then str_drop 1 normalized
      else normalized in
    let normalized :=
      if String.length normalized =? 10 then (COUNTRY_CODE ++ normalized)%string
      else if (String.length normalized =? 12) && startswith normalized COUNTRY_CODE
           then normalized
      else if 12 <? String.length normalized then str_suffix 12 normalized
      else normalized in
    PyStr normalized.

(** The cascade of branches [normalize_phone] applies to the digit
    string, on its own. *)
Definition normalize_digits (digits : string) : string :=
  let normalized :=
    if startswith digits "0" && (String.length digits =? 11)
    then str_drop 1 digits
    else digits in
  if String.length normalized =? 10 then (COUNTRY_CODE ++ normalized)%string
  else if (String.length normalized =? 12) && startswith normalized COUNTRY_CODE
       then normalized
  else if 12 <? String.length normalized then str_suffix 12 normalized
  else normalized.

(* ================================================================= *)
(** ** Python dictionaries and exceptions *)

(** A [dict] keeps its entries in insertion order; assigning to a key
    that is present replaces the value in place. *)
Section Dict.
Context {K V : Type} (eqb : K -> K -> bool).

Fixpoint dict_get (d : list (K * V)) (k : K) : option V :=
  match d with
  | [] => None
  | (k', v) :: r => if eqb k' k then Some v else dict_get r k
  end.

(** [d[k] = v]. *)
Fixpoint dict_set (d : list (K * V)) (k : K) (v : V) : list (K * V) :=
  match d with
  | [] => [(k, v)]
  | (k', v') :: r =>
      if eqb k' k then (k', v) :: r else (k', v') :: dict_set r k v
  end.

(** [d.get(k, default)]. *)
Definition dict_get_default (d : list (K * V)) (k : K) (default : V) : V :=
  match dict_get d k with
  | Some v => v
  | None => default
  end.

End Dict.

(** [k in s] for a set or list of values. *)
Definition py_in (k : pyval) (s : list pyval) : bool :=
  existsb (pyval_eqb k) s.

(** A computation that returns or raises. *)
Inductive Exc (A : Type) : Type :=
| Return (a : A)
| Raised.
Arguments Return {A} a.
Arguments Raised {A}.

Definition exc_bind {A B : Type} (m : Exc A) (k : A -> Exc B) : Exc B :=
  match m with
  | Return a => k a
  | Raised => Raised
  end.

Notation "x <- m ;; k" := (exc_bind m (fun x => k))
  (at level 61, m at next level, right associativity).

(** [try: body  except Exception: handler]. *)
Definition try_except {A : Type} (body : Exc A) (handler : A) : A :=
  match body with
  | Return a => a
  | Raised => handler
  end.

(* ================================================================= *)
(** ** The two backing tables *)

(** A row of [all_tenants_data_upto_2025_09_09]; a text column is
    [None] when it is SQL NULL. *)
Record HistoricalRow : Type := {
  phone : option string;
  mobile : option string;
  tenant_name : pyval;
  tenant_property_name : pyval;
  tenant_booking_id : pyval
}.

(** [flat_booking_orders] is represented by its [tenant_phone_number]
    column. *)
Record Tables : Type := {
  flat_booking_orders : list (option string);
  all_tenants_data : list HistoricalRow
}.

(** Where the database can fail: no connection pool (so
    [_get_connection] raises), or one of the two statements raises. *)
Inductive Fault : Type :=
| NoFault
| PoolUnavailable
| LiveQueryRaises
| HistoricalQueryRaises.

Record Database : Type := {
  fault : Fault;
  tables : Tables
}.

Definition Fault_eqb (a b : Fault) : bool :=
  match a, b with
  | NoFault, NoFault => true
  | PoolUnavailable, PoolUnavailable => true
  | LiveQueryRaises, LiveQueryRaises => true
  | HistoricalQueryRaises, HistoricalQueryRaises => true
  | _, _ => false
  end.

(** [REGEXP_REPLACE(col, '[^0-9]', '', 'g')]; NULL stays NULL. *)
Definition sql_digits (col : option string) : option string :=
  option_map (str_filter isdigit) col.

Definition sql_value (col : option string) : pyval :=
  match col with
  | Some s => PyStr s
  | None => PyNone
  end.

(** [x = %s]: NULL never compares equal. *)
Definition sql_eq (col : option string) (k : pyval) : bool :=
  match col with
  | Some s => pyval_eqb (PyStr s) k
  | None => false
  end.

(** [x = ANY(%s)]. *)
Definition sql_eq_any (col : option string) (ks : list pyval) : bool :=
  existsb (sql_eq col) ks.

Definition _get_connection (db : Database) : Exc Tables :=
  match fault db with
  | PoolUnavailable => Raised
  | _ => Return (tables db)
  end.

(** The rows [cursor.fetchall()] gives for [query_live] of
    [batch_lookup]: one column, the digits of the stored phone. *)
Definition execute_live_batch (db : Database) (t : Tables)
    (normalized_list : list pyval) : Exc (list pyval) :=
  match fault db with
  | LiveQueryRaises => Raised
  | _ =>
      Return (map (fun c => sql_value (sql_digits c))
                (filter (fun c => sql_eq_any (sql_digits c) normalized_list)
                   (flat_booking_orders t)))
  end.

(** The rows for [query_historical] of [batch_lookup]: the digits of
    [phone], then [tenant_name] and [tenant_property_name]. *)
Definition execute_historical_batch (db : Database) (t : Tables)
    (normalized_list : list pyval) : Exc (list (pyval * (pyval * pyval))) :=
  match fault db with
  | HistoricalQueryRaises => Raised
  | _ =>
      Return (map (fun r => (sql_value (sql_digits (phone r)),
                             (tenant_name r, tenant_property_name r)))
                (filter (fun r => sql_eq_any (sql_digits (phone r)) normalized_list
                                  || sql_eq_any (sql_digits (mobile r)) normalized_list)
                   (all_tenants_data t)))
  end.

(** [query_live] of [is_tenant] with [fetchone()]: the first group. *)
Definition execute_live_one (db : Database) (t : Tables)
    (normalized_phone : pyval) : Exc (option pyval) :=
  match fault db with
  | LiveQueryRaises => Raised
  | _ =>
      Return (option_map sql_value
                (find (fun c => sql_eq (sql_digits c) normalized_phone)
                   (flat_booking_orders t)))
  end.

(** [query_historical] of [is_tenant] with [fetchone()]. *)
Definition execute_historical_one (db : Database) (t : Tables)
    (normalized_phone : pyval) : Exc (option HistoricalRow) :=
  match fault db with
  | HistoricalQueryRaises => Raised
  | _ =>
      Return (find (fun r => sql_eq (sql_digits (phone r)) normalized_phone
                             || sql_eq (sql_digits (mobile r)) normalized_phone)
                (all_tenants_data t))
  end.

(* ================================================================= *)
(** ** tenant_lookup.py : is_tenant and batch_lookup *)

Definition HISTORICAL_TABLE : string := "all_tenants_data_upto_2025_09_09".
Definition LIVE_TABLE : string := "flat_booking_orders".

(** [(is_tenant, source, tenant_info)]. *)
Definition LookupResult : Type :=
  (bool * pyval * option (list (string * pyval)))%type.

Definition is_tenant (db : Database) (phone_number : pyval) : LookupResult :=
  if negb (truthy phone_number) then (false, PyNone, None)
  else
    let normalized_phone := normalize_phone phone_number in
    if negb (truthy normalized_phone) then (false, PyNone, None)
    else
      try_except
        (conn <- _get_connection db ;;
         result <- execute_live_one db conn normalized_phone ;;
         match result with
         | Some row0 =>
             Return (true, PyStr "service",
                     Some [("phone", row0);
                           ("found_in", PyStr "live_data");
                           ("table", PyStr LIVE_TABLE)])
         | None =>
             result <- execute_historical_one db conn normalized_phone ;;
             match result with
             | Some r =>
                 Return (true, PyStr "service",
                         Some [("phone", sql_value (phone r));
                               ("name", tenant_name r);
                               ("property", tenant_property_name r);
                               ("booking_id", tenant_booking_id r);
                               ("found_in", PyStr "historical_data");
                               ("table", PyStr HISTORICAL_TABLE)])
             | None => Return (false, PyStr "enquiry", None)
             end
         end)
        (false, PyStr "unknown", None).

(** [{self.normalize_phone(p): p for p in phone_numbers if p}]. *)
Definition normalized_phones_of (phone_numbers : list pyval) : list (pyval * pyval) :=
  fold_left (fun d p => dict_set pyval_eqb d (normalize_phone p) p)
    (filter truthy phone_numbers) [].

(** The body of the [for normalized, original in ...items()] loop. *)
Definition classify_entry (live_results : list pyval)
    (historical_results : list (pyval * list (string * pyval)))
    (results : list (pyval * LookupResult)) (entry : pyval * pyval)
    : list (pyval * LookupResult) :=
  let (normalized, original) := entry in
  if py_in normalized live_results then
    dict_set pyval_eqb results original
      (true, PyStr "service", Some [("found_in", PyStr "live_data")])
  else
    match dict_get pyval_eqb historical_results normalized with
    | Some h =>
        dict_set pyval_eqb results original
          (true, PyStr "service",
           Some (("found_in", PyStr "historical_data") :: h))
    | None =>
        dict_set pyval_eqb results original (false, PyStr "enquiry", None)
    end.

Definition batch_lookup (db : Database) (phone_numbers : list pyval)
    : list (pyval * LookupResult) :=
  let results : list (pyval * LookupResult) := [] in
  match phone_numbers with
  | [] => results
  | _ =>
      let normalized_phones := normalized_phones_of phone_numbers in
      match normalized_phones with
      | [] => results
      | _ =>
          try_except
            (conn <- _get_connection db ;;
             let normalized_list := map fst normalized_phones in
             live_rows <- execute_live_batch db conn normalized_list ;;
             let live_results := live_rows in
             hist_rows <- execute_historical_batch db conn normalized_list ;;
             let historical_results :=
               fold_left
                 (fun d row =>
                    dict_set pyval_eqb d (fst row)
                      [("name", fst (snd row)); ("property", snd (snd row))])
                 hist_rows [] in
             Return (fold_left (classify_entry live_results historical_results)
                       normalized_phones results))
            results
      end
  end.

(** The stored phone of some live row has the digits of key [k]. *)
Definition live_match (t : Tables) (k : pyval) : bool :=
  existsb (fun c => sql_eq (sql_digits c) k) (flat_booking_orders t).

(** Some historical row has the digits of key [k] in [phone] or in
    [mobile]. *)
Definition historical_match (t : Tables) (k : pyval) : bool :=
  existsb (fun r => sql_eq (sql_digits (phone r)) k || sql_eq (sql_digits (mobile r)) k)
    (all_tenants_data t).

(** [p] is the raw string the key map keeps for its key: the last
    truthy entry of the batch that normalises to that key. *)
Definition retained (phone_numbers : list pyval) (p : pyval) : bool :=
  match find (fun q => pyval_eqb (normalize_phone q) (normalize_phone p))
          (rev (filter truthy phone_numbers)) with
  | Some q => pyval_eqb q p
  | None => false
  end.

Definition LIVE_RESULT : LookupResult :=
  (true, PyStr "service", Some [("found_in", PyStr "live_data")]).

(** The result tuple the loop of [batch_lookup] assigns for a key. *)
Definition classification (live_results : list pyval)
    (historical_results : list (pyval * list (string * pyval)))
    (normalized : pyval) : LookupResult :=
  if py_in normalized live_results then LIVE_RESULT
  else
    match dict_get pyval_eqb historical_results normalized with
    | Some h =>
        (true, PyStr "service", Some (("found_in", PyStr "historical_data") :: h))
    | None => (false, PyStr "enquiry", None)
    end.

(** [live_results] and [historical_results] of [batch_lookup] when both
    statements run. *)
Definition live_results_of (t : Tables) (normalized_list : list pyval) : list pyval :=
  map (fun c => sql_value (sql_digits c))
    (filter (fun c => sql_eq_any (sql_digits c) normalized_list)
       (flat_booking_orders t)).

Definition historical_results_of (t : Tables) (normalized_list : list pyval)
    : list (pyval * list (string * pyval)) :=
  fold_left
    (fun d row =>
       dict_set pyval_eqb d (fst row)
         [("name", fst (snd row)); ("property", snd (snd row))])
    (map (fun r => (sql_value (sql_digits (phone r)),
                    (tenant_name r, tenant_property_name r)))
       (filter (fun r => sql_eq_any (sql_digits (phone r)) normalized_list
                         || sql_eq_any (sql_digits (mobile r)) normalized_list)
          (all_tenants_data t)))
    [].

(** [is_service_call] and [categorize_call], the module's convenience
    wrappers around [is_tenant]. *)
Definition categorize_call (db : Database) (phone_number : pyval) : pyval :=
  let '(_, call_type, _) := is_tenant db phone_number in
  if pyval_eqb call_type (PyStr "unknown") then PyStr "enquiry" else call_type.

(* ================================================================= *)
(** ** lambda_handler.py / app.py : ExotelAnalytics.fetch_calls *)

(** One call record of the Exotel API, with the columns the
    categorisation and the count metrics read.  Every record carries
    its [Sid]; any other cell is [PyNaN] when the record has no such
    key and [PyNone] when it is JSON null.  An integer cell is a JSON
    integer that fits a signed 64-bit word.  Of [DateCreated] and
    [Duration] the model keeps the cells; what pandas makes of them is
    part of the library interface below. *)
Record CallRecord : Type := {
  Sid : string;
  Direction : pyval;
  From : pyval;
  To : pyval;
  PhoneNumber : pyval;
  Status : pyval;
  DateCreated : pyval;
  Duration : pyval
}.

(** The parsed body of one response: [data.get('Calls', [])] and
    [data.get('Metadata', {}).get('NextPageUri')]. *)
Record Page : Type := {
  Calls : list CallRecord;
  NextPageUri : pyval
}.

Record Request : Type := {
  req_url : string;
  req_params : list (string * string)
}.

(** What [requests.get] does: it raises (timeout, connection failure)
    or gives a response with a status code, whose [.json()] returns the
    body or raises. *)
Inductive Response : Type :=
| ConnectionError
| HttpResponse (status_code : Z) (json : Exc Page).

(** The telephony API: the answer to the [n]-th request of the run. *)
Definition Api : Type := nat -> Request -> Response.

Definition PAGE_SIZE : nat := 100.

(** The loop variables, with a log of the requests issued so far and
    the responses they got. *)
Record FetchState : Type := {
  url : string;
  params : list (string * string);
  page : nat;
  all_calls : list CallRecord;
  log : list (Request * Response)
}.

(** How one pass through the body of [while True] ends. *)
Inductive LoopStep : Type :=
| Continue (st : FetchState)
| Break (st : FetchState)
| Raise (st : FetchState).

Definition current_request (st : FetchState) : Request :=
  {| req_url := url st; req_params := params st |}.

Definition fetch_iteration (api : Api) (st : FetchState) : LoopStep :=
  let req := current_request st in
  let response := api (List.length (log st)) req in
  let st1 := {| url := url st; params := params st; page := page st;
                all_calls := all_calls st;
                log := log st ++ [(req, response)] |} in
  match response with
  | ConnectionError => Raise st1
  | HttpResponse status_code json =>
      if (status_code =? 200)%Z then
        match json with
        | Raised => Raise st1
        | Return data =>
            match Calls data with
            | [] => Break st1
            | calls =>
                let st2 := {| url := url st; params := params st; page := page st;
                              all_calls := all_calls st ++ calls;
                              log := log st1 |} in
                if negb (truthy (NextPageUri data)) then Break st2
                else
                  Continue {| url := ("https://api.exotel.com" ++ py_str (NextPageUri data))%string;
                              params := [];
                              page := page st + 1;
                              all_calls := all_calls st2;
                              log := log st1 |}
            end
        end
      else Break st1
  end.

(** The outcome of a run: the list the function returns, the requests
    it issued with their responses, in order, and [all_calls] as it
    stood on leaving the loop. *)
Record FetchRun : Type := {
  returned : list CallRecord;
  exchanges : list (Request * Response);
  fetched : list CallRecord
}.

(** [while True: ...] inside [try]; [None] when the loop is still
    running after [fuel] iterations. *)
Fixpoint fetch_loop (fuel : nat) (api : Api) (st : FetchState) : option FetchRun :=
  match fuel with
  | O => None
  | S fuel' =>
      match fetch_iteration api st with
      | Continue st' => fetch_loop fuel' api st'
      | Break st' =>
          Some {| returned := all_calls st'; exchanges := log st';
                  fetched := all_calls st' |}
      | Raise st' =>
          Some {| returned := []; exchanges := log st';
                  fetched := all_calls st' |}
      end
  end.

Definition fetch_init (base_url date_filter : string) : FetchState :=
  {| url := (base_url ++ "/Calls.json")%string;
     params := [("DateCreated", date_filter);
                ("PageSize", "100");
                ("SortBy", "DateCreated:desc")];
     page := 1;
     all_calls := [];
     log := [] |}.

(** [fetch_calls], from the point where the date filter has been
    formatted. *)
Definition fetch_calls (fuel : nat) (api : Api) (base_url date_filter : string)
    : option FetchRun :=
  fetch_loop fuel api (fetch_init base_url date_filter).

(** The state after [k] passes that all ended in [Continue]. *)
Fixpoint state_after (api : Api) (k : nat) (st : FetchState) : option FetchState :=
  match k with
  | O => Some st
  | S k' =>
      match fetch_iteration api st with
      | Continue st' => state_after api k' st'
      | _ => None
      end
  end.

(** A response after which the loop issues another request: status
    200, a page with records, and a next-page cursor. *)
Definition continues (r : Response) : bool :=
  match r with
  | HttpResponse status_code (Return data) =>
      (status_code =? 200)%Z
      && negb (Nat.eqb (List.length (Calls data)) 0)
      && truthy (NextPageUri data)
  | _ => false
  end.

(** The records a response contributes to [all_calls]. *)
Definition page_calls (r : Response) : list CallRecord :=
  match r with
  | HttpResponse status_code (Return data) =>
      if (status_code =? 200)%Z then Calls data else []
  | _ => []
  end.

(** A response on which the [try] block is left by an exception:
    [requests.get] raised, or the body of a 200 response did not
    parse. *)
Definition raises (r : Response) : bool :=
  match r with
  | ConnectionError => true
  | HttpResponse status_code Raised => (status_code =? 200)%Z
  | _ => false
  end.

(** A response with a status other than 200. *)
Definition non_success (r : Response) : bool :=
  match r with
  | HttpResponse status_code _ => negb (status_code =? 200)%Z
  | ConnectionError => false
  end.

(** An exchange whose response made the loop go on. *)
Definition snd_continues (x : Request * Response) : Prop := continues (snd x) = true.

(** An exchange whose page, if the loop goes on after it, is full. *)
Definition full_page (page_size : nat) (x : Request * Response) : Prop :=
  continues (snd x) = true -> page_size <= List.length (page_calls (snd x)).

(** [ceil(a / b)]. *)
Definition ceil_div (a b : nat) : nat := (a + b - 1) / b.

(* ================================================================= *)
(** ** Python floats *)

(** The float operations the percentage expressions use, taken as an
    interface: true division of two ints, multiplication of a float by
    an int, [round(x, ndigits)], the conversion of an int and the
    order.  With them, three more library operations of the analytics:
    [float_str z] is [str(float(z))]; [to_datetime_raises column cells]
    tells whether [pd.to_datetime] with the [.dt] accessors after it
    raises on the cells [cells] of a column that the frame built from
    [column]; [mean_raises column cells] tells the same of [.mean()]. *)
Class FloatOps (F : Type) : Type := {
  truediv : Z -> Z -> F;
  fmul_int : F -> Z -> F;
  round_ndigits : F -> Z -> F;
  float_of_int : Z -> F;
  fle : F -> F -> Prop;
  float_str : Z -> string;
  to_datetime_raises : list pyval -> list pyval -> bool;
  mean_raises : list pyval -> list pyval -> bool
}.

(** A number cell that holds an int or a float. *)
Inductive pynum (F : Type) : Type :=
| NumInt (z : Z)
| NumFloat (f : F).
Arguments NumInt {F} z.
Arguments NumFloat {F} f.

(** [round((part / whole) * 100, 1)]. *)
Definition percent_of {F : Type} {ops : FloatOps F} (part whole : Z) : pynum F :=
  NumFloat (round_ndigits (fmul_int (truediv part whole) 100) 1).

(** [lo <= x <= hi] for a number cell and int bounds. *)
Definition pynum_between {F : Type} {ops : FloatOps F} (lo hi : Z) (x : pynum F) : Prop :=
  match x with
  | NumInt z => (lo <= z <= hi)%Z
  | NumFloat f => fle (float_of_int lo) f /\ fle f (float_of_int hi)
  end.

(* ================================================================= *)
(** ** lambda_handler.py / app.py : ExotelAnalytics.process_analytics *)

(** The count metrics and the two percentages of the analytics dict. *)
Record Analytics (F : Type) : Type := {
  total_calls : Z;
  incoming_calls : Z;
  outgoing_calls : Z;
  answered_calls : Z;
  missed_calls : Z;
  service_calls : Z;
  enquiry_calls : Z;
  service_percentage : pynum F;
  enquiry_percentage : pynum F
}.
Arguments total_calls {F} _.
Arguments incoming_calls {F} _.
Arguments outgoing_calls {F} _.
Arguments answered_calls {F} _.
Arguments missed_calls {F} _.
Arguments service_calls {F} _.
Arguments enquiry_calls {F} _.
Arguments service_percentage {F} _.
Arguments enquiry_percentage {F} _.

(** ['col' in df.columns]: some record carries the key. *)
Definition has_column (col : CallRecord -> pyval) (calls : list CallRecord) : bool :=
  existsb (fun r => negb (pyval_eqb (col r) PyNaN)) calls.

(** The dtype pandas infers for a column of the frame. *)
Inductive dtype : Type :=
| ObjectDtype
| Int64Dtype
| Float64Dtype.

Definition is_text (v : pyval) : bool :=
  match v with PyStr _ => true | _ => false end.

Definition is_int (v : pyval) : bool :=
  match v with PyInt _ => true | _ => false end.

Definition is_null (v : pyval) : bool :=
  match v with PyNone | PyNaN => true | _ => false end.

(** [pd.DataFrame(calls)] column by column: a string makes the column
    [object], and its cells stay as they are; integers alone give
    [int64]; integers with a null or a missing cell give [float64], as
    do nulls with missing cells; nulls alone stay [object]. *)
Definition column_dtype (column : list pyval) : dtype :=
  if existsb is_text column then ObjectDtype
  else if existsb is_int column then
    if existsb is_null column then Float64Dtype else Int64Dtype
  else if forallb (fun v => pyval_eqb v PyNone) column then ObjectDtype
  else Float64Dtype.

Section Frame.
Context {F : Type} {ops : FloatOps F}.

(** [str(cell)] for a cell of a column built from [column]: in a
    [float64] column an integer has become a float and a null NaN. *)
Definition stored_str (column : list pyval) (v : pyval) : string :=
  match column_dtype column with
  | Float64Dtype =>
      match v with
      | PyInt z => float_str z
      | _ => "nan"
      end
  | _ => py_str v
  end.

(** [str(row.get('col', ''))]. *)
Definition cell_str (col : CallRecord -> pyval) (calls : list CallRecord)
    (row : CallRecord) : string :=
  if has_column col calls then stored_str (map col calls) (col row) else "".

(** The exophone filter of the frame. *)
Definition filter_exophone (calls : list CallRecord) (exophone_filter : option string)
    : list CallRecord :=
  match exophone_filter with
  | Some flt =>
      if negb (String.eqb flt "")
         && (has_column PhoneNumber calls || has_column To calls)
      then
        let filter_digits := str_suffix 10 (str_filter isdigit flt) in
        let matches_exophone row :=
          let phone_num := cell_str PhoneNumber calls row in
          let to_num := cell_str To calls row in
          str_contains filter_digits phone_num || str_contains filter_digits to_num in
        filter matches_exophone calls
      else calls
  | None => calls
  end.

(** A cell of the [From] column as [batch_lookup] gets it.  Of a phone
    [batch_lookup] uses the truth value, [str()] and the identity as a
    dict key.  In a [float64] column the float of a non-zero integer
    has the truth value, the text and the identity of the string
    [str(float)], and is passed as that string; [0.0] is falsy like the
    integer 0; a null is NaN. *)
Definition stored_phone (column : list pyval) (v : pyval) : pyval :=
  match column_dtype column with
  | Float64Dtype =>
      match v with
      | PyInt z => if (z =? 0)%Z then PyInt 0 else PyStr (float_str z)
      | _ => PyNaN
      end
  | _ => v
  end.

End Frame.

(** [series.unique().tolist()]: the values in order of first
    appearance. *)
Definition unique (l : list pyval) : list pyval :=
  fold_left (fun acc x => if py_in x acc then acc else acc ++ [x]) l [].

Definition is_inbound (r : CallRecord) : bool :=
  pyval_eqb (Direction r) (PyStr "inbound").

(** [df.merge(incoming_df[['Sid', 'call_category']], on='Sid', how='left')]:
    every left row once per right row with its Sid, or once with a
    missing category when there is none. *)
Definition merge_left (df : list CallRecord) (right : list (string * pyval))
    : list (CallRecord * pyval) :=
  flat_map
    (fun l =>
       match filter (fun m => String.eqb (fst m) (Sid l)) right with
       | [] => [(l, PyNaN)]
       | ms => map (fun m => (l, snd m)) ms
       end)
    df.

(** [series.fillna(value)]. *)
Definition fillna (value : pyval) (v : pyval) : pyval :=
  match v with
  | PyNone | PyNaN => value
  | _ => v
  end.

(** The local [categorize_call(phone)] of [process_analytics]: the
    call type of [lookup_results.get(phone, (False, 'enquiry', None))]. *)
Definition lookup_category (lookup_results : list (pyval * LookupResult))
    (phone : pyval) : pyval :=
  let '(_, call_type, _) :=
    dict_get_default pyval_eqb lookup_results phone
      (false, PyStr "enquiry", None) in
  call_type.

(** [categorize_call] on a cell of the [From] column.  The NaN of an
    [object] column is one object, which the dict finds again; a NaN of
    a [float64] column is boxed anew each time it is read, so [.get]
    misses it and gives the default. *)
Definition frame_category (column : list pyval)
    (lookup_results : list (pyval * LookupResult)) (phone : pyval) : pyval :=
  match column_dtype column, phone with
  | Float64Dtype, PyNaN => PyStr "enquiry"
  | _, _ => lookup_category lookup_results phone
  end.

Section Categorize.
Context {F : Type} {ops : FloatOps F}.

(** The frame with its [call_category] column. *)
Definition categorize (db : Database) (calls df : list CallRecord)
    : list (CallRecord * pyval) :=
  if has_column Direction calls && has_column From calls then
    let incoming_df := filter is_inbound df in
    if 0 <? List.length incoming_df then
      let from_cell r := stored_phone (map From calls) (From r) in
      let phone_numbers := unique (map from_cell incoming_df) in
      let lookup_results := batch_lookup db phone_numbers in
      let incoming_cat :=
        map (fun r => (Sid r,
                       frame_category (map From calls) lookup_results (from_cell r)))
          incoming_df in
      map (fun row => (fst row, fillna (PyStr "outgoing") (snd row)))
        (merge_left df incoming_cat)
    else map (fun r => (r, PyStr "outgoing")) df
  else map (fun r => (r, PyStr "unknown")) df.

(** The category the frame gives the inbound row [r] of [df]. *)
Definition inbound_category (db : Database) (calls df : list CallRecord)
    (r : CallRecord) : pyval :=
  frame_category (map From calls)
    (batch_lookup db
       (unique (map (fun r => stored_phone (map From calls) (From r))
                  (filter is_inbound df))))
    (stored_phone (map From calls) (From r)).

End Categorize.

(** [series.str] on the cells left of a column: the accessor raises
    for a column that is not [object], and for an [object] column whose
    cells left hold an integer and no string. *)
Definition str_accessor_raises (column cells : list pyval) : bool :=
  match column_dtype column with
  | ObjectDtype => existsb is_int cells && negb (existsb is_text cells)
  | _ => true
  end.

Definition count_rows {A : Type} (p : A -> bool) (rows : list A) : Z :=
  Z.of_nat (List.length (filter p rows)).

Definition is_outbound (r : CallRecord) : bool :=
  match Direction r with
  | PyStr s => startswith s "outbound"
  | _ => false
  end.

Definition is_missed (r : CallRecord) : bool :=
  pyval_eqb (Status r) (PyStr "no-answer")
  || pyval_eqb (Status r) (PyStr "failed")
  || pyval_eqb (Status r) (PyStr "busy").

Definition has_category (c : string) (row : CallRecord * pyval) : bool :=
  pyval_eqb (snd row) (PyStr c).

Definition process_analytics {F : Type} {ops : FloatOps F}
    (db : Database) (calls : list CallRecord) (exophone_filter : option string)
    : option (Analytics F) :=
  match calls with
  | [] => None
  | _ =>
      let df := filter_exophone calls exophone_filter in
      if List.length df =? 0 then None
      else if has_column DateCreated calls
              && to_datetime_raises (map DateCreated calls) (map DateCreated df)
      then None
      else
        let df := categorize db calls df in
        let has_direction := has_column Direction calls in
        let has_status := has_column Status calls in
        let total := Z.of_nat (List.length df) in
        let incoming :=
          if has_direction then count_rows (fun row => is_inbound (fst row)) df
          else 0%Z in
        let outgoing :=
          if has_direction then count_rows (fun row => is_outbound (fst row)) df
          else 0%Z in
        let answered :=
          if has_status
          then count_rows (fun row => pyval_eqb (Status (fst row)) (PyStr "completed")) df
          else 0%Z in
        let missed :=
          if has_status then count_rows (fun row => is_missed (fst row)) df
          else 0%Z in
        let service := count_rows (has_category "service") df in
        let enquiry := count_rows (has_category "enquiry") df in
        if (has_direction
            && str_accessor_raises (map Direction calls)
                 (map (fun row => Direction (fst row)) df))
           || (has_column Duration calls
               && mean_raises (map Duration calls)
                    (map (fun row => Duration (fst row)) df))
        then None
        else
        Some {| total_calls := total;
                incoming_calls := incoming;
                outgoing_calls := outgoing;
                answered_calls := answered;
                missed_calls := missed;
                service_calls := service;
                enquiry_calls := enquiry;
                service_percentage :=
                  if (incoming >? 0)%Z then percent_of service incoming
                  else NumInt 0;
                enquiry_percentage :=
                  if (incoming >? 0)%Z then percent_of enquiry incoming
                  else NumInt 0 |}
  end.

(* ================================================================= *)
(** ** app.py : calculate_comparison *)

Record Comparison (F : Type) : Type := {
  total_calls_change : Z;
  incoming_calls_change : Z;
  service_calls_change : Z;
  enquiry_calls_change : Z;
  total_calls_pct : pynum F;
  incoming_calls_pct : pynum F;
  service_calls_pct : pynum F;
  enquiry_calls_pct : pynum F
}.
Arguments total_calls_change {F} _.
Arguments incoming_calls_change {F} _.
Arguments service_calls_change {F} _.
Arguments enquiry_calls_change {F} _.
Arguments total_calls_pct {F} _.
Arguments incoming_calls_pct {F} _.
Arguments service_calls_pct {F} _.
Arguments enquiry_calls_pct {F} _.

(** The comparison dict as initialised: every entry the int [0]. *)
Definition neutral_comparison {F : Type} : Comparison F :=
  {| total_calls_change := 0;
     incoming_calls_change := 0;
     service_calls_change := 0;
     enquiry_calls_change := 0;
     total_calls_pct := NumInt 0;
     incoming_calls_pct := NumInt 0;
     service_calls_pct := NumInt 0;
     enquiry_calls_pct := NumInt 0 |}.

(** One percentage entry: assigned only under [previous > 0]. *)
Definition change_pct {F : Type} {ops : FloatOps F} (change previous : Z) : pynum F :=
  if (previous >? 0)%Z then percent_of change previous else NumInt 0.

(** The two arguments are what [process_analytics] returned: [None] or
    an analytics dict, which carries all four keys. *)
Definition calculate_comparison {F : Type} {ops : FloatOps F}
    (current_analytics previous_analytics : option (Analytics F)) : Comparison F :=
  match previous_analytics, current_analytics with
  | Some previous, Some current =>
      let total_change := (total_calls current - total_calls previous)%Z in
      let incoming_change := (incoming_calls current - incoming_calls previous)%Z in
      let service_change := (service_calls current - service_calls previous)%Z in
      let enquiry_change := (enquiry_calls current - enquiry_calls previous)%Z in
      {| total_calls_change := total_change;
         incoming_calls_change := incoming_change;
         service_calls_change := service_change;
         enquiry_calls_change := enquiry_change;
         total_calls_pct := change_pct total_change (total_calls previous);
         incoming_calls_pct := change_pct incoming_change (incoming_calls previous);
         service_calls_pct := change_pct service_change (service_calls previous);
         enquiry_calls_pct := change_pct enquiry_change (enquiry_calls previous) |}
  | _, _ => neutral_comparison
  end.

(* ================================================================= *)
(** ** An exact reading of the float interface *)

(** Rationals in place of binary floats: exact division and product,
    and rounding to [ndigits] decimals, halves upwards. *)
Definition exact_round (x : Q) (ndigits : Z) : Q :=
  (inject_Z (Qfloor (x * inject_Z (10 ^ ndigits) + (1 # 2)))
   / inject_Z (10 ^ ndigits))%Q.

Definition exact_ops : FloatOps Q :=
  {| truediv := fun a b => (inject_Z a / inject_Z b)%Q;
     fmul_int := fun x n => (x * inject_Z n)%Q;
     round_ndigits := exact_round;
     float_of_int := inject_Z;
     fle := Qle;
     float_str := fun z => (NilZero.string_of_int (Z.to_int z) ++ ".0")%string;
     to_datetime_raises := fun _ cells => existsb (fun v => pyval_eqb v (PyStr "n/a")) cells;
     mean_raises := fun _ cells => existsb is_text cells |}.

(* ================================================================= *)
(** ** Sample tables, batches, records and APIs *)

Definition sample_tables : Tables :=
  {| flat_booking_orders := [Some "+91 98765-43210"];
     all_tenants_data :=
       [{| phone := Some "919876543210"; mobile := None;
           tenant_name := PyStr "A Tenant"; tenant_property_name := PyStr "Block C";
           tenant_booking_id := PyInt 7 |}] |}.

Definition sample_db : Database := {| fault := NoFault; tables := sample_tables |}.

Definition sample_db_down : Database :=
  {| fault := HistoricalQueryRaises; tables := sample_tables |}.

(** Two spellings of one subscriber. *)
Definition sample_batch : list pyval := [PyStr "+919876543210"; PyStr "9876543210"].

Definition sample_call (sid from direction : string) : CallRecord :=
  {| Sid := sid; Direction := PyStr direction; From := PyStr from;
     To := PyStr "08047361499"; PhoneNumber := PyStr "08047361499";
     Status := PyStr "completed";
     DateCreated := PyStr "2025-10-16 10:00:00"; Duration := PyInt 60 |}.

Definition sample_calls : list CallRecord :=
  [sample_call "c1" "+919876543210" "inbound";
   sample_call "c2" "9876543210" "inbound";
   sample_call "c3" "08041234567" "outbound-dial"].

Definition sample_page (sid : string) (next : pyval) : Response :=
  HttpResponse 200
    (Return {| Calls := [sample_call sid "9876543210" "inbound"]; NextPageUri := next |}).

(** Three pages of one record each, the first two with a cursor. *)
Definition api_short_pages : Api :=
  fun n _ =>
    if n <? 2 then sample_page "s" (PyStr "/v1/Accounts/acc/Calls.json?After=x")
    else sample_page "s" PyNone.

(** One page with a cursor, then the connection times out. *)
Definition api_timeout : Api :=
  fun n _ =>
    match n with
    | O => sample_page "s" (PyStr "/v1/Accounts/acc/Calls.json?After=x")
    | _ => ConnectionError
    end.

(** One page with a cursor, then status 500. *)
Definition api_error_500 : Api :=
  fun n _ =>
    match n with
    | O => sample_page "s" (PyStr "/v1/Accounts/acc/Calls.json?After=x")
    | _ => HttpResponse 500 Raised
    end.

Definition sample_base_url : string := "https://api.exotel.com/v1/Accounts/acc".
Definition sample_date_filter : string := "gte:2025-10-16 00:00:00;lte:2025-10-17 23:59:59".

(* ================================================================= *)
(** ** tenant_lookup.py : the convenience wrappers and match predicates *)

(** Some historical row has the digits of key [k] in its [phone]
    column. *)
Definition historical_phone_match (t : Tables) (k : pyval) : bool :=
  existsb (fun r => sql_eq (sql_digits (phone r)) k) (all_tenants_data t).

(** [is_service_call]: [is_tenant and call_type == 'service']. *)
Definition is_service_call (db : Database) (phone_number : pyval) : bool :=
  let '(is_t, call_type, _) := is_tenant db phone_number in
  is_t && pyval_eqb call_type (PyStr "service").

(** The [name] and [property] entries [batch_lookup] keeps of a
    historical row. *)
Definition historical_info (r : HistoricalRow) : list (string * pyval) :=
  [("name", tenant_name r); ("property", tenant_property_name r)].

(** A historical row whose alternate number is a caller's and whose
    primary number is another one; no live rows. *)
Definition sample_tables_mobile : Tables :=
  {| flat_booking_orders := [];
     all_tenants_data :=
       [{| phone := Some "+91 80412 34567"; mobile := Some "+91 98765 43210";
           tenant_name := PyStr "A Tenant"; tenant_property_name := PyStr "Block C";
           tenant_booking_id := PyInt 7 |}] |}.

Definition sample_db_mobile : Database :=
  {| fault := NoFault; tables := sample_tables_mobile |}.

(* ================================================================= *)
(** ** fetch_calls : the requests of a run *)

(** The request that follows a page: the cursor appended to the host,
    and no parameters. *)
Definition next_request (data : Page) : Request :=
  {| req_url := ("https://api.exotel.com" ++ py_str (NextPageUri data))%string;
     req_params := [] |}.

Definition first_request (base_url date_filter : string) : Request :=
  {| req_url := (base_url ++ "/Calls.json")%string;
     req_params := [("DateCreated", date_filter);
                    ("PageSize", "100");
                    ("SortBy", "DateCreated:desc")] |}.

(** A list of exchanges that starts with request [req] and in which
    every further request is [next_request] of the body received just
    before. *)
Inductive cursor_chain : Request -> list (Request * Response) -> Prop :=
| chain_last (req : Request) (resp : Response) :
    cursor_chain req [(req, resp)]
| chain_next (req : Request) (status_code : Z) (data : Page)
    (rest : list (Request * Response)) :
    cursor_chain (next_request data) rest ->
    cursor_chain req ((req, HttpResponse status_code (Return data)) :: rest).

(* ================================================================= *)
(** ** process_analytics : the rows of the merged frame *)

(** The rows of [merge_left] without the category column: every left
    row once per right row with its Sid, and once when there is none. *)
Definition merge_rows (df : list CallRecord) (sids : list string) : list CallRecord :=
  flat_map (fun l => repeat l (Nat.max 1 (count_occ string_dec sids (Sid l)))) df.

(** The last ten digits of the exophone filter. *)
Definition filter_digits_of (flt : string) : string :=
  str_suffix 10 (str_filter isdigit flt).

(** The rows of the frame after the categorisation. *)
Definition frame_rows (calls df : list CallRecord) : list CallRecord :=
  if has_column Direction calls && has_column From calls
  then merge_rows df (map Sid (filter is_inbound df))
  else df.

Section FrameRaises.
Context {F : Type} {ops : FloatOps F}.

(** Whether pandas raises inside the [try] of [process_analytics] once
    rows are left after the filter: in the conversion of [DateCreated],
    in [.str.startswith] on [Direction], or in the mean of
    [Duration]. *)
Definition frame_raises (calls : list CallRecord) (flt : option string) : bool :=
  let df := filter_exophone calls flt in
  let rows := frame_rows calls df in
  (has_column DateCreated calls
   && to_datetime_raises (map DateCreated calls) (map DateCreated df))
  || (has_column Direction calls
      && str_accessor_raises (map Direction calls) (map Direction rows))
  || (has_column Duration calls
      && mean_raises (map Duration calls) (map Duration rows)).

End FrameRaises.

(* ================================================================= *)
(** ** lambda_handler.py : send_email_via_infobip and lambda_handler *)

(** [api_key if api_key.startswith("App ") else f"App {api_key}"]. *)
Definition authorization_header (api_key : string) : string :=
  if startswith api_key "App " then api_key else ("App " ++ api_key)%string.

(** The POST of [send_email_via_infobip]: url, Authorization header and
    the four form fields. *)
Record EmailRequest : Type := {
  post_url : string;
  authorization : string;
  email_from : string;
  email_to : string;
  email_subject : string;
  email_html : string
}.

(** What [lambda_handler] returns: the status code and the shape of the
    JSON body. *)
Inductive HandlerBody : Type :=
| MissingEnv (missing_fields : list string)
| NoCalls (date_range : string)
| AnalyticsFailed
| ReportSent (date_range : string) (total : Z) (email_sent_to : pyval)
| EmailFailed.

Section Handler.
Context {F : Type} {ops : FloatOps F}.

(** Library and template parts taken as given: dates with
    [datetime.strptime(s, '%Y-%m-%d')] ([None] when it raises),
    [strftime('%Y-%m-%d')] and [+ timedelta(days=n)] ([None] for the
    [OverflowError] of a day outside the years 1 to 9999); the emoji that
    opens the subject; the HTML template, whose formatting can raise;
    and the Infobip endpoint, which answers a POST with a status code
    or raises. *)
Variable Date : Type.
Variable strptime : string -> option Date.
Variable strftime_day : Date -> string.
Variable add_days : Date -> Z -> option Date.
Variable chart_emoji : string.
Variable render_html : Analytics F -> string -> Exc string.
Variable post : EmailRequest -> Exc Z.

(** The head of [fetch_calls]: the [DateCreated] filter, from the first
    day at 00:00:00 to the day after the last at 23:59:59. *)
Definition date_filter_of (start_date end_date : string) : Exc string :=
  match strptime start_date with
  | None => Raised
  | Some s =>
      match strptime end_date with
      | None => Raised
      | Some e =>
          match add_days e 1 with
          | None => Raised
          | Some next_day =>
              Return ("gte:" ++ (strftime_day s ++ " 00:00:00")
                      ++ ";lte:" ++ (strftime_day next_day ++ " 23:59:59"))%string
          end
      end
  end.

Definition exotel_base_url (account_sid : pyval) : string :=
  ("https://api.exotel.com/v1/Accounts/" ++ py_str account_sid)%string.

(** [ExotelAnalytics(...).fetch_calls(start_date, end_date)] as a
    whole: the list it returns, [None] while the loop is running. *)
Definition fetch_calls_dates (fuel : nat) (api : Api) (account_sid : pyval)
    (start_date end_date : string) : option (list CallRecord) :=
  match date_filter_of start_date end_date with
  | Raised => Some []
  | Return date_filter =>
      option_map returned
        (fetch_calls fuel api (exotel_base_url account_sid) date_filter)
  end.

Definition config_get (config : list (string * pyval)) (key : string) : pyval :=
  dict_get_default String.eqb config key PyNone.

Definition email_request (analytics_html : string) (start_date : string)
    (config : list (string * pyval)) : EmailRequest :=
  {| post_url := (py_str (config_get config "infobip_base_url") ++ "/email/3/send")%string;
     authorization := authorization_header (py_str (config_get config "infobip_api_key"));
     email_from := (py_str (config_get config "infobip_from_name") ++ " <"
                    ++ py_str (config_get config "infobip_from_email") ++ ">")%string;
     email_to := py_str (config_get config "recipient_email");
     email_subject := (chart_emoji ++ " Daily Exotel Analytics Report - " ++ start_date)%string;
     email_html := analytics_html |}.

Definition send_email_via_infobip (analytics : Analytics F)
    (start_date end_date : string) (config : list (string * pyval)) : bool :=
  if forallb truthy
       [config_get config "infobip_api_key"; config_get config "infobip_base_url";
        config_get config "infobip_from_email"; config_get config "recipient_email"]
  then
    try_except
      (html_content <- render_html analytics start_date ;;
       status_code <- post (email_request html_content start_date config) ;;
       Return ((200 <=? status_code)%Z && (status_code <? 300)%Z))
      false
  else false.

(** [os.environ.get(name)] and [os.environ.get(name, default)]. *)
Definition environ_get (env : string -> option string) (name : string) : pyval :=
  match env name with
  | Some v => PyStr v
  | None => PyNone
  end.

Definition environ_get_default (env : string -> option string) (name default : string)
    : pyval :=
  match env name with
  | Some v => PyStr v
  | None => PyStr default
  end.

Definition handler_config (env : string -> option string) : list (string * pyval) :=
  [("exotel_api_key", environ_get env "EXOTEL_API_KEY");
   ("exotel_api_token", environ_get env "EXOTEL_API_TOKEN");
   ("exotel_sid", environ_get env "EXOTEL_SID");
   ("exotel_account_sid", environ_get env "EXOTEL_ACCOUNT_SID");
   ("exophone_number", environ_get_default env "EXOPHONE_NUMBER" "");
   ("infobip_api_key", environ_get env "INFOBIP_API_KEY");
   ("infobip_base_url", environ_get_default env "INFOBIP_BASE_URL" "https://api.infobip.com");
   ("infobip_from_email", environ_get env "INFOBIP_FROM_EMAIL");
   ("infobip_from_name", environ_get_default env "INFOBIP_FROM_NAME" "Exotel Analytics");
   ("recipient_email", environ_get env "RECIPIENT_EMAIL")].

Definition required_fields : list string :=
  ["exotel_api_key"; "exotel_api_token"; "exotel_account_sid";
   "infobip_api_key"; "infobip_from_email"; "recipient_email"].

Definition missing_fields_of (config : list (string * pyval)) : list string :=
  filter (fun field => negb (truthy (config_get config field))) required_fields.

(** The report day: [event['date']] when given, else yesterday. *)
Definition handler_start (event_date : option string) (yesterday : string) : string :=
  match event_date with Some d => d | None => yesterday end.

(** [lambda_handler(event, context)]: [event_date] is [event['date']]
    when the event has it, [yesterday] is yesterday's date in IST as
    [strftime('%Y-%m-%d')] prints it. *)
Definition lambda_handler (env : string -> option string) (event_date : option string)
    (yesterday : string) (fuel : nat) (api : Api) (db : Database)
    : option (Z * HandlerBody) :=
  let config := handler_config env in
  match missing_fields_of config with
  | _ :: _ => Some (500%Z, MissingEnv (missing_fields_of config))
  | [] =>
      let start_date := handler_start event_date yesterday in
      let end_date := start_date in
      match fetch_calls_dates fuel api (config_get config "exotel_account_sid")
              start_date end_date with
      | None => None
      | Some [] =>
          Some (200%Z, NoCalls (start_date ++ " to " ++ end_date)%string)
      | Some calls =>
          let exophone_filter :=
            match config_get config "exophone_number" with
            | PyStr s => Some s
            | _ => None
            end in
          match process_analytics db calls exophone_filter with
          | None => Some (500%Z, AnalyticsFailed)
          | Some analytics =>
              if send_email_via_infobip analytics start_date end_date config then
                Some (200%Z,
                      ReportSent (start_date ++ " to " ++ end_date)%string
                        (total_calls analytics)
                        (config_get config "recipient_email"))
              else Some (500%Z, EmailFailed)
          end
      end
  end.

End Handler.

(* ================================================================= *)
(** ** Sample environment, dates and mail endpoint *)

Definition sample_env (name : string) : option string :=
  if String.eqb name "EXOTEL_API_KEY" then Some "key"
  else if String.eqb name "EXOTEL_API_TOKEN" then Some "token"
  else if String.eqb name "EXOTEL_ACCOUNT_SID" then Some "acc"
  else if String.eqb name "INFOBIP_API_KEY" then Some "mailkey"
  else if String.eqb name "INFOBIP_FROM_EMAIL" then Some "reports@example.com"
  else if String.eqb name "RECIPIENT_EMAIL" then Some "ops@example.com"
  else None.

(** Dates as day numbers counted from 2025-10-09; the sample parser
    knows four days. *)
Definition sample_strptime (s : string) : option Z :=
  if String.eqb s "2025-10-09" then Some 0%Z
  else if String.eqb s "2025-10-10" then Some 1%Z
  else if String.eqb s "2025-10-16" then Some 7%Z
  else if String.eqb s "2025-10-17" then Some 8%Z
  else None.

Definition sample_strftime_day (d : Z) : string :=
  if (d =? 0)%Z then "2025-10-09"
  else if (d =? 1)%Z then "2025-10-10"
  else if (d =? 7)%Z then "2025-10-16"
  else if (d =? 8)%Z then "2025-10-17"
  else "2025-10-18".

(** [+ timedelta(days=n)] on these day numbers: 0001-01-01 is day
    -739532 and 9999-12-31 day 2912526. *)
Definition sample_add_days (d n : Z) : option Z :=
  if ((d + n <? -739532) || (2912526 <? d + n))%Z then None else Some (d + n)%Z.

Definition sample_render {F : Type} (a : Analytics F) (start_date : string) : Exc string :=
  Return ("<html>" ++ start_date ++ "</html>")%string.

Definition sample_post (req : EmailRequest) : Exc Z := Return 200%Z.

(* ================================================================= *)
(** ** app.py : the analytics routes *)

(** The answers of [/api/analytics]: status code and body. *)
Inductive AnalyticsBody (F : Type) : Type :=
| DatesRequired
| NoDataAvailable
| ProcessingFailed
| AnalyticsOk (analytics : Analytics F).
Arguments DatesRequired {F}.
Arguments NoDataAvailable {F}.
Arguments ProcessingFailed {F}.
Arguments AnalyticsOk {F} analytics.

(** The answers of [/api/analytics-comparison]. *)
Inductive ComparisonBody (F : Type) : Type :=
| ComparisonDatesRequired
| NoCurrentData
| ComparisonError
| ComparisonOk (current : Analytics F) (previous : option (Analytics F))
    (comparison : Comparison F) (prev_start prev_end : string) (label : string).
Arguments ComparisonDatesRequired {F}.
Arguments NoCurrentData {F}.
Arguments ComparisonError {F}.
Arguments ComparisonOk {F} current previous comparison prev_start prev_end label.

Section Routes.
Context {F : Type} {ops : FloatOps F}.
Variable Date : Type.
Variable strptime : string -> option Date.
Variable strftime_day : Date -> string.
Variable add_days : Date -> Z -> option Date.

(** [not value] for a JSON string field read with [data.get(key)]. *)
Definition field_missing (value : option string) : bool :=
  match value with
  | Some s => String.eqb s ""
  | None => true
  end.

Definition field_text (value : option string) : string :=
  match value with
  | Some s => s
  | None => ""
  end.

(** [get_analytics]: the two request fields, the two entries of the
    global config it reads, and the API and database it reaches. *)
Definition get_analytics (start_date end_date : option string)
    (account_sid : pyval) (exophone_number : option string)
    (fuel : nat) (api : Api) (db : Database) : option (Z * AnalyticsBody F) :=
  if field_missing start_date || field_missing end_date
  then Some (400%Z, DatesRequired)
  else
    match fetch_calls_dates Date strptime strftime_day add_days fuel api account_sid
            (field_text start_date) (field_text end_date) with
    | None => None
    | Some [] => Some (404%Z, NoDataAvailable)
    | Some calls =>
        match process_analytics db calls exophone_number with
        | None => Some (500%Z, ProcessingFailed)
        | Some analytics => Some (200%Z, AnalyticsOk analytics)
        end
    end.

(** [get_analytics_comparison]: [api_current] answers the requests for
    the current period, [api_previous] those for the previous one. *)
Definition get_analytics_comparison (start_date end_date : option string)
    (comparison_type : string)
    (account_sid : pyval) (exophone_number : option string)
    (fuel : nat) (api_current api_previous : Api) (db : Database)
    : option (Z * ComparisonBody F) :=
  if field_missing start_date || field_missing end_date
  then Some (400%Z, ComparisonDatesRequired)
  else
    match fetch_calls_dates Date strptime strftime_day add_days fuel api_current
            account_sid (field_text start_date) (field_text end_date) with
    | None => None
    | Some current_calls =>
        match process_analytics db current_calls exophone_number with
        | None => Some (404%Z, NoCurrentData)
        | Some current_analytics =>
            match strptime (field_text start_date), strptime (field_text end_date) with
            | Some start_dt, Some end_dt =>
                let '(shift, comparison_label) :=
                  if String.eqb comparison_type "week"
                  then (7%Z, "Week-over-Week")
                  else (30%Z, "Month-over-Month") in
                match add_days start_dt (- shift), add_days end_dt (- shift) with
                | Some prev_start_dt, Some prev_end_dt =>
                    let prev_start := strftime_day prev_start_dt in
                    let prev_end := strftime_day prev_end_dt in
                    match fetch_calls_dates Date strptime strftime_day add_days fuel
                            api_previous account_sid prev_start prev_end with
                    | None => None
                    | Some previous_calls =>
                        let previous_analytics :=
                          process_analytics db previous_calls exophone_number in
                        Some (200%Z,
                              ComparisonOk current_analytics previous_analytics
                                (calculate_comparison (Some current_analytics)
                                   previous_analytics)
                                prev_start prev_end comparison_label)
                    end
                | _, _ => Some (500%Z, ComparisonError)
                end
            | _, _ => Some (500%Z, ComparisonError)
            end
        end
    end.

End Routes.

(* ================================================================= *)
(** ** app.py : handle_config *)

(** [config.update(data)] of the POST branch. *)
Definition config_update (config data : list (string * pyval)) : list (string * pyval) :=
  fold_left (fun c kv => dict_set String.eqb c (fst kv) (snd kv)) data config.

(** A key the GET branch hides: it contains "password" or "token". *)
Definition sensitive_key (k : string) : bool :=
  str_contains "password" k || str_contains "token" k.

(** [safe_config] of the GET branch. *)
Definition safe_config (config : list (string * pyval)) : list (string * pyval) :=
  filter (fun kv => negb (str_contains "password" (fst kv))
                    && negb (str_contains "token" (fst kv)))
    config.

(** The global [config] as the module creates it, from the values the
    environment gives for its twelve variables. *)
Definition app_config (env : string -> option string) : list (string * pyval) :=
  [("exotel_api_key", environ_get_default env "EXOTEL_API_KEY" "");
   ("exotel_api_token", environ_get_default env "EXOTEL_API_TOKEN" "");
   ("exotel_sid", environ_get_default env "EXOTEL_SID" "");
   ("exotel_account_sid", environ_get_default env "EXOTEL_ACCOUNT_SID" "");
   ("exophone_number", environ_get_default env "EXOPHONE_NUMBER" "");
   ("sender_email", environ_get_default env "SENDER_EMAIL" "");
   ("sender_password", environ_get_default env "SENDER_PASSWORD" "");
   ("recipient_email", environ_get_default env "RECIPIENT_EMAIL" "");
   ("infobip_api_key", environ_get_default env "INFOBIP_API_KEY" "");
   ("infobip_base_url", environ_get_default env "INFOBIP_BASE_URL" "https://api.infobip.com");
   ("infobip_from_email", environ_get_default env "INFOBIP_FROM_EMAIL" "");
   ("infobip_from_name", environ_get_default env "INFOBIP_FROM_NAME" "Exotel Analytics");
   ("report_time", PyStr "09:30")].

(** The config after a sequence of POSTs. *)
Definition config_after (config : list (string * pyval))
    (posts : list (list (string * pyval))) : list (string * pyval) :=
  fold_left config_update posts config.

(* ================================================================= *)
(** ** validate_incoming_calls.py : the caller tally and its report *)

Section Script.
(** [summary] stands for the dict of time, status and duration the
    script keeps of each call. *)
Context {S : Type} (call_summary : CallRecord -> S).

(** [call.get('From', '')]. *)
Definition from_or_empty (call : CallRecord) : pyval :=
  match From call with
  | PyNaN => PyStr ""
  | v => v
  end.

(** The body of [for call in all_incoming_calls] that fills
    [phone_numbers]: per phone, the count and the calls. *)
Definition tally_call (phone_numbers : list (pyval * (nat * list S)))
    (call : CallRecord) : list (pyval * (nat * list S)) :=
  let phone := from_or_empty call in
  if truthy phone then
    let phone_numbers :=
      match dict_get pyval_eqb phone_numbers phone with
      | None => dict_set pyval_eqb phone_numbers phone (0, [])
      | Some _ => phone_numbers
      end in
    match dict_get pyval_eqb phone_numbers phone with
    | Some (count, calls) =>
        dict_set pyval_eqb phone_numbers phone (count + 1, calls ++ [call_summary call])
    | None => phone_numbers
    end
  else phone_numbers.

Definition tally_calls (all_incoming_calls : list CallRecord)
    : list (pyval * (nat * list S)) :=
  fold_left tally_call all_incoming_calls [].

(** [phone_numbers[phone]['count']]; a missing key raises. *)
Definition tally_count (phone_numbers : list (pyval * (nat * list S))) (phone : pyval)
    : Exc nat :=
  match dict_get pyval_eqb phone_numbers phone with
  | Some (count, _) => Return count
  | None => Raised
  end.

Definition is_service_result (res : LookupResult) : bool :=
  let '(is_t, call_type, _) := res in
  is_t && pyval_eqb call_type (PyStr "service").

(** The loop over [lookup_results.items()] that adds the counts up:
    [(service_calls, enquiry_calls)]. *)
Definition add_counts (phone_numbers : list (pyval * (nat * list S)))
    (totals : Exc (nat * nat)) (entry : pyval * LookupResult) : Exc (nat * nat) :=
  t <- totals ;;
  count <- tally_count phone_numbers (fst entry) ;;
  if is_service_result (snd entry)
  then Return (fst t + count, snd t)
  else Return (fst t, snd t + count).

Definition script_totals (phone_numbers : list (pyval * (nat * list S)))
    (lookup_results : list (pyval * LookupResult)) : Exc (nat * nat) :=
  fold_left (add_counts phone_numbers) lookup_results (Return (0, 0)).

(** [[... for phone, info in phone_numbers.items() if cond(lookup_results[phone])]]:
    the subscript raises for a phone without a result. *)
Fixpoint select_phones (cond : LookupResult -> bool)
    (lookup_results : list (pyval * LookupResult))
    (entries : list (pyval * (nat * list S))) : Exc (list pyval) :=
  match entries with
  | [] => Return []
  | (phone, _) :: rest =>
      match dict_get pyval_eqb lookup_results phone with
      | None => Raised
      | Some res =>
          selected <- select_phones cond lookup_results rest ;;
          Return (if cond res then phone :: selected else selected)
      end
  end.

Definition is_enquiry_result (res : LookupResult) : bool :=
  let '(is_t, call_type, _) := res in
  negb is_t || pyval_eqb call_type (PyStr "enquiry").

(** From the tally to the two caller lists: the totals, the two
    percentages (a division by [len(all_incoming_calls)]), then the
    service and the enquiry callers.  [Raised] is the script stopping
    with an exception. *)
Definition script_report (db : Database) (all_incoming_calls : list CallRecord)
    : Exc (nat * nat * list pyval * list pyval) :=
  let phone_numbers := tally_calls all_incoming_calls in
  let phone_list := map fst phone_numbers in
  let lookup_results := batch_lookup db phone_list in
  totals <- script_totals phone_numbers lookup_results ;;
  if List.length all_incoming_calls =? 0 then Raised
  else
    service_phones <- select_phones is_service_result lookup_results phone_numbers ;;
    enquiry_phones <- select_phones is_enquiry_result lookup_results phone_numbers ;;
    Return (fst totals, snd totals, service_phones, enquiry_phones).

End Script.

(** Measures of a tally: the sum of its counts, the count of one phone
    (0 when absent), and the calls that count for a phone. *)
Definition tally_total {S : Type} (t : list (pyval * (nat * list S))) : nat :=
  list_sum (map (fun e => fst (snd e)) t).

Definition entry_count {S : Type} (t : list (pyval * (nat * list S))) (p : pyval) : nat :=
  match dict_get pyval_eqb t p with
  | Some (count, _) => count
  | None => 0
  end.

Definition tally_hit (p : pyval) (call : CallRecord) : bool :=
  truthy (from_or_empty call) && pyval_eqb (from_or_empty call) p.

Definition has_caller (call : CallRecord) : bool := truthy (from_or_empty call).

(* ================================================================= *)
(** ** validate_data.py : the normalisation test_phone_formats prints *)

(** [''.join(filter(str.isdigit, from_number))], then the country code
    in front of a string of ten digits. *)
Definition shown_normalized (from_number : string) : string :=
  let normalized := str_filter isdigit from_number in
  if String.length normalized =? 10 then ("91" ++ normalized)%string
  else normalized.

(* ================================================================= *)
(** ** validate_incoming_calls.py : the dates to fetch *)

(** How a stretch of the script ends: with a value, by [exit(1)], or
    by an exception nothing catches. *)
Inductive Outcome (A : Type) : Type :=
| Done (a : A)
| Exit1
| Uncaught.
Arguments Done {A} a.
Arguments Exit1 {A}.
Arguments Uncaught {A}.

Definition outcome_of {A : Type} (m : Exc A) : Outcome A :=
  match m with
  | Return a => Done a
  | Raised => Uncaught
  end.

(** [range(stop)] and [range(start, -1, -1)]. *)
Definition py_range (stop : Z) : list Z :=
  map Z.of_nat (seq 0 (Z.to_nat stop)).

Definition py_range_down (start : Z) : list Z :=
  map (fun i => (start - Z.of_nat i)%Z) (seq 0 (Z.to_nat (start + 1))).

(** What [argparse] hands over: an option that was not given is
    [None]. *)
Record Namespace : Type := {
  start_date : option string;
  end_date : option string;
  last_days : option Z
}.

Section DateRange.
(** A date is its day ordinal ([date.toordinal()], 1 for 0001-01-01).
    [strptime s] is [datetime.strptime(s, '%Y-%m-%d')], [None] for a
    [ValueError]; it yields dates [datetime] can hold, so that the sums
    of the date-range branch stay in range.  [strftime_day] is
    [.strftime('%Y-%m-%d')], and [now k] the day on which the [k]-th
    call of [datetime.now()] falls. *)
Variables (strptime : string -> option Z) (strftime_day : Z -> string)
  (now : nat -> Z).

(** [datetime.now() - timedelta(days=i)]: [timedelta] takes at most
    999999999 days, and the difference must not fall before year 1;
    both fail with [OverflowError]. *)
Definition days_ago (k : nat) (i : Z) : Exc Z :=
  if (999999999 <? i)%Z || (now k - i <? 1)%Z then Raised
  else Return (now k - i)%Z.

(** [[(datetime.now() - timedelta(days=i)).strftime('%Y-%m-%d') for i in idx]],
    the clock having been read [k] times before. *)
Fixpoint days_back (k : nat) (idx : list Z) : Exc (list string) :=
  match idx with
  | [] => Return []
  | i :: rest =>
      d <- days_ago k i ;;
      ds <- days_back (S k) rest ;;
      Return (strftime_day d :: ds)
  end.

(** What [generate_date_range] does when [args.last_days] is falsy:
    the date options, then the default of seven days. *)
Definition date_options (args : Namespace) : Outcome (list string) :=
  if negb (field_missing (start_date args)) && negb (field_missing (end_date args))
  then
    match strptime (field_text (start_date args)) with
    | None => Exit1
    | Some start =>
        match strptime (field_text (end_date args)) with
        | None => Exit1
        | Some end_ =>
            if (end_ <? start)%Z then Exit1
            else
              let days_diff := (end_ - start + 1)%Z in
              Done (map (fun i => strftime_day (start + i)%Z) (py_range days_diff))
        end
    end
  else if negb (field_missing (start_date args))
  then
    match strptime (field_text (start_date args)) with
    | None => Exit1
    | Some _ => Done [field_text (start_date args)]
    end
  else outcome_of (days_back 0 (py_range_down 6)).

Definition generate_date_range (args : Namespace) : Outcome (list string) :=
  match last_days args with
  | Some n =>
      if (n =? 0)%Z then date_options args
      else outcome_of (days_back 0 (py_range_down (n - 1)))
  | None => date_options args
  end.

End DateRange.

(** A clock that stays on the last day of the sample calendar. *)
Definition sample_now (k : nat) : Z := 8%Z.

Definition sample_args_last (n : Z) : Namespace :=
  {| start_date := Some "2025-10-16"; end_date := None; last_days := Some n |}.

Definition sample_args_between : Namespace :=
  {| start_date := Some "2025-10-09"; end_date := Some "2025-10-16";
     last_days := None |}.

(* ================================================================= *)
(** ** validate_incoming_calls.py : the requests and the incoming calls *)

(** The first request of a date: the account's [Calls.json] with the
    filter of that day and the page size. *)
Definition day_request (account_sid : pyval) (date : string) : Request :=
  {| req_url := ("https://api.exotel.com/v1/Accounts/" ++ py_str account_sid
                 ++ "/Calls.json")%string;
     req_params := [("DateCreated",
                     ("gte:" ++ date ++ " 00:00:00;lte:" ++ date ++ " 23:59:59")%string);
                    ("PageSize", "100")] |}.

(** The loop variables on entering [while True] for a date.  The
    script keeps [next_page_uri] and requests either the cursor without
    parameters or [url] with [params], which is what [url] and [params]
    of the state hold; the log goes on from the dates before. *)
Definition day_init (account_sid : pyval) (date : string)
    (issued : list (Request * Response)) : FetchState :=
  {| url := req_url (day_request account_sid date);
     params := req_params (day_request account_sid date);
     page := 0;
     all_calls := [];
     log := issued |}.

(** [while True: ...] of the script: the passes are those of
    [fetch_calls], but nothing catches an exception. *)
Fixpoint day_loop (fuel : nat) (api : Api) (st : FetchState) : option (Exc FetchState) :=
  match fuel with
  | O => None
  | S fuel' =>
      match fetch_iteration api st with
      | Continue st' => day_loop fuel' api st'
      | Break st' => Some (Return st')
      | Raise _ => Some Raised
      end
  end.

(** [needle in c.get(key, '')]: [in] raises [TypeError] for a value
    that is present but is no string. *)
Definition py_in_text (needle : string) (v : pyval) : Exc bool :=
  match v with
  | PyStr s => Return (str_contains needle s)
  | PyNaN => Return (str_contains needle "")
  | _ => Raised
  end.

(** The condition of the comprehension that selects the incoming
    calls to the virtual number, with the short cuts of [and] and
    [or]. *)
Definition is_incoming (c : CallRecord) : Exc bool :=
  if pyval_eqb (Direction c) (PyStr "inbound") then
    in_to <- py_in_text "8047361499" (To c) ;;
    if in_to then Return true
    else py_in_text "8047361499" (PhoneNumber c)
  else Return false.

Fixpoint incoming_of (day_calls : list CallRecord) : Exc (list CallRecord) :=
  match day_calls with
  | [] => Return []
  | c :: rest =>
      keep <- is_incoming c ;;
      kept <- incoming_of rest ;;
      Return (if keep then c :: kept else kept)
  end.

(** [for date in dates_to_fetch: ...]: [all_incoming_calls] and the
    log of requests after the last date. *)
Fixpoint fetch_days (fuel : nat) (api : Api) (account_sid : pyval) (dates : list string)
    (issued : list (Request * Response)) (all_incoming_calls : list CallRecord)
    : option (Exc (list CallRecord * list (Request * Response))) :=
  match dates with
  | [] => Some (Return (all_incoming_calls, issued))
  | date :: rest =>
      match day_loop fuel api (day_init account_sid date issued) with
      | None => None
      | Some Raised => Some Raised
      | Some (Return st) =>
          match incoming_of (all_calls st) with
          | Raised => Some Raised
          | Return incoming =>
              fetch_days fuel api account_sid rest (log st)
                (all_incoming_calls ++ incoming)
          end
      end
  end.

Section ScriptRun.
Context {S : Type} (call_summary : CallRecord -> S).
Variables (strptime : string -> option Z) (strftime_day : Z -> string)
  (now : nat -> Z).

(** The script from the arguments to the two caller lists. *)
Definition script_run (args : Namespace) (account_sid : pyval) (fuel : nat)
    (api : Api) (db : Database)
    : option (Outcome (nat * nat * list pyval * list pyval)) :=
  match generate_date_range strptime strftime_day now args with
  | Done dates_to_fetch =>
      match fetch_days fuel api account_sid dates_to_fetch [] [] with
      | None => None
      | Some Raised => Some Uncaught
      | Some (Return (all_incoming_calls, _)) =>
          Some (outcome_of (script_report call_summary db all_incoming_calls))
      end
  | Exit1 => Some Exit1
  | Uncaught => Some Uncaught
  end.

End ScriptRun.

(** An API that turns every request down. *)
Definition api_refused : Api := fun _ _ => HttpResponse 401 Raised.

(* ================================================================= *)
(** * Properties *)

(* ----------------------------------------------------------------- *)
(** ** Strings *)

Lemma str_filter_forallb (f : ascii -> bool) (s : string) :
  str_forallb f (str_filter f s) = true.
Proof.
  induction s as [|c r IH]; simpl; [reflexivity|].
  destruct (f c) eqn:E; simpl; [rewrite E|]; exact IH.
Qed.

Lemma str_filter_fixed (f : ascii -> bool) (s : string) :
  str_forallb f s = true -> str_filter f s = s.
Proof.
  induction s as [|c r IH]; simpl; [reflexivity|].
  intros H. apply andb_true_iff in H. destruct H as [Hc Hr].
  rewrite Hc, (IH Hr). reflexivity.
Qed.

Lemma str_filter_none (f : ascii -> bool) (s : string) :
  str_existsb f s = false -> str_filter f s = "".
Proof.
  induction s as [|c r IH]; simpl; [reflexivity|].
  intros H. apply orb_false_iff in H. destruct H as [Hc Hr].
  rewrite Hc. exact (IH Hr).
Qed.

Lemma str_filter_some (f : ascii -> bool) (s : string) :
  str_existsb f s = true -> str_filter f s <> "".
Proof.
  induction s as [|c r IH]; simpl; [discriminate|].
  destruct (f c); simpl; [discriminate | exact IH].
Qed.

Lemma str_drop_forallb (f : ascii -> bool) (n : nat) (s : string) :
  str_forallb f s = true -> str_forallb f (str_drop n s) = true.
Proof.
  revert s. induction n as [|n IH]; intros s H; [exact H|].
  destruct s as [|c r]; [exact H|]. simpl in *.
  apply andb_true_iff in H. apply IH, H.
Qed.

Lemma str_drop_length (n : nat) (s : string) :
  String.length (str_drop n s) = String.length s - n.
Proof.
  revert s. induction n as [|n IH]; intros s; simpl.
  - symmetry. apply Nat.sub_0_r.
  - destruct s as [|c r]; simpl; [reflexivity | apply IH].
Qed.

Lemma str_suffix_length (n : nat) (s : string) :
  n <= String.length s -> String.length (str_suffix n s) = n.
Proof.
  intros H. unfold str_suffix. rewrite str_drop_length. lia.
Qed.

Lemma str_append_forallb (f : ascii -> bool) (a b : string) :
  str_forallb f a = true -> str_forallb f b = true ->
  str_forallb f (a ++ b)%string = true.
Proof.
  induction a as [|c r IH]; simpl; intros Ha Hb; [exact Hb|].
  apply andb_true_iff in Ha. destruct Ha as [Hc Hr].
  rewrite Hc. simpl. exact (IH Hr Hb).
Qed.

Lemma str_append_length (a b : string) :
  String.length (a ++ b)%string = String.length a + String.length b.
Proof.
  induction a as [|c r IH]; simpl; [reflexivity | now rewrite IH].
Qed.

Lemma str_eqb_empty_length (s : string) :
  String.eqb s "" = true <-> String.length s = 0.
Proof.
  destruct s; simpl; split; intros H; try reflexivity; discriminate.
Qed.

(* ----------------------------------------------------------------- *)
(** ** normalize_phone *)

Lemma normalize_phone_falsy (phone : pyval) :
  truthy phone = false -> normalize_phone phone = PyNone.
Proof.
  intros H. unfold normalize_phone. rewrite H. reflexivity.
Qed.

Lemma normalize_phone_truthy (phone : pyval) :
  truthy phone = true ->
  normalize_phone phone = PyStr (normalize_digits (str_filter isdigit (py_str phone))).
Proof.
  intros H. unfold normalize_phone, normalize_digits. rewrite H. reflexivity.
Qed.

(** The four ways out of the cascade, by the length of the result. *)
Lemma normalize_digits_cases (d : string) :
  (String.length (normalize_digits d) = 12
   /\ (normalize_digits d = (COUNTRY_CODE ++ str_drop 1 d)%string /\ String.length d = 11
       \/ normalize_digits d = (COUNTRY_CODE ++ d)%string /\ String.length d = 10
       \/ normalize_digits d = str_suffix 12 d /\ 12 < String.length d))
  \/ (normalize_digits d = d /\ String.length d <> 10 /\ String.length d <= 12
      /\ (startswith d "0" && (String.length d =? 11) = false)).
Proof.
  unfold normalize_digits.
  destruct (startswith d "0" && (String.length d =? 11)) eqn:E0.
  - apply andb_true_iff in E0. destruct E0 as [_ E0]. apply Nat.eqb_eq in E0.
    assert (L : String.length (str_drop 1 d) = 10) by (rewrite str_drop_length; lia).
    rewrite L. simpl (10 =? 10). cbv iota.
    left. split.
    + rewrite str_append_length, L. reflexivity.
    + left. split; [reflexivity | exact E0].
  - destruct (String.length d =? 10) eqn:E10.
    + apply Nat.eqb_eq in E10. left. split.
      * rewrite str_append_length, E10. reflexivity.
      * right. left. split; [reflexivity | exact E10].
    + apply Nat.eqb_neq in E10.
      destruct ((String.length d =? 12) && startswith d COUNTRY_CODE) eqn:E12.
      * apply andb_true_iff in E12. destruct E12 as [E12 _]. apply Nat.eqb_eq in E12.
        right. repeat split; [exact E10 | lia].
      * destruct (12 <? String.length d) eqn:Egt.
        -- apply Nat.ltb_lt in Egt. left. split.
           ++ apply str_suffix_length. lia.
           ++ right. right. split; [reflexivity | exact Egt].
        -- apply Nat.ltb_ge in Egt. right. repeat split; [exact E10 | exact Egt].
Qed.

Lemma normalize_digits_forallb (d : string) :
  str_forallb isdigit d = true -> str_forallb isdigit (normalize_digits d) = true.
Proof.
  intros H.
  destruct (normalize_digits_cases d) as [[_ [[E _]|[[E _]|[E _]]]]|[E _]]; rewrite E.
  - apply str_append_forallb; [reflexivity | apply str_drop_forallb, H].
  - apply str_append_forallb; [reflexivity | exact H].
  - apply str_drop_forallb, H.
  - exact H.
Qed.

Lemma normalize_digits_length (d : string) :
  String.length (normalize_digits d) <= 12.
Proof.
  destruct (normalize_digits_cases d) as [[L _]|[E [_ [L _]]]].
  - rewrite L. apply Nat.le_refl.
  - rewrite E. exact L.
Qed.

Lemma normalize_digits_nonempty (d : string) :
  d <> "" -> normalize_digits d <> "".
Proof.
  intros Hd.
  destruct (normalize_digits_cases d) as [[L _]|[E _]].
  - intros C. rewrite C in L. discriminate.
  - rewrite E. exact Hd.
Qed.

(** A string of length 12 is left alone by the cascade. *)
Lemma normalize_digits_twelve (d : string) :
  String.length d = 12 -> normalize_digits d = d.
Proof.
  intros L. unfold normalize_digits. rewrite L. simpl.
  rewrite andb_false_r. rewrite L. simpl.
  destruct (startswith d COUNTRY_CODE); reflexivity.
Qed.

Lemma normalize_digits_idempotent (d : string) :
  normalize_digits (normalize_digits d) = normalize_digits d.
Proof.
  destruct (normalize_digits_cases d) as [[L _]|[E _]].
  - apply normalize_digits_twelve, L.
  - rewrite E. exact E.
Qed.

Lemma truthy_PyStr (s : string) : truthy (PyStr s) = true <-> s <> "".
Proof.
  simpl. rewrite negb_true_iff. split.
  - intros H C. subst s. discriminate.
  - intros H. destruct s; [contradiction | reflexivity].
Qed.

(** C10. For every input value, [normalize_phone] returns [None] or a
    string made of digit characters only and of length at most 12; when
    more than 12 digits remain after stripping, the result is exactly
    the last 12 of them. *)
Theorem normalize_phone_digits_at_most_12 (phone : pyval) :
  (normalize_phone phone = PyNone
   \/ exists s, normalize_phone phone = PyStr s
                /\ str_forallb isdigit s = true
                /\ String.length s <= 12)
  /\ (truthy phone = true ->
      12 < String.length (str_filter isdigit (py_str phone)) ->
      normalize_phone phone = PyStr (str_suffix 12 (str_filter isdigit (py_str phone)))
      /\ String.length (str_suffix 12 (str_filter isdigit (py_str phone))) = 12).
Proof.
  split.
  - destruct (truthy phone) eqn:T.
    + right. exists (normalize_digits (str_filter isdigit (py_str phone))).
      split; [apply normalize_phone_truthy, T|]. split.
      * apply normalize_digits_forallb, str_filter_forallb.
      * apply normalize_digits_length.
    + left. apply normalize_phone_falsy, T.
  - intros T L. rewrite (normalize_phone_truthy _ T). split.
    + f_equal.
      destruct (normalize_digits_cases (str_filter isdigit (py_str phone)))
        as [[_ [[_ E]|[[_ E]|[E _]]]]|[_ [_ [E _]]]]; try lia.
      exact E.
    + apply str_suffix_length. lia.
Qed.

Lemma normalize_phone_digits_at_most_12_witness :
  normalize_phone (PyStr "0091-98765-43210") = PyStr "919876543210"
  /\ String.length "919876543210" = 12.
Proof.
  apply (proj2 (normalize_phone_digits_at_most_12 (PyStr "0091-98765-43210")));
    [reflexivity | vm_compute; lia].
Defined.

(** C5. [normalize_phone] is idempotent on every input whose text holds
    at least one digit character. *)
Theorem normalize_phone_idempotent (x : pyval) :
  str_existsb isdigit (py_str x) = true ->
  normalize_phone (normalize_phone x) = normalize_phone x.
Proof.
  intros Hd. destruct (truthy x) eqn:T.
  - rewrite (normalize_phone_truthy _ T).
    set (d := str_filter isdigit (py_str x)).
    assert (Hne : normalize_digits d <> "")
      by (apply normalize_digits_nonempty, str_filter_some, Hd).
    rewrite normalize_phone_truthy by (apply truthy_PyStr, Hne).
    simpl py_str. f_equal.
    rewrite str_filter_fixed
      by (apply normalize_digits_forallb, str_filter_forallb).
    apply normalize_digits_idempotent.
  - rewrite (normalize_phone_falsy _ T). reflexivity.
Qed.

Lemma normalize_phone_idempotent_witness :
  normalize_phone (normalize_phone (PyStr "08840810719"))
  = normalize_phone (PyStr "08840810719").
Proof.
  apply (normalize_phone_idempotent (PyStr "08840810719")). reflexivity.
Defined.

(** C4, as the code has it.  The three documented examples hold and the
    empty string gives [None]; a non-empty string without any digit
    gives the empty string, which is falsy but is not [None]. *)
Theorem normalize_phone_examples :
  normalize_phone (PyStr "+919876543210") = PyStr "919876543210"
  /\ normalize_phone (PyStr "9876543210") = PyStr "919876543210"
  /\ normalize_phone (PyStr "08840810719") = PyStr "918840810719"
  /\ normalize_phone (PyStr "") = PyNone
  /\ forall s : string,
       s <> "" -> str_existsb isdigit s = false ->
       normalize_phone (PyStr s) = PyStr ""
       /\ truthy (normalize_phone (PyStr s)) = false.
Proof.
  repeat split; try reflexivity.
  - rewrite normalize_phone_truthy by (apply truthy_PyStr; assumption).
    simpl py_str. rewrite str_filter_none by assumption. reflexivity.
  - rewrite normalize_phone_truthy by (apply truthy_PyStr; assumption).
    simpl py_str. rewrite str_filter_none by assumption. reflexivity.
Qed.

Lemma normalize_phone_examples_witness :
  normalize_phone (PyStr "n/a") = PyStr ""
  /\ truthy (normalize_phone (PyStr "n/a")) = false.
Proof.
  apply (proj2 (proj2 (proj2 (proj2 normalize_phone_examples))) "n/a");
    [discriminate | reflexivity].
Defined.

(** C4 as stated fails: "abc" holds no digit, yet the result is the
    empty string and not [None]. *)
Lemma normalize_phone_no_digit_not_none :
  str_existsb isdigit "abc" = false
  /\ normalize_phone (PyStr "abc") = PyStr ""
  /\ normalize_phone (PyStr "abc") <> PyNone.
Proof.
  repeat split; discriminate.
Qed.

(* ----------------------------------------------------------------- *)
(** ** Dictionaries *)

Lemma pyval_eqb_eq (a b : pyval) : pyval_eqb a b = true <-> a = b.
Proof.
  unfold pyval_eqb. destruct (pyval_eq_dec a b); split; intros H;
    try reflexivity; try assumption; try discriminate; contradiction.
Qed.

Lemma pyval_eqb_refl (a : pyval) : pyval_eqb a a = true.
Proof. apply pyval_eqb_eq. reflexivity. Qed.

Lemma pyval_eqb_neq (a b : pyval) : pyval_eqb a b = false <-> a <> b.
Proof.
  rewrite <- pyval_eqb_eq. destruct (pyval_eqb a b); split; intros H;
    try reflexivity; try discriminate; try (intros C; discriminate).
  exfalso. apply H. reflexivity.
Qed.

Section DictFacts.
Context {K V : Type} (eqb : K -> K -> bool).
Hypothesis eqb_eq : forall a b, eqb a b = true <-> a = b.

Lemma eqb_same (a : K) : eqb a a = true.
Proof. apply eqb_eq. reflexivity. Qed.

Lemma dict_get_set_same (d : list (K * V)) (k : K) (v : V) :
  dict_get eqb (dict_set eqb d k v) k = Some v.
Proof.
  induction d as [|[k' v'] r IH]; simpl.
  - rewrite eqb_same. reflexivity.
  - destruct (eqb k' k) eqn:E; simpl; rewrite E; [reflexivity | exact IH].
Qed.

Lemma dict_get_set_other (d : list (K * V)) (k k' : K) (v : V) :
  k <> k' -> dict_get eqb (dict_set eqb d k v) k' = dict_get eqb d k'.
Proof.
  intros N. induction d as [|[a w] r IH]; simpl.
  - destruct (eqb k k') eqn:E; [apply eqb_eq in E; contradiction | reflexivity].
  - destruct (eqb a k) eqn:E; simpl.
    + apply eqb_eq in E. subst a.
      destruct (eqb k k') eqn:E'; [apply eqb_eq in E'; contradiction | reflexivity].
    + destruct (eqb a k'); [reflexivity | exact IH].
Qed.

Lemma dict_set_In (d : list (K * V)) (k : K) (v : V) (e : K * V) :
  In e (dict_set eqb d k v) -> e = (k, v) \/ In e d.
Proof.
  induction d as [|[a w] r IH]; simpl.
  - intros [H|[]]. left. symmetry. exact H.
  - destruct (eqb a k) eqn:E; simpl.
    + apply eqb_eq in E. subst a. intros [H|H]; [left; symmetry; exact H | right; right; exact H].
    + intros [H|H]; [right; left; exact H|].
      destruct (IH H) as [H'|H']; [left; exact H' | right; right; exact H'].
Qed.

Lemma dict_get_In (d : list (K * V)) (k : K) (v : V) :
  dict_get eqb d k = Some v -> In (k, v) d.
Proof.
  induction d as [|[a w] r IH]; simpl; [discriminate|].
  destruct (eqb a k) eqn:E.
  - apply eqb_eq in E. subst a. intros H. injection H as H. subst w. left. reflexivity.
  - intros H. right. exact (IH H).
Qed.

Lemma find_app {A : Type} (f : A -> bool) (l1 l2 : list A) :
  find f (l1 ++ l2) = match find f l1 with Some x => Some x | None => find f l2 end.
Proof.
  induction l1 as [|a r IH]; simpl; [reflexivity|].
  destruct (f a); [reflexivity | exact IH].
Qed.

(** Reading a dict that a loop filled by assignment: the last item
    that assigned to the key decides. *)
Lemma dict_get_fold_set {A : Type} (kf : A -> K) (vf : A -> V)
    (xs : list A) (d0 : list (K * V)) (k : K) :
  dict_get eqb (fold_left (fun d x => dict_set eqb d (kf x) (vf x)) xs d0) k
  = match find (fun x => eqb (kf x) k) (rev xs) with
    | Some x => Some (vf x)
    | None => dict_get eqb d0 k
    end.
Proof.
  revert d0. induction xs as [|x r IH]; intros d0; simpl; [reflexivity|].
  rewrite IH, find_app. destruct (find (fun x0 => eqb (kf x0) k) (rev r)); [reflexivity|].
  simpl. destruct (eqb (kf x) k) eqn:E.
  - apply eqb_eq in E. subst k. apply dict_get_set_same.
  - apply dict_get_set_other. intros C. subst k. rewrite eqb_same in E. discriminate.
Qed.

Lemma fold_set_In {A : Type} (kf : A -> K) (vf : A -> V)
    (xs : list A) (d0 : list (K * V)) (e : K * V) :
  In e (fold_left (fun d x => dict_set eqb d (kf x) (vf x)) xs d0) ->
  In e d0 \/ exists x, In x xs /\ e = (kf x, vf x).
Proof.
  revert d0. induction xs as [|x r IH]; intros d0; simpl; [intros H; left; exact H|].
  intros H. destruct (IH _ H) as [H'|[y [Hy Ey]]].
  - destruct (dict_set_In _ _ _ _ H') as [E|E]; [|left; exact E].
    right. exists x. split; [left; reflexivity | exact E].
  - right. exists y. split; [right; exact Hy | exact Ey].
Qed.

End DictFacts.

Section DictKeys.
Context {K V : Type} (eqb : K -> K -> bool).
Hypothesis eqb_eq : forall a b, eqb a b = true <-> a = b.

Lemma dict_set_NoDup (d : list (K * V)) (k : K) (v : V) :
  NoDup (map fst d) -> NoDup (map fst (dict_set eqb d k v)).
Proof.
  induction d as [|[a w] r IH]; simpl; intros N.
  - constructor; [intros [] | constructor].
  - inversion N as [|? ? Ha Hr]; subst.
    destruct (eqb a k) eqn:E; simpl.
    + constructor; assumption.
    + constructor; [|apply IH, Hr].
      intros C. apply in_map_iff in C. destruct C as [[a' w'] [Ea Hin]].
      simpl in Ea. subst a'.
      destruct (dict_set_In eqb eqb_eq _ _ _ _ Hin) as [H|H].
      * injection H as H1 _. subst k. rewrite (eqb_same eqb eqb_eq) in E. discriminate.
      * apply Ha. apply in_map_iff. exists (a, w'). split; [reflexivity | exact H].
Qed.

Lemma fold_set_NoDup {A : Type} (kf : A -> K) (vf : A -> V)
    (xs : list A) (d0 : list (K * V)) :
  NoDup (map fst d0) ->
  NoDup (map fst (fold_left (fun d x => dict_set eqb d (kf x) (vf x)) xs d0)).
Proof.
  revert d0. induction xs as [|x r IH]; intros d0 N; simpl; [exact N|].
  apply IH, dict_set_NoDup, N.
Qed.

Lemma In_dict_get (d : list (K * V)) (k : K) (v : V) :
  NoDup (map fst d) -> In (k, v) d -> dict_get eqb d k = Some v.
Proof.
  induction d as [|[a w] r IH]; simpl; intros N H; [contradiction|].
  inversion N as [|? ? Ha Hr]; subst.
  destruct H as [H|H].
  - injection H as H1 H2. subst a w. rewrite (eqb_same eqb eqb_eq). reflexivity.
  - destruct (eqb a k) eqn:E.
    + apply eqb_eq in E. subst a. exfalso. apply Ha.
      apply in_map_iff. exists (k, v). split; [reflexivity | exact H].
    + apply IH; assumption.
Qed.

End DictKeys.

Lemma fold_left_ext {A B : Type} (f g : A -> B -> A) (l : list B) (a : A) :
  (forall x y, f x y = g x y) -> fold_left f l a = fold_left g l a.
Proof.
  intros H. revert a. induction l as [|b r IH]; intros a; simpl; [reflexivity|].
  rewrite H. apply IH.
Qed.

(* ----------------------------------------------------------------- *)
(** ** batch_lookup *)

Lemma classify_entry_set (live : list pyval)
    (hist : list (pyval * list (string * pyval)))
    (results : list (pyval * LookupResult)) (entry : pyval * pyval) :
  classify_entry live hist results entry
  = dict_set pyval_eqb results (snd entry) (classification live hist (fst entry)).
Proof.
  destruct entry as [k o]. unfold classify_entry, classification. simpl.
  destruct (py_in k live); [reflexivity|].
  destruct (dict_get pyval_eqb hist k); reflexivity.
Qed.

(** Every entry of the key map pairs a truthy raw string of the batch
    with its own key. *)
Lemma normalized_phones_entries (phones : list pyval) (e : pyval * pyval) :
  In e (normalized_phones_of phones) ->
  fst e = normalize_phone (snd e) /\ In (snd e) phones /\ truthy (snd e) = true.
Proof.
  unfold normalized_phones_of. intros H.
  apply (fold_set_In pyval_eqb pyval_eqb_eq normalize_phone (fun p => p)) in H.
  destruct H as [[]|[x [Hx E]]]. subst e. simpl.
  apply filter_In in Hx. destruct Hx as [Hin Ht]. auto.
Qed.

Lemma normalized_phones_NoDup (phones : list pyval) :
  NoDup (map fst (normalized_phones_of phones)).
Proof.
  unfold normalized_phones_of.
  apply (fold_set_NoDup pyval_eqb pyval_eqb_eq normalize_phone (fun p => p)).
  constructor.
Qed.

Lemma normalized_phones_get (phones : list pyval) (k : pyval) :
  dict_get pyval_eqb (normalized_phones_of phones) k
  = find (fun q => pyval_eqb (normalize_phone q) k) (rev (filter truthy phones)).
Proof.
  unfold normalized_phones_of.
  rewrite (dict_get_fold_set pyval_eqb pyval_eqb_eq normalize_phone (fun p => p)).
  destruct (find _ _); reflexivity.
Qed.

Lemma retained_get (phones : list pyval) (p : pyval) :
  retained phones p = true
  <-> dict_get pyval_eqb (normalized_phones_of phones) (normalize_phone p) = Some p.
Proof.
  rewrite normalized_phones_get. unfold retained.
  destruct (find _ _) as [q|]; split; intros H; try discriminate.
  - apply pyval_eqb_eq in H. subst q. reflexivity.
  - injection H as H. subst q. apply pyval_eqb_refl.
Qed.

Lemma retained_In (phones : list pyval) (p : pyval) :
  retained phones p = true <-> In (normalize_phone p, p) (normalized_phones_of phones).
Proof.
  rewrite retained_get. split.
  - apply (dict_get_In pyval_eqb pyval_eqb_eq).
  - apply (In_dict_get pyval_eqb pyval_eqb_eq), normalized_phones_NoDup.
Qed.

(** With both statements running, [batch_lookup] is its result loop
    over the key map. *)
Lemma batch_lookup_healthy (db : Database) (phones : list pyval) :
  fault db = NoFault ->
  batch_lookup db phones
  = fold_left
      (classify_entry
         (live_results_of (tables db) (map fst (normalized_phones_of phones)))
         (historical_results_of (tables db) (map fst (normalized_phones_of phones))))
      (normalized_phones_of phones) [].
Proof.
  intros Hf. unfold batch_lookup.
  destruct phones as [|p0 ps]; [reflexivity|].
  destruct (normalized_phones_of (p0 :: ps)) as [|e0 es] eqn:Enp; [reflexivity|].
  unfold _get_connection, execute_live_batch, execute_historical_batch.
  rewrite Hf. reflexivity.
Qed.

(** If a statement or the pool fails, [batch_lookup] returns the empty
    dict. *)
Lemma batch_lookup_faulty (db : Database) (phones : list pyval) :
  fault db <> NoFault -> batch_lookup db phones = [].
Proof.
  intros Hf. unfold batch_lookup.
  destruct phones as [|p0 ps]; [reflexivity|].
  destruct (normalized_phones_of (p0 :: ps)) as [|e0 es]; [reflexivity|].
  unfold _get_connection, execute_live_batch, execute_historical_batch.
  destruct (fault db); try reflexivity. contradiction.
Qed.

(** What the returned dict holds for a raw string. *)
Lemma batch_lookup_get (db : Database) (phones : list pyval) (p : pyval) :
  fault db = NoFault ->
  dict_get pyval_eqb (batch_lookup db phones) p
  = if retained phones p
    then Some (classification
                 (live_results_of (tables db) (map fst (normalized_phones_of phones)))
                 (historical_results_of (tables db) (map fst (normalized_phones_of phones)))
                 (normalize_phone p))
    else None.
Proof.
  intros Hf. rewrite (batch_lookup_healthy _ _ Hf).
  set (live := live_results_of _ _). set (hist := historical_results_of _ _).
  rewrite (fold_left_ext _
             (fun d e => dict_set pyval_eqb d (snd e) (classification live hist (fst e))))
    by (intros; apply classify_entry_set).
  rewrite (dict_get_fold_set pyval_eqb pyval_eqb_eq).
  destruct (find (fun x => pyval_eqb (snd x) p) (rev (normalized_phones_of phones)))
    as [e|] eqn:Ef.
  - apply find_some in Ef. destruct Ef as [Hin He].
    apply pyval_eqb_eq in He. apply in_rev in Hin.
    destruct (normalized_phones_entries _ _ Hin) as [Hk _].
    assert (R : retained phones p = true).
    { apply retained_In. rewrite <- He, <- Hk. destruct e; exact Hin. }
    rewrite R, Hk, He. reflexivity.
  - destruct (retained phones p) eqn:R; [|reflexivity].
    apply retained_In in R. apply in_rev in R.
    apply (find_none _ _ Ef) in R. simpl in R.
    rewrite pyval_eqb_refl in R. discriminate.
Qed.

Lemma sql_eq_value (c : option string) (k : pyval) :
  sql_eq c k = true <-> (exists s, c = Some s) /\ sql_value c = k.
Proof.
  destruct c as [s|]; simpl.
  - rewrite pyval_eqb_eq. split; [intros H; split; [exists s; reflexivity | exact H] | intros [_ H]; exact H].
  - split; [discriminate | intros [[s Hs] _]; discriminate].
Qed.

(** For a key of the batch, membership in [live_results] is a match
    against the live table. *)
Lemma live_results_match (t : Tables) (keys : list pyval) (k : pyval) :
  In k keys -> py_in k (live_results_of t keys) = live_match t k.
Proof.
  intros Hk. apply eq_true_iff_eq. unfold py_in, live_results_of, live_match.
  rewrite !existsb_exists. split.
  - intros [v [Hin Hv]]. apply pyval_eqb_eq in Hv. subst v.
    apply in_map_iff in Hin. destruct Hin as [c [Ec Hc]].
    apply filter_In in Hc. destruct Hc as [Hc Hany].
    exists c. split; [exact Hc|].
    unfold sql_eq_any in Hany. apply existsb_exists in Hany.
    destruct Hany as [k' [_ Hk']]. apply sql_eq_value in Hk'.
    apply sql_eq_value. split; [apply Hk' | exact Ec].
  - intros [c [Hc Heq]]. exists (sql_value (sql_digits c)). split.
    + apply in_map_iff. exists c. split; [reflexivity|].
      apply filter_In. split; [exact Hc|].
      unfold sql_eq_any. apply existsb_exists. exists k. split; assumption.
    + apply pyval_eqb_eq. apply sql_eq_value in Heq. symmetry. apply Heq.
Qed.

(** C1, as the code has it.  When the pool and both statements work,
    every raw phone that the key map retains (the last truthy entry of
    the batch with its key) and whose key matches a live row is
    classified as service with [found_in = live_data], whatever the
    historical table holds. *)
Theorem batch_lookup_live_precedence (db : Database) (phones : list pyval) (p : pyval) :
  fault db = NoFault ->
  retained phones p = true ->
  live_match (tables db) (normalize_phone p) = true ->
  dict_get pyval_eqb (batch_lookup db phones) p = Some LIVE_RESULT.
Proof.
  intros Hf Hr Hl. rewrite (batch_lookup_get _ _ _ Hf), Hr.
  unfold classification. rewrite live_results_match, Hl; [reflexivity|].
  apply retained_In in Hr. apply in_map_iff.
  exists (normalize_phone p, p). split; [reflexivity | exact Hr].
Qed.

(** The single lookup takes the same order: a live match answers before
    the historical table is asked. *)
Lemma is_tenant_live_precedence (db : Database) (p : pyval) :
  fault db = NoFault ->
  truthy (normalize_phone p) = true ->
  live_match (tables db) (normalize_phone p) = true ->
  exists row0,
    is_tenant db p
    = (true, PyStr "service",
       Some [("phone", row0); ("found_in", PyStr "live_data");
             ("table", PyStr LIVE_TABLE)]).
Proof.
  intros Hf Ht Hl. unfold is_tenant.
  assert (Hp : truthy p = true).
  { destruct (truthy p) eqn:E; [reflexivity|].
    rewrite (normalize_phone_falsy _ E) in Ht. discriminate. }
  rewrite Hp, Ht. simpl negb. cbv iota.
  unfold _get_connection, execute_live_one. rewrite Hf. simpl.
  unfold live_match in Hl. apply existsb_exists in Hl. destruct Hl as [c [Hc Hm]].
  destruct (find (fun c0 => sql_eq (sql_digits c0) (normalize_phone p))
              (flat_booking_orders (tables db))) as [c1|] eqn:Ef.
  - simpl. eexists. reflexivity.
  - apply (find_none _ _ Ef) in Hc. rewrite Hc in Hm. discriminate.
Qed.

(* ----------------------------------------------------------------- *)
(** ** fetch_calls *)

Section Fetch.
Variable api : Api.

(** One pass of the loop, by the kind of response it got. *)
Lemma fetch_iteration_cases (st : FetchState) :
  let req := current_request st in
  let r := api (List.length (log st)) req in
  match fetch_iteration api st with
  | Continue st' =>
      continues r = true
      /\ log st' = log st ++ [(req, r)]
      /\ all_calls st' = all_calls st ++ page_calls r
  | Break st' =>
      continues r = false /\ raises r = false
      /\ log st' = log st ++ [(req, r)]
      /\ all_calls st' = all_calls st ++ page_calls r
  | Raise st' =>
      continues r = false /\ raises r = true
      /\ log st' = log st ++ [(req, r)]
      /\ all_calls st' = all_calls st
  end.
Proof.
  cbv zeta. unfold fetch_iteration.
  destruct (api (List.length (log st)) (current_request st)) as [|code [data|]]; simpl.
  - repeat split.
  - destruct (code =? 200)%Z; simpl.
    + destruct (Calls data) as [|c cs] eqn:Ec; simpl.
      * repeat split. symmetry. apply app_nil_r.
      * destruct (truthy (NextPageUri data)); simpl; repeat split.
    + repeat split. symmetry. apply app_nil_r.
  - destruct (code =? 200)%Z; simpl; repeat split.
    symmetry. apply app_nil_r.
Qed.

Lemma fetch_loop_more_fuel (fuel extra : nat) (st : FetchState) (run : FetchRun) :
  fetch_loop fuel api st = Some run -> fetch_loop (fuel + extra) api st = Some run.
Proof.
  revert st. induction fuel as [|f IH]; intros st H; simpl in *; [discriminate|].
  destruct (fetch_iteration api st); try exact H. apply IH, H.
Qed.

(** The shape of every finished run: all exchanges but the last got a
    continuing response, the last one did not; the records are those of
    the pages received; the function returns them unless the [try]
    block was left by an exception. *)
Lemma fetch_loop_run (fuel : nat) (st : FetchState) (run : FetchRun) :
  fetch_loop fuel api st = Some run ->
  exists mid last,
    exchanges run = log st ++ mid ++ [last]
    /\ Forall snd_continues mid
    /\ continues (snd last) = false
    /\ fetched run = all_calls st ++ flat_map (fun x => page_calls (snd x)) (mid ++ [last])
    /\ returned run = if raises (snd last) then [] else fetched run.
Proof.
  revert st. induction fuel as [|f IH]; intros st H; simpl in H; [discriminate|].
  pose proof (fetch_iteration_cases st) as C. cbv zeta in C.
  destruct (fetch_iteration api st) as [st'|st'|st'].
  - destruct C as [Hc [Hl Ha]].
    destruct (IH _ H) as [mid [last [E [Hm [Hlast [Hf Hr]]]]]].
    exists ((current_request st, api (List.length (log st)) (current_request st)) :: mid), last.
    repeat split.
    + rewrite E, Hl, <- app_assoc. reflexivity.
    + constructor; [exact Hc | exact Hm].
    + exact Hlast.
    + rewrite Hf, Ha, <- app_assoc. reflexivity.
    + exact Hr.
  - destruct C as [Hc [Hx [Hl Ha]]]. injection H as H. subst run. simpl.
    exists [], (current_request st, api (List.length (log st)) (current_request st)).
    simpl. rewrite Hx, app_nil_r. repeat split; try assumption. constructor.
  - destruct C as [Hc [Hx [Hl Ha]]]. injection H as H. subst run. simpl.
    exists [], (current_request st, api (List.length (log st)) (current_request st)).
    simpl. rewrite Hx, Ha.
    assert (Hp : page_calls (api (List.length (log st)) (current_request st)) = []).
    { destruct (api (List.length (log st)) (current_request st)) as [|code [data|]];
        simpl in *; try reflexivity; discriminate. }
    rewrite Hp, !app_nil_r.
    split; [exact Hl|]. split; [constructor|]. split; [exact Hc|].
    split; reflexivity.
Qed.

(** Once the API gives a terminal answer to its [n]-th request, the
    loop has finished by then. *)
Lemma fetch_loop_terminates (n : nat) :
  (forall req, continues (api n req) = false) ->
  forall fuel st,
    List.length (log st) <= n -> n < fuel + List.length (log st) ->
    exists run, fetch_loop fuel api st = Some run.
Proof.
  intros Hn. induction fuel as [|f IH]; intros st Hle Hlt; [simpl in Hlt; lia|].
  simpl. pose proof (fetch_iteration_cases st) as C. cbv zeta in C.
  destruct (fetch_iteration api st) as [st'|st'|st']; try (eexists; reflexivity).
  destruct C as [Hc [Hl _]].
  assert (List.length (log st) <> n) by (intros E; rewrite E, Hn in Hc; discriminate).
  apply IH; rewrite Hl, length_app; simpl; lia.
Qed.

Lemma state_after_shape (k : nat) (st st' : FetchState) :
  state_after api k st = Some st' ->
  exists mid,
    log st' = log st ++ mid
    /\ List.length mid = k
    /\ Forall snd_continues mid
    /\ all_calls st' = all_calls st ++ flat_map (fun x => page_calls (snd x)) mid.
Proof.
  revert st. induction k as [|k IH]; intros st H; simpl in H.
  - injection H as H. subst st'. exists []. simpl. rewrite !app_nil_r.
    repeat split. constructor.
  - pose proof (fetch_iteration_cases st) as C. cbv zeta in C.
    destruct (fetch_iteration api st) as [s1|s1|s1]; try discriminate.
    destruct C as [Hc [Hl Ha]].
    destruct (IH _ H) as [mid [E [Hlen [Hm Hcalls]]]].
    exists ((current_request st, api (List.length (log st)) (current_request st)) :: mid).
    repeat split.
    + rewrite E, Hl, <- app_assoc. reflexivity.
    + simpl. rewrite Hlen. reflexivity.
    + constructor; [exact Hc | exact Hm].
    + rewrite Hcalls, Ha, <- app_assoc. reflexivity.
Qed.

Lemma fetch_loop_after (k fuel : nat) (st st' : FetchState) :
  state_after api k st = Some st' ->
  fetch_loop (k + fuel) api st = fetch_loop fuel api st'.
Proof.
  revert st. induction k as [|k IH]; intros st H; simpl in H.
  - injection H as H. subst st'. reflexivity.
  - simpl. destruct (fetch_iteration api st) as [s1|s1|s1]; try discriminate.
    apply IH, H.
Qed.

End Fetch.

Lemma flat_map_length_ge {A B : Type} (f : A -> list B) (n : nat) (l : list A) :
  Forall (fun x => n <= List.length (f x)) l ->
  List.length l * n <= List.length (flat_map f l).
Proof.
  induction 1 as [|x r Hx Hr IH]; simpl; [apply Nat.le_refl|].
  rewrite length_app. lia.
Qed.

Lemma ceil_div_ge (a b : nat) : b <> 0 -> a / b <= ceil_div a b.
Proof.
  intros Hb. unfold ceil_div. apply Nat.Div0.div_le_mono. lia.
Qed.

(** C2, as the code has it.  Let the first [k] requests be answered by
    continuing pages and the next one fail.  If it fails with a status
    other than 200, the run ends there, with no further request, and
    returns exactly the records of the [k] pages.  If it fails by an
    exception (timeout, connection failure, unparsable body), the run
    also ends there with no further request, but returns the empty
    list. *)
Theorem fetch_calls_abort_on_failure
    (api : Api) (base_url date_filter : string) (k : nat) (st : FetchState) :
  state_after api k (fetch_init base_url date_filter) = Some st ->
  let req := current_request st in
  let r := api k req in
  List.length (log st) = k
  /\ all_calls st = flat_map (fun x => page_calls (snd x)) (log st)
  /\ (non_success r = true ->
      forall extra,
        fetch_calls (S k + extra) api base_url date_filter
        = Some {| returned := all_calls st;
                  exchanges := log st ++ [(req, r)];
                  fetched := all_calls st |})
  /\ (raises r = true ->
      forall extra,
        fetch_calls (S k + extra) api base_url date_filter
        = Some {| returned := [];
                  exchanges := log st ++ [(req, r)];
                  fetched := all_calls st |}).
Proof.
  intros Hs req r.
  destruct (state_after_shape api _ _ _ Hs) as [mid [Hl [Hlen [_ Hc]]]].
  simpl in Hl, Hc. subst mid.
  split; [exact Hlen|]. split; [exact Hc|].
  assert (Hrun : forall extra,
             fetch_calls (S k + extra) api base_url date_filter
             = fetch_loop (S extra) api st).
  { intros extra. unfold fetch_calls.
    replace (S k + extra) with (k + S extra) by lia.
    apply fetch_loop_after, Hs. }
  split; intros Hr extra; rewrite Hrun; simpl; unfold fetch_iteration;
    rewrite Hlen; fold req; fold r; destruct r as [|code [data|]];
    simpl in Hr; try discriminate; try reflexivity.
  - apply negb_true_iff in Hr. rewrite Hr. reflexivity.
  - apply negb_true_iff in Hr. rewrite Hr. reflexivity.
  - rewrite Hr. reflexivity.
Qed.

Lemma fetch_calls_abort_on_failure_witness :
  fetch_calls 2 api_error_500 sample_base_url sample_date_filter
  = Some {| returned := [sample_call "s" "9876543210" "inbound"];
            exchanges :=
              [({| req_url := "https://api.exotel.com/v1/Accounts/acc/Calls.json";
                   req_params := [("DateCreated", sample_date_filter);
                                  ("PageSize", "100");
                                  ("SortBy", "DateCreated:desc")] |},
                sample_page "s" (PyStr "/v1/Accounts/acc/Calls.json?After=x"));
               ({| req_url := "https://api.exotel.com/v1/Accounts/acc/Calls.json?After=x";
                   req_params := [] |},
                HttpResponse 500 Raised)];
            fetched := [sample_call "s" "9876543210" "inbound"] |}.
Proof.
  pose proof (fetch_calls_abort_on_failure api_error_500 sample_base_url
                sample_date_filter 1
                {| url := "https://api.exotel.com/v1/Accounts/acc/Calls.json?After=x";
                   params := [];
                   page := 2;
                   all_calls := [sample_call "s" "9876543210" "inbound"];
                   log := [(current_request (fetch_init sample_base_url sample_date_filter),
                            sample_page "s" (PyStr "/v1/Accounts/acc/Calls.json?After=x"))] |}
                eq_refl) as H.
  cbv zeta in H. destruct H as [_ [_ [H _]]].
  exact (H eq_refl 0).
Defined.

(** C2 as stated fails: after one page, a timeout makes the function
    return the empty list although one record had been accumulated,
    while a status 500 at the same point returns that record. *)
Lemma fetch_calls_timeout_discards_pages :
  option_map returned (fetch_calls 5 api_timeout sample_base_url sample_date_filter)
  = Some []
  /\ option_map fetched (fetch_calls 5 api_timeout sample_base_url sample_date_filter)
     = Some [sample_call "s" "9876543210" "inbound"]
  /\ option_map returned (fetch_calls 5 api_error_500 sample_base_url sample_date_filter)
     = Some [sample_call "s" "9876543210" "inbound"].
Proof.
  repeat split.
Qed.

(** C6, as the code has it.  If the API answers its [n]-th request
    (counting from 0) with a terminal response, [fetch_calls] returns,
    having issued at most [n + 1] requests; any exchange whose response
    does not make the loop go on (no next-page cursor, a page without
    records, a failure) is the last one; and when every page that the
    loop goes on after holds at least [page_size] records, the number
    of requests is at most [ceil(total / page_size) + 1], [total] being
    the number of records fetched. *)
Theorem fetch_calls_request_bound
    (api : Api) (base_url date_filter : string) (page_size n : nat) :
  0 < page_size ->
  (forall req, continues (api n req) = false) ->
  exists run,
    (forall fuel, n < fuel -> fetch_calls fuel api base_url date_filter = Some run)
    /\ List.length (exchanges run) <= n + 1
    /\ (forall i x,
          nth_error (exchanges run) i = Some x ->
          continues (snd x) = false ->
          S i = List.length (exchanges run))
    /\ (Forall (full_page page_size) (exchanges run) ->
        List.length (exchanges run)
        <= ceil_div (List.length (fetched run)) page_size + 1).
Proof.
  intros Hps Hn.
  destruct (fetch_loop_terminates api n Hn (S n) (fetch_init base_url date_filter))
    as [run Hrun]; [simpl; lia | simpl; lia |].
  exists run.
  destruct (fetch_loop_run api _ _ _ Hrun) as [mid [last [He [Hm [Hlast [Hf _]]]]]].
  simpl in He, Hf.
  split; [|split; [|split]].
  - intros fuel Hfuel. unfold fetch_calls.
    replace fuel with (S n + (fuel - S n)) by lia.
    apply fetch_loop_more_fuel, Hrun.
  - (* the responses before the last continue, so their index is below n *)
    rewrite He, length_app. simpl.
    assert (Hidx : forall fuel st r,
               fetch_loop fuel api st = Some r ->
               List.length (log st) <= n ->
               List.length (exchanges r) <= n + 1).
    { induction fuel as [|f IH]; intros st r H Hle; simpl in H; [discriminate|].
      pose proof (fetch_iteration_cases api st) as C. cbv zeta in C.
      destruct (fetch_iteration api st) as [s1|s1|s1].
      - destruct C as [Hc [Hl _]].
        assert (List.length (log st) <> n)
          by (intros E; rewrite E, Hn in Hc; discriminate).
        apply (IH s1 r H). rewrite Hl, length_app. simpl. lia.
      - destruct C as [_ [_ [Hl _]]]. injection H as H. subst r. simpl.
        rewrite Hl, length_app. simpl. lia.
      - destruct C as [_ [_ [Hl _]]]. injection H as H. subst r. simpl.
        rewrite Hl, length_app. simpl. lia. }
    specialize (Hidx _ _ _ Hrun). simpl in Hidx.
    rewrite He, length_app in Hidx. simpl in Hidx. apply Hidx. lia.
  - intros i x Hx Hc. rewrite He, length_app. simpl.
    rewrite He in Hx.
    destruct (Nat.lt_ge_cases i (List.length mid)) as [Hi|Hi].
    + rewrite nth_error_app1 in Hx by exact Hi.
      apply nth_error_In in Hx.
      rewrite Forall_forall in Hm. specialize (Hm _ Hx).
      unfold snd_continues in Hm. rewrite Hm in Hc. discriminate.
    + assert (i < List.length (mid ++ [last]))
        by (apply nth_error_Some; rewrite Hx; discriminate).
      rewrite length_app in H. simpl in H. lia.
  - intros Hfull. rewrite He, length_app. simpl.
    rewrite He in Hfull. apply Forall_app in Hfull. destruct Hfull as [Hfull _].
    assert (Hge : List.length mid * page_size
                  <= List.length (flat_map (fun x => page_calls (snd x)) mid)).
    { apply flat_map_length_ge. rewrite Forall_forall in *.
      intros x Hx. apply (Hfull x Hx), (Hm x Hx). }
    rewrite Hf, flat_map_app, length_app.
    assert (Hq : List.length mid
                 <= (List.length (flat_map (fun x => page_calls (snd x)) mid)
                     + List.length (flat_map (fun x => page_calls (snd x)) [last]))
                    / page_size).
    { apply Nat.div_le_lower_bound; lia. }
    pose proof (ceil_div_ge
                  (List.length (flat_map (fun x => page_calls (snd x)) mid)
                   + List.length (flat_map (fun x => page_calls (snd x)) [last]))
                  page_size) as Hc.
    lia.
Qed.

Lemma fetch_calls_request_bound_witness :
  exists run,
    fetch_calls 3 api_short_pages sample_base_url sample_date_filter = Some run
    /\ List.length (exchanges run) <= 2 + 1
    /\ (Forall (full_page 1) (exchanges run) ->
        List.length (exchanges run) <= ceil_div (List.length (fetched run)) 1 + 1).
Proof.
  destruct (fetch_calls_request_bound api_short_pages sample_base_url
              sample_date_filter 1 2) as [run [H1 [H2 [_ H4]]]].
  - lia.
  - intros req. reflexivity.
  - exists run. split; [apply H1; lia | split; [exact H2 | exact H4]].
Defined.

(** C6 as stated fails: an API that serves three records on three
    pages makes [fetch_calls] issue three requests, more than
    [ceil(3 / 100) + 1 = 2]. *)
Lemma fetch_calls_short_pages_exceed_bound :
  option_map (fun run => List.length (exchanges run))
    (fetch_calls 5 api_short_pages sample_base_url sample_date_filter) = Some 3
  /\ option_map (fun run => List.length (fetched run))
       (fetch_calls 5 api_short_pages sample_base_url sample_date_filter) = Some 3
  /\ ~ 3 <= ceil_div 3 PAGE_SIZE + 1.
Proof.
  split; [reflexivity|]. split; [reflexivity|].
  vm_compute. lia.
Qed.

(* ----------------------------------------------------------------- *)
(** ** batch_lookup on a batch with two spellings of one subscriber *)

Lemma batch_lookup_live_precedence_witness :
  historical_match sample_tables (normalize_phone (PyStr "9876543210")) = true
  /\ dict_get pyval_eqb (batch_lookup sample_db sample_batch) (PyStr "9876543210")
     = Some LIVE_RESULT.
Proof.
  split; [reflexivity|].
  apply (batch_lookup_live_precedence sample_db sample_batch (PyStr "9876543210"));
    reflexivity.
Defined.

(** C1 as stated fails on two inputs.  With both tables healthy, the
    first of two raw strings with one key gets no entry although its
    key matches a live row; and when the historical statement raises,
    a phone whose key matches a live row gets no entry either. *)
Lemma batch_lookup_live_match_without_result :
  (In (PyStr "+919876543210") sample_batch
   /\ live_match (tables sample_db) (normalize_phone (PyStr "+919876543210")) = true
   /\ dict_get pyval_eqb (batch_lookup sample_db sample_batch) (PyStr "+919876543210")
      = None)
  /\ (live_match (tables sample_db_down) (normalize_phone (PyStr "9876543210")) = true
      /\ dict_get pyval_eqb (batch_lookup sample_db_down [PyStr "9876543210"])
           (PyStr "9876543210")
         = None).
Proof.
  split; [split; [left; reflexivity | split; reflexivity] | split; reflexivity].
Qed.

(** C3 on the code: the two raw strings of [sample_batch] have one key,
    the returned dict holds an entry for the second only, the single
    lookup [is_tenant] classifies the first as a tenant, and the frame
    of [process_analytics] tags the call from the first as [enquiry]
    and the call from the second as [service]. *)
Theorem batch_lookup_collision_drops_raw_string :
  normalize_phone (PyStr "+919876543210") = normalize_phone (PyStr "9876543210")
  /\ batch_lookup sample_db sample_batch = [(PyStr "9876543210", LIVE_RESULT)]
  /\ dict_get pyval_eqb (batch_lookup sample_db sample_batch) (PyStr "+919876543210")
     = None
  /\ fst (fst (is_tenant sample_db (PyStr "+919876543210"))) = true
  /\ map (fun row => (From (fst row), snd row))
       (categorize (ops := exact_ops) sample_db sample_calls sample_calls)
     = [(PyStr "+919876543210", PyStr "enquiry");
        (PyStr "9876543210", PyStr "service");
        (PyStr "08041234567", PyStr "outgoing")].
Proof.
  repeat split.
Qed.

(** In general a raw string that the key map does not retain has no
    entry in the returned dict. *)
Lemma batch_lookup_not_retained (db : Database) (phones : list pyval) (p : pyval) :
  fault db = NoFault ->
  retained phones p = false ->
  dict_get pyval_eqb (batch_lookup db phones) p = None.
Proof.
  intros Hf Hr. rewrite (batch_lookup_get _ _ _ Hf), Hr. reflexivity.
Qed.

(* ----------------------------------------------------------------- *)
(** ** calculate_comparison *)

Section Comparison.
Context {F : Type} {ops : FloatOps F}.

Lemma change_pct_guard (change previous : Z) :
  (previous <= 0)%Z -> change_pct change previous = NumInt 0.
Proof.
  intros H. unfold change_pct.
  destruct (previous >? 0)%Z eqn:E; [|reflexivity].
  apply Z.gtb_lt in E. lia.
Qed.

(** C8. With both snapshots present, each of the four deltas is
    current minus previous, and the percentage of a metric whose
    previous value is 0 is the int 0; with either snapshot absent the
    result is the neutral comparison, all deltas and percentages 0. *)
Theorem calculate_comparison_guarded :
  (forall current previous : Analytics F,
     let c := calculate_comparison (Some current) (Some previous) in
     (total_calls_change c = total_calls current - total_calls previous
      /\ incoming_calls_change c = incoming_calls current - incoming_calls previous
      /\ service_calls_change c = service_calls current - service_calls previous
      /\ enquiry_calls_change c = enquiry_calls current - enquiry_calls previous)%Z
     /\ (total_calls previous = 0%Z -> total_calls_pct c = NumInt 0)
     /\ (incoming_calls previous = 0%Z -> incoming_calls_pct c = NumInt 0)
     /\ (service_calls previous = 0%Z -> service_calls_pct c = NumInt 0)
     /\ (enquiry_calls previous = 0%Z -> enquiry_calls_pct c = NumInt 0))
  /\ (forall other : option (Analytics F),
        calculate_comparison None other = neutral_comparison
        /\ calculate_comparison other None = neutral_comparison)
  /\ (total_calls_change (@neutral_comparison F) = 0%Z
      /\ incoming_calls_change (@neutral_comparison F) = 0%Z
      /\ service_calls_change (@neutral_comparison F) = 0%Z
      /\ enquiry_calls_change (@neutral_comparison F) = 0%Z
      /\ total_calls_pct (@neutral_comparison F) = NumInt 0
      /\ incoming_calls_pct (@neutral_comparison F) = NumInt 0
      /\ service_calls_pct (@neutral_comparison F) = NumInt 0
      /\ enquiry_calls_pct (@neutral_comparison F) = NumInt 0).
Proof.
  split; [|split].
  - intros current previous c. subst c. simpl.
    split; [repeat split|].
    repeat split; intros H; apply change_pct_guard; lia.
  - intros [a|]; split; reflexivity.
  - repeat split.
Qed.

End Comparison.

(** The scenario of the specification: previous incoming 0, current
    incoming 10. *)
Lemma calculate_comparison_guarded_witness :
  let previous :=
    {| total_calls := 4; incoming_calls := 0; outgoing_calls := 4;
       answered_calls := 3; missed_calls := 1; service_calls := 0;
       enquiry_calls := 0; service_percentage := NumInt 0;
       enquiry_percentage := NumInt 0 |} in
  let current :=
    {| total_calls := 12; incoming_calls := 10; outgoing_calls := 2;
       answered_calls := 9; missed_calls := 3; service_calls := 6;
       enquiry_calls := 4;
       service_percentage := percent_of (ops := exact_ops) 6 10;
       enquiry_percentage := percent_of (ops := exact_ops) 4 10 |} in
  incoming_calls_pct (calculate_comparison (ops := exact_ops) (Some current) (Some previous))
  = NumInt 0
  /\ incoming_calls_change
       (calculate_comparison (ops := exact_ops) (Some current) (Some previous))
     = 10%Z.
Proof.
  intros previous current.
  destruct (calculate_comparison_guarded (ops := exact_ops)) as [H _].
  destruct (H current previous) as [[_ [Hc _]] [_ [Hi _]]].
  split; [apply Hi; reflexivity | exact Hc].
Defined.

(* ----------------------------------------------------------------- *)
(** ** process_analytics : the categorised frame *)

Lemma NoDup_map_eq {A B : Type} (f : A -> B) (l : list A) (a b : A) :
  NoDup (map f l) -> In a l -> In b l -> f a = f b -> a = b.
Proof.
  induction l as [|x r IH]; simpl; intros N Ha Hb E; [contradiction|].
  inversion N as [|? ? Hx Hr]; subst.
  destruct Ha as [Ha|Ha], Hb as [Hb|Hb]; subst.
  - reflexivity.
  - exfalso. apply Hx. rewrite E. apply in_map, Hb.
  - exfalso. apply Hx. rewrite <- E. apply in_map, Ha.
  - apply IH; assumption.
Qed.

(** Dropping rows keeps the Sids pairwise distinct. *)
Lemma filter_distinct_sids (keep : CallRecord -> bool) (df : list CallRecord) :
  NoDup (map Sid df) -> NoDup (map Sid (filter keep df)).
Proof.
  induction df as [|row rest IH]; simpl; intros N; [constructor|].
  inversion N as [|? ? Hrow Hrest]; subst.
  destruct (keep row); simpl; [|apply IH, Hrest].
  constructor; [|apply IH, Hrest].
  intros C. apply Hrow. apply in_map_iff in C. destruct C as [y [Ey Hy]].
  apply filter_In in Hy. rewrite <- Ey. apply in_map, Hy.
Qed.

Lemma filter_length_le {A : Type} (f g : A -> bool) (l : list A) :
  (forall x, In x l -> f x = true -> g x = true) ->
  List.length (filter f l) <= List.length (filter g l).
Proof.
  induction l as [|x r IH]; simpl; intros H; [apply Nat.le_refl|].
  assert (IH' : List.length (filter f r) <= List.length (filter g r))
    by (apply IH; intros y Hy; apply H; right; exact Hy).
  destruct (f x) eqn:Ef.
  - rewrite (H x (or_introl eq_refl) Ef). simpl. lia.
  - destruct (g x); simpl; lia.
Qed.

Lemma filter_none {A : Type} (f : A -> bool) (l : list A) :
  (forall x, In x l -> f x = false) -> filter f l = [].
Proof.
  induction l as [|x r IH]; simpl; intros H; [reflexivity|].
  rewrite (H x (or_introl eq_refl)). apply IH. intros y Hy. apply H. right. exact Hy.
Qed.

Lemma count_rows_le {A : Type} (f g : A -> bool) (l : list A) :
  (forall x, In x l -> f x = true -> g x = true) ->
  (count_rows f l <= count_rows g l)%Z.
Proof.
  intros H. unfold count_rows. apply Nat2Z.inj_le, filter_length_le, H.
Qed.

Lemma count_rows_nonneg {A : Type} (f : A -> bool) (l : list A) :
  (0 <= count_rows f l)%Z.
Proof. unfold count_rows. lia. Qed.

Lemma count_rows_none {A : Type} (f : A -> bool) (l : list A) :
  (forall x, In x l -> f x = false) -> count_rows f l = 0%Z.
Proof.
  intros H. unfold count_rows. rewrite (filter_none _ _ H). reflexivity.
Qed.

Section FrameFacts.
Context {F : Type} {ops : FloatOps F}.

(** The exophone filter only removes rows. *)
Lemma filter_exophone_filter (calls : list CallRecord) (flt : option string) :
  exists p, filter_exophone calls flt = filter p calls.
Proof.
  assert (Hid : calls = filter (fun _ => true) calls).
  { clear. induction calls as [|x r IH]; simpl; [reflexivity | f_equal; exact IH]. }
  unfold filter_exophone. destruct flt as [s|]; [|exists (fun _ => true); exact Hid].
  destruct (negb (String.eqb s "") && (has_column PhoneNumber calls || has_column To calls)).
  - eexists. reflexivity.
  - exists (fun _ => true). exact Hid.
Qed.

Lemma filter_exophone_NoDup (calls : list CallRecord) (flt : option string) :
  NoDup (map Sid calls) -> NoDup (map Sid (filter_exophone calls flt)).
Proof.
  intros N. destruct (filter_exophone_filter calls flt) as [p E]. rewrite E.
  apply filter_distinct_sids, N.
Qed.

(** Where a row of the merged frame comes from. *)
Lemma merge_left_In (df : list CallRecord) (right : list (string * pyval))
    (row : CallRecord * pyval) :
  In row (merge_left df right) ->
  In (fst row) df
  /\ ((forall m, In m right -> fst m <> Sid (fst row)) /\ snd row = PyNaN
      \/ exists m, In m right /\ fst m = Sid (fst row) /\ snd row = snd m).
Proof.
  unfold merge_left. intros H. apply in_flat_map in H. destruct H as [l [Hl H]].
  destruct (filter (fun m => String.eqb (fst m) (Sid l)) right) as [|m0 ms] eqn:Ef.
  - destruct H as [H|[]]. subst row. simpl. split; [exact Hl|]. left. split; [|reflexivity].
    intros m Hm E.
    assert (Hin : In m (filter (fun m => String.eqb (fst m) (Sid l)) right)).
    { apply filter_In. split; [exact Hm|]. apply String.eqb_eq, E. }
    rewrite Ef in Hin. contradiction.
  - apply in_map_iff in H. destruct H as [m [Em Hm]]. subst row. simpl.
    split; [exact Hl|]. right. exists m.
    rewrite <- Ef in Hm. apply filter_In in Hm. destruct Hm as [Hm E].
    apply String.eqb_eq in E. auto.
Qed.

(** The category column, row by row: [unknown] when a column is
    missing, [outgoing], or the looked-up category of an inbound row
    with the same Sid. *)
Lemma categorize_In (db : Database) (calls df : list CallRecord)
    (row : CallRecord * pyval) :
  In row (categorize db calls df) ->
  In (fst row) df
  /\ (snd row = PyStr "unknown"
      \/ snd row = PyStr "outgoing"
      \/ (has_column Direction calls = true
          /\ exists r,
               In r df /\ is_inbound r = true /\ Sid r = Sid (fst row)
               /\ snd row
                  = fillna (PyStr "outgoing") (inbound_category db calls df r))).
Proof.
  unfold categorize.
  destruct (has_column Direction calls) eqn:Hd; simpl;
    [destruct (has_column From calls); simpl|].
  - destruct (0 <? List.length (filter is_inbound df)).
    + intros H. apply in_map_iff in H. destruct H as [[l c] [E H]]. subst row. simpl.
      apply merge_left_In in H. simpl in H. destruct H as [Hl [[_ Hc]|[m [Hm [Em Hc]]]]].
      * split; [exact Hl|]. right. left. rewrite Hc. reflexivity.
      * split; [exact Hl|]. right. right. split; [reflexivity|].
        apply in_map_iff in Hm. destruct Hm as [r [Er Hr]]. subst m. simpl in *.
        apply filter_In in Hr. destruct Hr as [Hr Hi].
        exists r. rewrite Hc. auto.
    + intros H. apply in_map_iff in H. destruct H as [r [E H]]. subst row. simpl. auto.
  - intros H. apply in_map_iff in H. destruct H as [r [E H]]. subst row. simpl. auto.
  - intros H. apply in_map_iff in H. destruct H as [r [E H]]. subst row. simpl. auto.
Qed.

(** An inbound row is always matched by the merge, so its category is
    a looked-up one. *)
Lemma categorize_inbound (db : Database) (calls df : list CallRecord)
    (row : CallRecord * pyval) :
  has_column Direction calls && has_column From calls = true ->
  In row (categorize db calls df) ->
  is_inbound (fst row) = true ->
  exists r,
    In r df /\ is_inbound r = true /\ Sid r = Sid (fst row)
    /\ snd row = fillna (PyStr "outgoing") (inbound_category db calls df r).
Proof.
  intros Hcols. unfold categorize. rewrite Hcols.
  destruct (0 <? List.length (filter is_inbound df)) eqn:Elen.
  - intros H Hi. apply in_map_iff in H. destruct H as [[l c] [E H]]. subst row.
    simpl in *. apply merge_left_In in H. simpl in H.
    destruct H as [Hl [[Hno _]|[m [Hm [Em Hc]]]]].
    + exfalso. apply (Hno (Sid l, inbound_category db calls df l)); [|reflexivity].
      apply in_map_iff. exists l. split; [reflexivity|].
      apply filter_In. auto.
    + apply in_map_iff in Hm. destruct Hm as [r [Er Hr]]. subst m. simpl in *.
      apply filter_In in Hr. destruct Hr as [Hr Hir].
      exists r. rewrite Hc. auto.
  - intros H Hi. apply in_map_iff in H. destruct H as [r [E H]]. subst row. simpl in *.
    apply Nat.ltb_ge in Elen.
    assert (Hin : In r (filter is_inbound df)) by (apply filter_In; auto).
    destruct (filter is_inbound df); [contradiction | simpl in Elen; lia].
Qed.

Lemma fillna_category (c : string) (v : pyval) :
  c <> "outgoing" ->
  pyval_eqb (fillna (PyStr "outgoing") v) (PyStr c) = true -> v = PyStr c.
Proof.
  intros Hc H. apply pyval_eqb_eq in H.
  destruct v; simpl in H; try exact H; injection H as H; subst c; contradiction.
Qed.

(** With pairwise-distinct Sids, only inbound rows carry the category
    [service] or [enquiry]. *)
Lemma categorize_classified_inbound (db : Database) (calls df : list CallRecord)
    (row : CallRecord * pyval) (c : string) :
  NoDup (map Sid df) ->
  c = "service" \/ c = "enquiry" ->
  In row (categorize db calls df) ->
  has_category c row = true ->
  has_column Direction calls = true /\ is_inbound (fst row) = true.
Proof.
  intros N Hc Hrow Hcat. unfold has_category in Hcat.
  destruct (categorize_In _ _ _ _ Hrow) as [Hl [Hu|[Ho|[Hd [r [Hr [Hi [Es _]]]]]]]].
  - rewrite Hu in Hcat. apply pyval_eqb_eq in Hcat. injection Hcat as Hcat.
    destruct Hc; subst c; discriminate.
  - rewrite Ho in Hcat. apply pyval_eqb_eq in Hcat. injection Hcat as Hcat.
    destruct Hc; subst c; discriminate.
  - split; [exact Hd|].
    rewrite <- (NoDup_map_eq Sid df r (fst row) N Hr Hl Es). exact Hi.
Qed.

End FrameFacts.

(* ----------------------------------------------------------------- *)
(** ** The exact reading satisfies the order laws of the interface *)

Lemma exact_truediv_unit (a b : Z) :
  (0 <= a <= b)%Z -> (0 < b)%Z ->
  (inject_Z 0 <= inject_Z a / inject_Z b)%Q /\ (inject_Z a / inject_Z b <= inject_Z 1)%Q.
Proof.
  intros [Ha Hab] Hb.
  assert (Hb' : (0 < inject_Z b)%Q) by (unfold Qlt; simpl; lia).
  split.
  - apply Qle_shift_div_l; [exact Hb'|].
    rewrite Qmult_0_l. change 0%Q with (inject_Z 0). rewrite <- Zle_Qle. lia.
  - apply Qle_shift_div_r; [exact Hb'|].
    rewrite Qmult_1_l. rewrite <- Zle_Qle. exact Hab.
Qed.

Lemma exact_fmul_hundred (x : Q) :
  (inject_Z 0 <= x)%Q -> (x <= inject_Z 1)%Q ->
  (inject_Z 0 <= x * inject_Z 100)%Q /\ (x * inject_Z 100 <= inject_Z 100)%Q.
Proof.
  intros H0 H1. split.
  - apply Qmult_le_0_compat; [exact H0 | discriminate].
  - rewrite <- (Qmult_1_l (inject_Z 100)) at 2.
    apply Qmult_le_compat_r; [exact H1 | discriminate].
Qed.

Lemma exact_round_hundred (x : Q) :
  (inject_Z 0 <= x)%Q -> (x <= inject_Z 100)%Q ->
  (inject_Z 0 <= exact_round x 1)%Q /\ (exact_round x 1 <= inject_Z 100)%Q.
Proof.
  intros H0 H1. unfold exact_round. change (10 ^ 1)%Z with 10%Z.
  assert (Hlo : (0 <= Qfloor (x * inject_Z 10 + (1 # 2)))%Z).
  { change 0%Z with (Qfloor (1 # 2)). apply Qfloor_resp_le.
    rewrite <- (Qplus_0_l (1 # 2)) at 1. apply Qplus_le_compat; [|apply Qle_refl].
    apply Qmult_le_0_compat; [exact H0 | discriminate]. }
  assert (Hhi : (Qfloor (x * inject_Z 10 + (1 # 2)) <= 1000)%Z).
  { change 1000%Z with (Qfloor (inject_Z 100 * inject_Z 10 + (1 # 2))).
    apply Qfloor_resp_le. apply Qplus_le_compat; [|apply Qle_refl].
    apply Qmult_le_compat_r; [exact H1 | discriminate]. }
  split.
  - apply Qle_shift_div_l; [reflexivity|].
    rewrite Qmult_0_l. change 0%Q with (inject_Z 0). rewrite <- Zle_Qle. exact Hlo.
  - apply Qle_shift_div_r; [reflexivity|].
    change (inject_Z 100 * inject_Z 10)%Q with (inject_Z 1000).
    rewrite <- Zle_Qle. exact Hhi.
Qed.

Lemma filter_sid_count (right : list (string * pyval)) (s : string) :
  List.length (filter (fun m => String.eqb (fst m) s) right)
  = count_occ string_dec (map fst right) s.
Proof.
  induction right as [|[a c] r IH]; simpl; [reflexivity|].
  destruct (string_dec a s) as [E|N].
  - subst a. rewrite String.eqb_refl. simpl. rewrite IH. reflexivity.
  - apply String.eqb_neq in N. rewrite N. exact IH.
Qed.

Lemma map_const_repeat {A B : Type} (b : B) (l : list A) :
  map (fun _ => b) l = repeat b (List.length l).
Proof.
  induction l as [|x r IH]; simpl; [reflexivity | rewrite IH; reflexivity].
Qed.

Lemma merge_left_rows (df : list CallRecord) (right : list (string * pyval)) :
  map fst (merge_left df right) = merge_rows df (map fst right).
Proof.
  unfold merge_left, merge_rows. induction df as [|l r IH]; [reflexivity|].
  cbn [flat_map]. rewrite map_app, IH. f_equal.
  rewrite <- filter_sid_count.
  destruct (filter (fun m => String.eqb (fst m) (Sid l)) right) as [|m0 ms];
    [reflexivity|].
  rewrite map_map. cbn [fst List.length Nat.max].
  exact (map_const_repeat l (m0 :: ms)).
Qed.

Lemma merge_rows_nil (df : list CallRecord) : merge_rows df [] = df.
Proof.
  unfold merge_rows. induction df as [|l r IH]; [reflexivity|].
  cbn [flat_map]. rewrite IH. reflexivity.
Qed.

Lemma merge_rows_length (df : list CallRecord) (sids : list string) :
  List.length df <= List.length (merge_rows df sids).
Proof.
  unfold merge_rows. induction df as [|l r IH]; [apply Nat.le_refl|].
  cbn [flat_map]. rewrite length_app, repeat_length.
  change (List.length (l :: r)) with (S (List.length r)).
  pose proof (Nat.le_max_l 1 (count_occ string_dec sids (Sid l))). lia.
Qed.

Lemma merge_rows_distinct (df : list CallRecord) (sids : list string) :
  NoDup sids -> merge_rows df sids = df.
Proof.
  intros N. unfold merge_rows. induction df as [|l r IH]; [reflexivity|].
  cbn [flat_map]. rewrite IH.
  pose proof (proj1 (NoDup_count_occ string_dec sids) N (Sid l)) as Hc.
  destruct (count_occ string_dec sids (Sid l)) as [|[|c]]; simpl; try reflexivity. lia.
Qed.

Section FrameRowsFacts.
Context {F : Type} {ops : FloatOps F}.

(** The rows of the categorised frame do not depend on the database. *)
Lemma categorize_rows (db : Database) (calls df : list CallRecord) :
  map fst (categorize db calls df) = frame_rows calls df.
Proof.
  unfold categorize, frame_rows.
  destruct (has_column Direction calls && has_column From calls).
  - destruct (0 <? List.length (filter is_inbound df)) eqn:E.
    + rewrite map_map. cbn [fst].
      match goal with
      | |- map _ (merge_left ?d ?R) = _ =>
          transitivity (map fst (merge_left d R));
          [apply map_ext; intros; reflexivity|]
      end.
      rewrite merge_left_rows, map_map. reflexivity.
    + apply Nat.ltb_ge in E.
      destruct (filter is_inbound df); [|simpl in E; lia].
      simpl. rewrite merge_rows_nil, map_map. simpl. apply map_id.
  - rewrite map_map. simpl. apply map_id.
Qed.

End FrameRowsFacts.

Lemma count_rows_fst {A B : Type} (f : A -> bool) (rows : list (A * B)) :
  count_rows (fun row => f (fst row)) rows = count_rows f (map fst rows).
Proof.
  unfold count_rows. f_equal.
  induction rows as [|x r IH]; simpl; [reflexivity|].
  destruct (f (fst x)); simpl; rewrite IH; reflexivity.
Qed.

Lemma count_rows_disjoint {A : Type} (f g : A -> bool) (l : list A) :
  (forall x, In x l -> f x && g x = false) ->
  (count_rows f l + count_rows g l <= Z.of_nat (List.length l))%Z.
Proof.
  unfold count_rows. intros H.
  assert (List.length (filter f l) + List.length (filter g l) <= List.length l).
  { induction l as [|x r IH]; simpl; [lia|].
    assert (IH' := IH (fun y Hy => H y (or_intror Hy))).
    specialize (H x (or_introl eq_refl)).
    destruct (f x), (g x); simpl in *; try discriminate; lia. }
  lia.
Qed.

Lemma count_rows_split {A : Type} (f g h : A -> bool) (l : list A) :
  (forall x, In x l -> h x = f x || g x) ->
  (forall x, In x l -> f x && g x = false) ->
  (count_rows f l + count_rows g l = count_rows h l)%Z.
Proof.
  unfold count_rows. intros Hu Hd.
  assert (List.length (filter f l) + List.length (filter g l)
          = List.length (filter h l)).
  { induction l as [|x r IH]; simpl; [reflexivity|].
    assert (IH' := IH (fun y Hy => Hu y (or_intror Hy)) (fun y Hy => Hd y (or_intror Hy))).
    specialize (Hu x (or_introl eq_refl)). specialize (Hd x (or_introl eq_refl)).
    rewrite Hu. destruct (f x), (g x); simpl in *; try discriminate; lia. }
  lia.
Qed.

(* ----------------------------------------------------------------- *)
(** ** process_analytics *)

Section Aggregation.
Context {F : Type} {ops : FloatOps F}.

(** The dict [process_analytics] returns, in terms of the categorised
    frame. *)
Lemma process_analytics_some (db : Database) (calls : list CallRecord)
    (flt : option string) (a : Analytics F) :
  process_analytics db calls flt = Some a ->
  let df := categorize db calls (filter_exophone calls flt) in
  let incoming :=
    if has_column Direction calls then count_rows (fun row => is_inbound (fst row)) df
    else 0%Z in
  incoming_calls a = incoming
  /\ service_calls a = count_rows (has_category "service") df
  /\ enquiry_calls a = count_rows (has_category "enquiry") df
  /\ service_percentage a
     = (if (incoming >? 0)%Z then percent_of (service_calls a) incoming else NumInt 0)
  /\ enquiry_percentage a
     = (if (incoming >? 0)%Z then percent_of (enquiry_calls a) incoming else NumInt 0).
Proof.
  unfold process_analytics. destruct calls as [|c0 cs]; [discriminate|].
  destruct (List.length (filter_exophone (c0 :: cs) flt) =? 0); [discriminate|].
  destruct (has_column DateCreated (c0 :: cs) && _); [discriminate|].
  cbv zeta.
  match goal with |- (if ?c then _ else _) = _ -> _ => destruct c; [discriminate|] end.
  intros H. injection H as H. subst a. simpl. repeat split.
Qed.

Lemma map_fst_column {B : Type} (col : CallRecord -> pyval)
    (rows : list (CallRecord * B)) :
  map (fun row => col (fst row)) rows = map col (map fst rows).
Proof. rewrite map_map. reflexivity. Qed.

(** [process_analytics] returns None exactly when no row is left after
    the filter or pandas raises; neither depends on the database. *)
Lemma process_analytics_none (db : Database) (calls : list CallRecord)
    (flt : option string) :
  process_analytics (F := F) db calls flt = None
  <-> filter_exophone calls flt = [] \/ frame_raises calls flt = true.
Proof.
  unfold process_analytics, frame_raises.
  destruct calls as [|c0 cs].
  - split; [intros _; left|reflexivity].
    destruct flt as [s|]; [|reflexivity].
    unfold filter_exophone. simpl. rewrite andb_false_r. reflexivity.
  - cbv zeta. rewrite !map_fst_column, categorize_rows.
    destruct (filter_exophone (c0 :: cs) flt) as [|x r] eqn:Edf.
    + split; [intros _; left; reflexivity | reflexivity].
    + cbn [List.length Nat.eqb].
      destruct (has_column DateCreated (c0 :: cs) && _); cbn [orb].
      * split; [intros _; right; reflexivity | reflexivity].
      * match goal with
        | |- (if ?c then _ else _) = _ <-> _ => destruct c
        end.
        -- split; [intros _; right; reflexivity | reflexivity].
        -- split; [discriminate | intros [C|C]; discriminate].
Qed.

(** It returns a dict whenever rows are left after the filter. *)
Lemma process_analytics_returns (db : Database) (calls : list CallRecord)
    (flt : option string) :
  filter_exophone calls flt <> [] ->
  frame_raises calls flt = false ->
  exists a : Analytics F, process_analytics db calls flt = Some a.
Proof.
  intros H Hr.
  destruct (process_analytics (F := F) db calls flt) as [a|] eqn:E;
    [exists a; reflexivity|].
  apply process_analytics_none in E. destruct E as [E|E];
    [contradiction | rewrite E in Hr; discriminate].
Qed.

Lemma lookup_category_empty (phone : pyval) :
  lookup_category [] phone = PyStr "enquiry".
Proof. reflexivity. Qed.

Lemma frame_category_empty (column : list pyval) (phone : pyval) :
  frame_category column [] phone = PyStr "enquiry".
Proof.
  unfold frame_category. destruct (column_dtype column), phone; reflexivity.
Qed.

(** C7. When the pool or one of the two statements fails, the
    aggregation is not given up for it: [process_analytics] returns
    None only when no row is left after the filter or pandas raises on
    the frame, which the database has no part in, and returns its dict
    otherwise.  In that dict no row is counted in [service_calls]; and,
    the Direction and From columns being there, every inbound row
    carries the category [enquiry] and is counted in [enquiry_calls],
    which, when the Sids are pairwise distinct, is the number of
    inbound records left after the filter, and equals
    [incoming_calls]. *)
Theorem process_analytics_store_failure (db : Database) (calls : list CallRecord)
    (flt : option string) :
  fault db <> NoFault ->
  (process_analytics (F := F) db calls flt = None
   <-> filter_exophone calls flt = [] \/ frame_raises calls flt = true)
  /\ (filter_exophone calls flt <> [] -> frame_raises calls flt = false ->
      exists a : Analytics F, process_analytics db calls flt = Some a)
  /\ forall a : Analytics F,
       process_analytics db calls flt = Some a ->
       service_calls a = 0%Z
       /\ (has_column Direction calls && has_column From calls = true ->
           (forall row,
              In row (categorize db calls (filter_exophone calls flt)) ->
              is_inbound (fst row) = true -> snd row = PyStr "enquiry")
           /\ (incoming_calls a <= enquiry_calls a)%Z
           /\ (NoDup (map Sid calls) ->
               enquiry_calls a
               = Z.of_nat (List.length (filter is_inbound (filter_exophone calls flt)))
               /\ enquiry_calls a = incoming_calls a)).
Proof.
  intros Hf. split; [apply process_analytics_none|].
  split; [apply process_analytics_returns|].
  intros a Ha. apply process_analytics_some in Ha. cbv zeta in Ha.
  destruct Ha as [Hi [Hs [He _]]].
  assert (Hcat : forall row,
             In row (categorize db calls (filter_exophone calls flt)) ->
             has_category "service" row = false).
  { intros row Hrow. unfold has_category.
    destruct (categorize_In _ _ _ _ Hrow) as [_ [Hu|[Ho|[_ [r [_ [_ [_ Hc]]]]]]]].
    - rewrite Hu. reflexivity.
    - rewrite Ho. reflexivity.
    - rewrite Hc. unfold inbound_category.
      rewrite (batch_lookup_faulty _ _ Hf), frame_category_empty. reflexivity. }
  split; [rewrite Hs; apply count_rows_none, Hcat|].
  intros Hcols.
  assert (Hinb : forall row,
             In row (categorize db calls (filter_exophone calls flt)) ->
             is_inbound (fst row) = true -> snd row = PyStr "enquiry").
  { intros row Hrow Hin.
    destruct (categorize_inbound _ _ _ _ Hcols Hrow Hin) as [r [_ [_ [_ Hc]]]].
    rewrite Hc. unfold inbound_category.
    rewrite (batch_lookup_faulty _ _ Hf), frame_category_empty. reflexivity. }
  pose proof Hcols as Hboth.
  apply andb_true_iff in Hcols. destruct Hcols as [Hd _]. rewrite Hd in Hi.
  assert (Hle : (incoming_calls a <= enquiry_calls a)%Z).
  { rewrite Hi, He. apply count_rows_le. intros row Hrow Hin.
    unfold has_category. rewrite (Hinb row Hrow Hin). reflexivity. }
  split; [exact Hinb|]. split; [exact Hle|].
  intros N.
  assert (Heq : enquiry_calls a = incoming_calls a).
  { apply Z.le_antisymm; [|exact Hle].
    rewrite Hi, He. apply count_rows_le. intros row Hrow Hc.
    apply (categorize_classified_inbound db calls (filter_exophone calls flt) row
             "enquiry" (filter_exophone_NoDup _ _ N) (or_intror eq_refl) Hrow Hc). }
  split; [|exact Heq].
  rewrite Heq, Hi, count_rows_fst, categorize_rows. unfold frame_rows.
  rewrite Hboth, merge_rows_distinct
    by (apply filter_distinct_sids, filter_exophone_NoDup, N).
  reflexivity.
Qed.

(** With pairwise-distinct Sids the service and enquiry counts are
    parts of the incoming count. *)
Lemma process_analytics_counts (db : Database) (calls : list CallRecord)
    (flt : option string) (a : Analytics F) :
  NoDup (map Sid calls) ->
  process_analytics db calls flt = Some a ->
  (0 <= service_calls a <= incoming_calls a)%Z
  /\ (0 <= enquiry_calls a <= incoming_calls a)%Z.
Proof.
  intros N Ha. apply process_analytics_some in Ha. cbv zeta in Ha.
  destruct Ha as [Hi [Hs [He _]]].
  assert (Hpart : forall c, c = "service" \/ c = "enquiry" ->
            (0 <= count_rows (has_category c)
                    (categorize db calls (filter_exophone calls flt))
             <= incoming_calls a)%Z).
  { intros c Hc. split; [apply count_rows_nonneg|]. rewrite Hi.
    destruct (has_column Direction calls) eqn:Hd.
    - apply count_rows_le. intros row Hrow Hcat.
      apply (categorize_classified_inbound db calls (filter_exophone calls flt) row c
               (filter_exophone_NoDup _ _ N) Hc Hrow Hcat).
    - rewrite count_rows_none; [apply Z.le_refl|].
      intros row Hrow. destruct (has_category c row) eqn:Hcat; [|reflexivity].
      destruct (categorize_classified_inbound db calls (filter_exophone calls flt) row c
                  (filter_exophone_NoDup _ _ N) Hc Hrow Hcat) as [Hd' _].
      rewrite Hd in Hd'. discriminate. }
  rewrite Hs, He. split; apply Hpart; [left | right]; reflexivity.
Qed.

Hypothesis truediv_unit : forall a b : Z,
  (0 <= a <= b)%Z -> (0 < b)%Z ->
  fle (float_of_int 0) (truediv a b) /\ fle (truediv a b) (float_of_int 1).
Hypothesis fmul_hundred : forall x : F,
  fle (float_of_int 0) x -> fle x (float_of_int 1) ->
  fle (float_of_int 0) (fmul_int x 100) /\ fle (fmul_int x 100) (float_of_int 100).
Hypothesis round_hundred : forall x : F,
  fle (float_of_int 0) x -> fle x (float_of_int 100) ->
  fle (float_of_int 0) (round_ndigits x 1) /\ fle (round_ndigits x 1) (float_of_int 100).

Lemma percent_of_between (part whole : Z) :
  (0 <= part <= whole)%Z -> (0 < whole)%Z ->
  pynum_between 0 100 (percent_of part whole).
Proof.
  intros Hp Hw. unfold percent_of, pynum_between.
  destruct (truediv_unit part whole Hp Hw) as [H0 H1].
  destruct (fmul_hundred _ H0 H1) as [H2 H3].
  exact (round_hundred _ H2 H3).
Qed.

(** C9. For records with pairwise-distinct Sids, in every dict that
    [process_analytics] returns: with [incoming_calls > 0] the two
    percentages are [round(count / incoming_calls * 100, 1)] of the
    service and the enquiry count; with [incoming_calls = 0] both are
    the int 0; and both lie between 0 and 100.  The float operations
    are taken with the order laws of correctly rounded arithmetic: a
    quotient of [0 <= a <= b] lies in [0, 1], its product with 100 in
    [0, 100], and rounding keeps [0, 100]. *)
Theorem process_analytics_percentages (db : Database) (calls : list CallRecord)
    (flt : option string) (a : Analytics F) :
  NoDup (map Sid calls) ->
  process_analytics db calls flt = Some a ->
  ((0 < incoming_calls a)%Z ->
   service_percentage a = percent_of (service_calls a) (incoming_calls a)
   /\ enquiry_percentage a = percent_of (enquiry_calls a) (incoming_calls a))
  /\ (incoming_calls a = 0%Z ->
      service_percentage a = NumInt 0 /\ enquiry_percentage a = NumInt 0)
  /\ pynum_between 0 100 (service_percentage a)
  /\ pynum_between 0 100 (enquiry_percentage a).
Proof.
  intros N Ha.
  destruct (process_analytics_counts _ _ _ _ N Ha) as [Hs He].
  apply process_analytics_some in Ha. cbv zeta in Ha.
  destruct Ha as [Hi [_ [_ [Hsp Hep]]]].
  rewrite <- Hi in Hsp, Hep.
  destruct (incoming_calls a >? 0)%Z eqn:Epos.
  - apply Z.gtb_lt in Epos. rewrite Hsp, Hep.
    split; [intros _; split; reflexivity|].
    split; [intros E; lia|].
    split; apply percent_of_between; assumption.
  - rewrite Hsp, Hep.
    assert (~ (0 < incoming_calls a)%Z)
      by (intros C; apply Z.gtb_lt in C; rewrite C in Epos; discriminate).
    split; [intros C; contradiction|].
    split; [intros _; split; reflexivity|].
    split; simpl; lia.
Qed.

End Aggregation.

Lemma sample_calls_NoDup : NoDup (map Sid sample_calls).
Proof.
  simpl. repeat constructor; simpl; intuition discriminate.
Qed.

Lemma process_analytics_store_failure_witness :
  exists a : Analytics Q,
    process_analytics (ops := exact_ops) sample_db_down sample_calls None = Some a
    /\ service_calls a = 0%Z
    /\ enquiry_calls a = 2%Z
    /\ enquiry_calls a = incoming_calls a.
Proof.
  destruct (process_analytics_store_failure (ops := exact_ops)
              sample_db_down sample_calls None) as [_ [H1 H2]]; [discriminate|].
  destruct H1 as [a Ha]; [discriminate | reflexivity |].
  exists a. destruct (H2 a Ha) as [Hs Hrest].
  destruct (Hrest eq_refl) as [_ [_ Heq]].
  destruct (Heq sample_calls_NoDup) as [Hn He].
  split; [exact Ha|]. split; [exact Hs|]. split; [exact Hn | exact He].
Defined.

Lemma process_analytics_percentages_witness :
  exists a : Analytics Q,
    process_analytics (ops := exact_ops) sample_db sample_calls None = Some a
    /\ service_percentage a = percent_of (ops := exact_ops) (service_calls a) (incoming_calls a)
    /\ pynum_between (ops := exact_ops) 0 100 (service_percentage a)
    /\ pynum_between (ops := exact_ops) 0 100 (enquiry_percentage a).
Proof.
  eexists. split; [reflexivity|].
  destruct (process_analytics_percentages (ops := exact_ops)
              exact_truediv_unit exact_fmul_hundred exact_round_hundred
              sample_db sample_calls None _ sample_calls_NoDup eq_refl)
    as [Hp [_ [Hs He]]].
  split; [apply Hp; reflexivity|]. split; [exact Hs | exact He].
Defined.

(* ================================================================= *)
(** * Further properties of the lookup module *)

Lemma normalize_phone_retained_str (phones : list pyval) (p : pyval) :
  retained phones p = true ->
  truthy p = true /\ In p phones
  /\ normalize_phone p = PyStr (normalize_digits (str_filter isdigit (py_str p))).
Proof.
  intros R. apply retained_In in R.
  destruct (normalized_phones_entries _ _ R) as [_ [Hin Ht]]. simpl in *.
  repeat split; try assumption. apply normalize_phone_truthy, Ht.
Qed.

Lemma retained_key_listed (phones : list pyval) (p : pyval) :
  retained phones p = true ->
  In (normalize_phone p) (map fst (normalized_phones_of phones)).
Proof.
  intros R. apply retained_In in R. apply in_map_iff.
  exists (normalize_phone p, p). split; [reflexivity | exact R].
Qed.

(** For a string key of the batch, [historical_results] has an entry
    exactly when some row matches by its [phone] column, and the entry
    is taken from such a row. *)
Lemma historical_results_get (t : Tables) (keys : list pyval) (s : string) :
  In (PyStr s) keys ->
  match dict_get pyval_eqb (historical_results_of t keys) (PyStr s) with
  | Some h =>
      historical_phone_match t (PyStr s) = true
      /\ exists r, In r (all_tenants_data t)
                   /\ sql_eq (sql_digits (phone r)) (PyStr s) = true
                   /\ h = historical_info r
  | None => historical_phone_match t (PyStr s) = false
  end.
Proof.
  intros Hk. unfold historical_results_of.
  rewrite (dict_get_fold_set pyval_eqb pyval_eqb_eq
             (fun row : pyval * (pyval * pyval) => fst row)
             (fun row => [("name", fst (snd row)); ("property", snd (snd row))])).
  destruct (find _ _) as [row|] eqn:Ef.
  - apply find_some in Ef. destruct Ef as [Hin He]. apply pyval_eqb_eq in He.
    apply in_rev in Hin. apply in_map_iff in Hin. destruct Hin as [r [Er Hr]].
    apply filter_In in Hr. destruct Hr as [Hr _]. subst row. simpl in *.
    assert (Hm : sql_eq (sql_digits (phone r)) (PyStr s) = true).
    { apply sql_eq_value. split; [|exact He].
      destruct (sql_digits (phone r)) as [d|]; [exists d; reflexivity | discriminate]. }
    split.
    + unfold historical_phone_match. apply existsb_exists. exists r. auto.
    + exists r. auto.
  - destruct (historical_phone_match t (PyStr s)) eqn:Hm; [|reflexivity].
    unfold historical_phone_match in Hm. apply existsb_exists in Hm.
    destruct Hm as [r [Hr Hm]].
    assert (Hin : In (sql_value (sql_digits (phone r)),
                      (tenant_name r, tenant_property_name r))
                    (rev (map (fun r0 => (sql_value (sql_digits (phone r0)),
                                          (tenant_name r0, tenant_property_name r0)))
                            (filter (fun r0 => sql_eq_any (sql_digits (phone r0)) keys
                                               || sql_eq_any (sql_digits (mobile r0)) keys)
                               (all_tenants_data t))))).
    { apply in_rev. rewrite rev_involutive. apply in_map_iff. exists r.
      split; [reflexivity|]. apply filter_In. split; [exact Hr|].
      apply orb_true_iff. left. unfold sql_eq_any. apply existsb_exists.
      exists (PyStr s). auto. }
    apply (find_none _ _ Ef) in Hin. simpl in Hin.
    apply sql_eq_value in Hm. destruct Hm as [_ Hm]. rewrite Hm, pyval_eqb_refl in Hin.
    discriminate.
Qed.

(** X1. With pool and statements working and no live match, a retained
    raw phone is classified by the [phone] column of the historical
    table alone: service, with the name and property of a row whose
    phone digits equal the key, when there is such a row, and enquiry
    otherwise, also when a row matches the key by [mobile]. *)
Theorem batch_lookup_historical_by_phone (db : Database) (phones : list pyval) (p : pyval) :
  fault db = NoFault ->
  retained phones p = true ->
  live_match (tables db) (normalize_phone p) = false ->
  (historical_phone_match (tables db) (normalize_phone p) = true ->
   exists r,
     In r (all_tenants_data (tables db))
     /\ sql_eq (sql_digits (phone r)) (normalize_phone p) = true
     /\ dict_get pyval_eqb (batch_lookup db phones) p
        = Some (true, PyStr "service",
                Some (("found_in", PyStr "historical_data") :: historical_info r)))
  /\ (historical_phone_match (tables db) (normalize_phone p) = false ->
      dict_get pyval_eqb (batch_lookup db phones) p
      = Some (false, PyStr "enquiry", None)).
Proof.
  intros Hf Hr Hl.
  destruct (normalize_phone_retained_str _ _ Hr) as [_ [_ Hs]].
  pose proof (retained_key_listed _ _ Hr) as Hk.
  rewrite (batch_lookup_get _ _ _ Hf), Hr. unfold classification.
  rewrite (live_results_match _ _ _ Hk), Hl.
  rewrite Hs in Hk |- *.
  pose proof (historical_results_get (tables db) _ _ Hk) as Hh.
  destruct (dict_get pyval_eqb _ _) as [h|].
  - destruct Hh as [Hm [r [Hin [Hq Hh]]]]. split.
    + intros _. exists r. subst h. auto.
    + intros C. rewrite C in Hm. discriminate.
  - split; [intros C; rewrite C in Hh; discriminate | reflexivity].
Qed.

Lemma batch_lookup_historical_by_phone_witness :
  historical_match sample_tables_mobile (normalize_phone (PyStr "9876543210")) = true
  /\ dict_get pyval_eqb (batch_lookup sample_db_mobile [PyStr "9876543210"])
       (PyStr "9876543210")
     = Some (false, PyStr "enquiry", None).
Proof.
  split; [reflexivity|].
  apply (batch_lookup_historical_by_phone sample_db_mobile
           [PyStr "9876543210"] (PyStr "9876543210")); reflexivity.
Defined.

(** The forms a result tuple of [batch_lookup] can take. *)
Lemma classification_forms (live : list pyval)
    (hist : list (pyval * list (string * pyval))) (k : pyval) :
  (exists info, classification live hist k = (true, PyStr "service", Some info))
  \/ classification live hist k = (false, PyStr "enquiry", None).
Proof.
  unfold classification, LIVE_RESULT.
  destruct (py_in k live); [left; eexists; reflexivity|].
  destruct (dict_get pyval_eqb hist k); [left; eexists; reflexivity | right; reflexivity].
Qed.

(** X2. Whatever the state of the database, the dict [batch_lookup]
    returns has pairwise-distinct keys, each a truthy raw phone of the
    batch, and every value is either a service result with the tenant
    flag set and an info dict, or the enquiry result with the flag
    unset and no info; the call type [unknown] never occurs. *)
Theorem batch_lookup_entries (db : Database) (phones : list pyval) :
  NoDup (map fst (batch_lookup db phones))
  /\ forall p res,
       In (p, res) (batch_lookup db phones) ->
       In p phones /\ truthy p = true
       /\ ((exists info, res = (true, PyStr "service", Some info))
           \/ res = (false, PyStr "enquiry", None)).
Proof.
  destruct (Fault_eqb (fault db) NoFault) eqn:Ef.
  - assert (Hf : fault db = NoFault) by (destruct (fault db); try discriminate; reflexivity).
    rewrite (batch_lookup_healthy _ _ Hf).
    set (live := live_results_of _ _). set (hist := historical_results_of _ _).
    rewrite (fold_left_ext _
               (fun d e => dict_set pyval_eqb d (snd e) (classification live hist (fst e))))
      by (intros; apply classify_entry_set).
    split.
    + apply (fold_set_NoDup pyval_eqb pyval_eqb_eq). constructor.
    + intros p res Hin.
      apply (fold_set_In pyval_eqb pyval_eqb_eq) in Hin.
      destruct Hin as [[]|[e [He Eq]]]. injection Eq as Ep Er. subst p res.
      destruct (normalized_phones_entries _ _ He) as [_ [Hin Ht]].
      repeat split; try assumption. apply classification_forms.
  - assert (Hf : fault db <> NoFault) by (intros C; rewrite C in Ef; discriminate).
    rewrite (batch_lookup_faulty _ _ Hf). split; [constructor | intros p res []].
Qed.

Lemma batch_lookup_entries_witness :
  In (PyStr "9876543210") sample_batch
  /\ truthy (PyStr "9876543210") = true
  /\ ((exists info, LIVE_RESULT = (true, PyStr "service", Some info))
      \/ LIVE_RESULT = (false, PyStr "enquiry", None)).
Proof.
  apply (proj2 (batch_lookup_entries sample_db sample_batch)).
  left. reflexivity.
Defined.

Lemma existsb_find {A : Type} (f : A -> bool) (l : list A) :
  existsb f l = match find f l with Some _ => true | None => false end.
Proof.
  induction l as [|x r IH]; simpl; [reflexivity|].
  destruct (f x); [reflexivity | exact IH].
Qed.

(** The single lookup, case by case, when pool and statements work. *)
Lemma is_tenant_cases (db : Database) (p : pyval) :
  fault db = NoFault ->
  truthy (normalize_phone p) = true ->
  (live_match (tables db) (normalize_phone p) = true ->
   exists c,
     In c (flat_booking_orders (tables db))
     /\ sql_eq (sql_digits c) (normalize_phone p) = true
     /\ is_tenant db p
        = (true, PyStr "service",
           Some [("phone", sql_value c); ("found_in", PyStr "live_data");
                 ("table", PyStr LIVE_TABLE)]))
  /\ (live_match (tables db) (normalize_phone p) = false ->
      historical_match (tables db) (normalize_phone p) = true ->
      exists r,
        In r (all_tenants_data (tables db))
        /\ sql_eq (sql_digits (phone r)) (normalize_phone p)
           || sql_eq (sql_digits (mobile r)) (normalize_phone p) = true
        /\ is_tenant db p
           = (true, PyStr "service",
              Some [("phone", sql_value (phone r));
                    ("name", tenant_name r);
                    ("property", tenant_property_name r);
                    ("booking_id", tenant_booking_id r);
                    ("found_in", PyStr "historical_data");
                    ("table", PyStr HISTORICAL_TABLE)]))
  /\ (live_match (tables db) (normalize_phone p) = false ->
      historical_match (tables db) (normalize_phone p) = false ->
      is_tenant db p = (false, PyStr "enquiry", None)).
Proof.
  intros Hf Ht.
  assert (Hp : truthy p = true).
  { destruct (truthy p) eqn:E; [reflexivity|].
    rewrite (normalize_phone_falsy _ E) in Ht. discriminate. }
  unfold is_tenant, live_match, historical_match.
  rewrite Hp, Ht. simpl negb. cbv iota.
  unfold _get_connection, execute_live_one, execute_historical_one.
  rewrite Hf. simpl. rewrite !existsb_find.
  destruct (find (fun c => sql_eq (sql_digits c) (normalize_phone p))
              (flat_booking_orders (tables db))) as [c|] eqn:El; simpl.
  - split; [|split; intros C; discriminate].
    intros _. apply find_some in El. destruct El as [Hin Hm].
    exists c. auto.
  - split; [intros C; discriminate|].
    destruct (find (fun r => sql_eq (sql_digits (phone r)) (normalize_phone p)
                             || sql_eq (sql_digits (mobile r)) (normalize_phone p))
                (all_tenants_data (tables db))) as [r|] eqn:Eh; simpl.
    + split; [|intros _ C; discriminate].
      intros _ _. apply find_some in Eh. destruct Eh as [Hin Hm].
      exists r. auto.
    + split; [intros _ C; discriminate | intros _ _; reflexivity].
Qed.

(** X3. With pool and statements working, [is_tenant] on a phone with
    a non-empty key answers service with the stored live phone when a
    live row matches; otherwise service with the row's phone, name,
    property and booking id when a historical row matches by [phone] or
    by [mobile]; otherwise enquiry. *)
Theorem is_tenant_classification (db : Database) (p : pyval) :
  fault db = NoFault ->
  truthy (normalize_phone p) = true ->
  (live_match (tables db) (normalize_phone p) = true ->
   exists c,
     In c (flat_booking_orders (tables db))
     /\ sql_eq (sql_digits c) (normalize_phone p) = true
     /\ is_tenant db p
        = (true, PyStr "service",
           Some [("phone", sql_value c); ("found_in", PyStr "live_data");
                 ("table", PyStr LIVE_TABLE)]))
  /\ (live_match (tables db) (normalize_phone p) = false ->
      historical_match (tables db) (normalize_phone p) = true ->
      exists r,
        In r (all_tenants_data (tables db))
        /\ sql_eq (sql_digits (phone r)) (normalize_phone p)
           || sql_eq (sql_digits (mobile r)) (normalize_phone p) = true
        /\ is_tenant db p
           = (true, PyStr "service",
              Some [("phone", sql_value (phone r));
                    ("name", tenant_name r);
                    ("property", tenant_property_name r);
                    ("booking_id", tenant_booking_id r);
                    ("found_in", PyStr "historical_data");
                    ("table", PyStr HISTORICAL_TABLE)]))
  /\ (live_match (tables db) (normalize_phone p) = false ->
      historical_match (tables db) (normalize_phone p) = false ->
      is_tenant db p = (false, PyStr "enquiry", None)).
Proof.
  intros Hf Ht. exact (is_tenant_cases db p Hf Ht).
Qed.

Lemma is_tenant_classification_witness :
  exists r,
    In r (all_tenants_data sample_tables_mobile)
    /\ sql_eq (sql_digits (phone r)) (normalize_phone (PyStr "9876543210"))
       || sql_eq (sql_digits (mobile r)) (normalize_phone (PyStr "9876543210")) = true
    /\ is_tenant sample_db_mobile (PyStr "9876543210")
       = (true, PyStr "service",
          Some [("phone", sql_value (phone r));
                ("name", tenant_name r);
                ("property", tenant_property_name r);
                ("booking_id", tenant_booking_id r);
                ("found_in", PyStr "historical_data");
                ("table", PyStr HISTORICAL_TABLE)]).
Proof.
  destruct (is_tenant_classification sample_db_mobile (PyStr "9876543210")
              eq_refl eq_refl) as [_ [H _]].
  exact (H eq_refl eq_refl).
Defined.

(** The single lookup when something is missing or fails. *)
Lemma is_tenant_degraded_cases (db : Database) (p : pyval) :
  (truthy (normalize_phone p) = false -> is_tenant db p = (false, PyNone, None))
  /\ (truthy (normalize_phone p) = true ->
      (fault db = PoolUnavailable \/ fault db = LiveQueryRaises ->
       is_tenant db p = (false, PyStr "unknown", None))
      /\ (fault db = HistoricalQueryRaises ->
          live_match (tables db) (normalize_phone p) = false ->
          is_tenant db p = (false, PyStr "unknown", None))
      /\ (fault db = HistoricalQueryRaises ->
          live_match (tables db) (normalize_phone p) = true ->
          fst (is_tenant db p) = (true, PyStr "service"))).
Proof.
  split.
  - intros Ht. unfold is_tenant.
    destruct (truthy p); simpl; [rewrite Ht|]; reflexivity.
  - intros Ht.
    assert (Hp : truthy p = true).
    { destruct (truthy p) eqn:E; [reflexivity|].
      rewrite (normalize_phone_falsy _ E) in Ht. discriminate. }
    unfold is_tenant, live_match. rewrite Hp, Ht. simpl negb. cbv iota.
    unfold _get_connection, execute_live_one, execute_historical_one.
    rewrite existsb_find.
    split; [|split].
    + intros [Hf|Hf]; rewrite Hf; reflexivity.
    + intros Hf Hl. rewrite Hf. simpl.
      destruct (find _ _); [discriminate | reflexivity].
    + intros Hf Hl. rewrite Hf. simpl.
      destruct (find _ _); [reflexivity | discriminate].
Qed.

(** X4. [is_tenant] never raises: a phone whose key is missing or empty
    gives [(False, None, None)] whatever the database does; with a
    non-empty key, a missing pool or a failing live statement gives
    [(False, 'unknown', None)]; a failing historical statement gives
    [unknown] only when no live row matches, a live match is still
    answered as service. *)
Theorem is_tenant_degraded (db : Database) (p : pyval) :
  (truthy (normalize_phone p) = false -> is_tenant db p = (false, PyNone, None))
  /\ (truthy (normalize_phone p) = true ->
      (fault db = PoolUnavailable \/ fault db = LiveQueryRaises ->
       is_tenant db p = (false, PyStr "unknown", None))
      /\ (fault db = HistoricalQueryRaises ->
          live_match (tables db) (normalize_phone p) = false ->
          is_tenant db p = (false, PyStr "unknown", None))
      /\ (fault db = HistoricalQueryRaises ->
          live_match (tables db) (normalize_phone p) = true ->
          fst (is_tenant db p) = (true, PyStr "service"))).
Proof.
  exact (is_tenant_degraded_cases db p).
Qed.

Lemma is_tenant_degraded_witness :
  is_tenant sample_db (PyStr "n/a") = (false, PyNone, None)
  /\ fst (is_tenant sample_db_down (PyStr "+919876543210")) = (true, PyStr "service").
Proof.
  destruct (is_tenant_degraded sample_db (PyStr "n/a")) as [H1 _].
  destruct (is_tenant_degraded sample_db_down (PyStr "+919876543210")) as [_ H2].
  split; [apply H1; reflexivity|].
  destruct (H2 eq_refl) as [_ [_ H3]]. apply H3; reflexivity.
Defined.

(** The flag and call type [batch_lookup] gives a retained phone. *)
Lemma batch_lookup_call_type (db : Database) (phones : list pyval) (p : pyval) :
  fault db = NoFault ->
  retained phones p = true ->
  exists res,
    dict_get pyval_eqb (batch_lookup db phones) p = Some res
    /\ fst res
       = (if live_match (tables db) (normalize_phone p)
             || historical_phone_match (tables db) (normalize_phone p)
          then (true, PyStr "service") else (false, PyStr "enquiry")).
Proof.
  intros Hf Hr.
  destruct (normalize_phone_retained_str _ _ Hr) as [_ [_ Hs]].
  pose proof (retained_key_listed _ _ Hr) as Hk.
  rewrite (batch_lookup_get _ _ _ Hf), Hr. eexists. split; [reflexivity|].
  unfold classification. rewrite (live_results_match _ _ _ Hk).
  destruct (live_match (tables db) (normalize_phone p)); [reflexivity|].
  rewrite Hs in Hk |- *.
  pose proof (historical_results_get (tables db) _ _ Hk) as Hh.
  destruct (dict_get pyval_eqb _ _) as [h|].
  - destruct Hh as [Hm _]. rewrite Hm. reflexivity.
  - rewrite Hh. reflexivity.
Qed.

(** The flag and call type of the single lookup. *)
Lemma is_tenant_call_type (db : Database) (p : pyval) :
  fault db = NoFault ->
  truthy (normalize_phone p) = true ->
  fst (is_tenant db p)
  = (if live_match (tables db) (normalize_phone p)
        || historical_match (tables db) (normalize_phone p)
     then (true, PyStr "service") else (false, PyStr "enquiry")).
Proof.
  intros Hf Ht. destruct (is_tenant_cases db p Hf Ht) as [H1 [H2 H3]].
  destruct (live_match (tables db) (normalize_phone p)).
  - destruct (H1 eq_refl) as [c [_ [_ E]]]. rewrite E. reflexivity.
  - destruct (historical_match (tables db) (normalize_phone p)).
    + destruct (H2 eq_refl eq_refl) as [r [_ [_ E]]]. rewrite E. reflexivity.
    + rewrite (H3 eq_refl eq_refl). reflexivity.
Qed.

(** X5. With pool and statements working, the bulk and the single
    lookup give a retained phone with a non-empty key the same tenant
    flag and call type, unless the key has no live match and matches
    historical rows by [mobile] only: then [is_tenant] says service and
    [batch_lookup] says enquiry. *)
Theorem lookup_paths_compared (db : Database) (phones : list pyval) (p : pyval) :
  fault db = NoFault ->
  retained phones p = true ->
  truthy (normalize_phone p) = true ->
  exists res,
    dict_get pyval_eqb (batch_lookup db phones) p = Some res
    /\ (live_match (tables db) (normalize_phone p)
        || historical_phone_match (tables db) (normalize_phone p)
        = live_match (tables db) (normalize_phone p)
          || historical_match (tables db) (normalize_phone p) ->
        fst res = fst (is_tenant db p))
    /\ (live_match (tables db) (normalize_phone p) = false ->
        historical_phone_match (tables db) (normalize_phone p) = false ->
        historical_match (tables db) (normalize_phone p) = true ->
        fst res = (false, PyStr "enquiry")
        /\ fst (is_tenant db p) = (true, PyStr "service")).
Proof.
  intros Hf Hr Ht.
  destruct (batch_lookup_call_type db phones p Hf Hr) as [res [Hres Hfst]].
  pose proof (is_tenant_call_type db p Hf Ht) as Hsingle.
  exists res. split; [exact Hres|]. split.
  - intros E. rewrite Hfst, Hsingle, E. reflexivity.
  - intros Hl Hp Hm. rewrite Hfst, Hsingle, Hl, Hp, Hm. split; reflexivity.
Qed.

Lemma lookup_paths_compared_witness :
  exists res,
    dict_get pyval_eqb (batch_lookup sample_db_mobile [PyStr "9876543210"])
      (PyStr "9876543210") = Some res
    /\ fst res = (false, PyStr "enquiry")
    /\ fst (is_tenant sample_db_mobile (PyStr "9876543210")) = (true, PyStr "service").
Proof.
  destruct (lookup_paths_compared sample_db_mobile [PyStr "9876543210"]
              (PyStr "9876543210") eq_refl eq_refl eq_refl) as [res [H1 [_ H3]]].
  exists res. split; [exact H1|]. exact (H3 eq_refl eq_refl eq_refl).
Defined.

(** Every result of [is_tenant] has one of four forms. *)
Lemma is_tenant_forms (db : Database) (p : pyval) :
  (truthy (normalize_phone p) = false /\ is_tenant db p = (false, PyNone, None))
  \/ (truthy (normalize_phone p) = true
      /\ ((exists info, is_tenant db p = (true, PyStr "service", Some info))
          \/ is_tenant db p = (false, PyStr "enquiry", None)
          \/ (fault db <> NoFault /\ is_tenant db p = (false, PyStr "unknown", None)))).
Proof.
  destruct (is_tenant_degraded_cases db p) as [Hfalsy Htruthy].
  destruct (truthy (normalize_phone p)) eqn:Ht; [right | left; auto].
  split; [reflexivity|].
  destruct (Htruthy eq_refl) as [H1 [H2 H3]].
  destruct (fault db) eqn:Hf.
  - assert (Hf' : fault db = NoFault) by exact Hf.
    destruct (is_tenant_cases db p Hf' Ht) as [C1 [C2 C3]].
    destruct (live_match (tables db) (normalize_phone p)).
    + destruct (C1 eq_refl) as [c [_ [_ E]]]. left. eexists. exact E.
    + destruct (historical_match (tables db) (normalize_phone p)).
      * destruct (C2 eq_refl eq_refl) as [r [_ [_ E]]]. left. eexists. exact E.
      * right. left. apply C3; reflexivity.
  - right. right. split; [discriminate | apply H1; left; reflexivity].
  - right. right. split; [discriminate | apply H1; right; reflexivity].
  - destruct (live_match (tables db) (normalize_phone p)) eqn:Hl.
    + specialize (H3 eq_refl eq_refl).
      destruct (is_tenant db p) as [[b c] i] eqn:E. simpl in H3.
      injection H3 as Hb Hc. subst b c.
      (* the info of a live answer is always present *)
      revert E. unfold is_tenant.
      assert (Hp : truthy p = true).
      { destruct (truthy p) eqn:Ep; [reflexivity|].
        rewrite (normalize_phone_falsy _ Ep) in Ht. discriminate. }
      rewrite Hp, Ht. simpl negb. cbv iota.
      unfold _get_connection, execute_live_one, execute_historical_one.
      rewrite Hf. simpl.
      destruct (find _ _); simpl; intros E; injection E as E; subst i;
        [left; eexists; reflexivity | discriminate].
    + right. right. split; [discriminate | apply H2; reflexivity].
Qed.

(** X6. The two convenience wrappers agree and never report [unknown]:
    for a phone with a non-empty key, [categorize_call] answers
    ['service'] exactly when [is_service_call] holds and ['enquiry']
    otherwise, also when the database fails; for a phone without a
    usable key it answers [None], not a category. *)
Theorem categorize_call_total (db : Database) (p : pyval) :
  (truthy (normalize_phone p) = false ->
   categorize_call db p = PyNone /\ is_service_call db p = false)
  /\ (truthy (normalize_phone p) = true ->
      (categorize_call db p = PyStr "service" /\ is_service_call db p = true)
      \/ (categorize_call db p = PyStr "enquiry" /\ is_service_call db p = false)).
Proof.
  unfold categorize_call, is_service_call.
  destruct (is_tenant_forms db p) as [[Ht E]|[Ht [[info E]|[E|[_ E]]]]];
    rewrite E, Ht; simpl; split; intros H; try discriminate; auto.
Qed.

Lemma categorize_call_total_witness :
  (categorize_call sample_db (PyStr "") = PyNone
   /\ is_service_call sample_db (PyStr "") = false)
  /\ ((categorize_call sample_db_down (PyStr "12345") = PyStr "service"
       /\ is_service_call sample_db_down (PyStr "12345") = true)
      \/ (categorize_call sample_db_down (PyStr "12345") = PyStr "enquiry"
          /\ is_service_call sample_db_down (PyStr "12345") = false)).
Proof.
  split.
  - apply (proj1 (categorize_call_total sample_db (PyStr ""))). reflexivity.
  - apply (proj2 (categorize_call_total sample_db_down (PyStr "12345"))). reflexivity.
Defined.

(* ================================================================= *)
(** * Further properties of fetch_calls *)

Lemma fetch_calls_finishes (api : Api) (base_url date_filter : string) (n : nat) :
  (forall req, continues (api n req) = false) ->
  exists run,
    forall fuel, n < fuel -> fetch_calls fuel api base_url date_filter = Some run.
Proof.
  intros Hn.
  destruct (fetch_loop_terminates api n Hn (S n) (fetch_init base_url date_filter))
    as [run Hrun]; [simpl; lia | simpl; lia |].
  exists run. intros fuel Hfuel. unfold fetch_calls.
  replace fuel with (S n + (fuel - S n)) by lia.
  apply fetch_loop_more_fuel, Hrun.
Qed.

(** A pass that goes on leaves the loop ready for the next request. *)
Lemma fetch_iteration_continue (api : Api) (st st' : FetchState) :
  fetch_iteration api st = Continue st' ->
  exists status_code data,
    api (List.length (log st)) (current_request st)
    = HttpResponse status_code (Return data)
    /\ current_request st' = next_request data.
Proof.
  unfold fetch_iteration.
  destruct (api (List.length (log st)) (current_request st)) as [|code [data|]];
    try discriminate.
  - destruct (code =? 200)%Z; [|discriminate].
    destruct (Calls data); [discriminate|].
    destruct (truthy (NextPageUri data)); simpl; [|discriminate].
    intros H. injection H as H. subst st'. exists code, data. split; reflexivity.
  - destruct (code =? 200)%Z; discriminate.
Qed.

Lemma fetch_loop_chain (api : Api) (fuel : nat) (st : FetchState) (run : FetchRun) :
  fetch_loop fuel api st = Some run ->
  exists tail,
    exchanges run = log st ++ tail /\ cursor_chain (current_request st) tail.
Proof.
  revert st. induction fuel as [|f IH]; intros st H; simpl in H; [discriminate|].
  pose proof (fetch_iteration_cases api st) as C. cbv zeta in C.
  destruct (fetch_iteration api st) as [st'|st'|st'] eqn:Es.
  - destruct C as [_ [Hl _]].
    destruct (fetch_iteration_continue _ _ _ Es) as [code [data [Er Eq]]].
    destruct (IH _ H) as [tail [Et Hc]].
    exists ((current_request st, HttpResponse code (Return data)) :: tail). split.
    + rewrite Et, Hl, Er, <- app_assoc. reflexivity.
    + apply chain_next. rewrite <- Eq. exact Hc.
  - destruct C as [_ [_ [Hl _]]]. injection H as H. subst run. simpl.
    eexists. split; [exact Hl | apply chain_last].
  - destruct C as [_ [_ [Hl _]]]. injection H as H. subst run. simpl.
    eexists. split; [exact Hl | apply chain_last].
Qed.

Lemma fetch_loop_answers (api : Api) (fuel : nat) (st : FetchState) (run : FetchRun) :
  fetch_loop fuel api st = Some run ->
  (forall i x, nth_error (log st) i = Some x -> snd x = api i (fst x)) ->
  forall i x, nth_error (exchanges run) i = Some x -> snd x = api i (fst x).
Proof.
  revert st. induction fuel as [|f IH]; intros st H Hlog; simpl in H; [discriminate|].
  pose proof (fetch_iteration_cases api st) as C. cbv zeta in C.
  assert (Hnext : forall i x,
             nth_error (log st ++ [(current_request st,
                                    api (List.length (log st)) (current_request st))]) i
             = Some x ->
             snd x = api i (fst x)).
  { intros i x Hx.
    destruct (Nat.lt_ge_cases i (List.length (log st))) as [Hi|Hi].
    - rewrite nth_error_app1 in Hx by exact Hi. apply Hlog, Hx.
    - rewrite nth_error_app2 in Hx by exact Hi.
      destruct (i - List.length (log st)) as [|d] eqn:Ed; simpl in Hx.
      + injection Hx as Hx. subst x. simpl.
        replace i with (List.length (log st)) by lia. reflexivity.
      + destruct d; discriminate. }
  destruct (fetch_iteration api st) as [st'|st'|st'].
  - destruct C as [_ [Hl _]]. apply (IH st' H). rewrite Hl. exact Hnext.
  - destruct C as [_ [_ [Hl _]]]. injection H as H. subst run. simpl.
    rewrite Hl. exact Hnext.
  - destruct C as [_ [_ [Hl _]]]. injection H as H. subst run. simpl.
    rewrite Hl. exact Hnext.
Qed.

(** X7. Once the API gives a terminal answer, [fetch_calls] returns,
    and the requests it issued form a cursor chain: the first goes to
    [base_url/Calls.json] with the date filter, page size 100 and the
    descending sort, and each later one goes to the host followed by
    the [NextPageUri] of the body received just before, with no
    parameters. *)
Theorem fetch_calls_follows_cursors
    (api : Api) (base_url date_filter : string) (n : nat) :
  (forall req, continues (api n req) = false) ->
  exists run,
    (forall fuel, n < fuel -> fetch_calls fuel api base_url date_filter = Some run)
    /\ cursor_chain (first_request base_url date_filter) (exchanges run).
Proof.
  intros Hn. destruct (fetch_calls_finishes api base_url date_filter n Hn) as [run Hrun].
  exists run. split; [exact Hrun|].
  specialize (Hrun (S n) (Nat.lt_succ_diag_r n)). unfold fetch_calls in Hrun.
  destruct (fetch_loop_chain _ _ _ _ Hrun) as [tail [Et Hc]].
  simpl in Et. rewrite Et. exact Hc.
Qed.

Lemma fetch_calls_follows_cursors_witness :
  exists run,
    fetch_calls 3 api_short_pages sample_base_url sample_date_filter = Some run
    /\ cursor_chain (first_request sample_base_url sample_date_filter) (exchanges run).
Proof.
  destruct (fetch_calls_follows_cursors api_short_pages sample_base_url
              sample_date_filter 2) as [run [H1 H2]].
  - intros req. reflexivity.
  - exists run. split; [apply H1; lia | exact H2].
Defined.

(** X8. Once the API gives a terminal answer, [fetch_calls] returns;
    every logged response is the API's answer to the logged request at
    its position; the records accumulated are the records of the pages
    received, in page order; and when no call raised, that list is what
    the function returns. *)
Theorem fetch_calls_collects_pages
    (api : Api) (base_url date_filter : string) (n : nat) :
  (forall req, continues (api n req) = false) ->
  exists run,
    (forall fuel, n < fuel -> fetch_calls fuel api base_url date_filter = Some run)
    /\ (forall i x, nth_error (exchanges run) i = Some x -> snd x = api i (fst x))
    /\ fetched run = flat_map (fun x => page_calls (snd x)) (exchanges run)
    /\ (Forall (fun x => raises (snd x) = false) (exchanges run) ->
        returned run = flat_map (fun x => page_calls (snd x)) (exchanges run)).
Proof.
  intros Hn. destruct (fetch_calls_finishes api base_url date_filter n Hn) as [run Hrun].
  exists run. split; [exact Hrun|].
  specialize (Hrun (S n) (Nat.lt_succ_diag_r n)). unfold fetch_calls in Hrun.
  split; [|split].
  - apply (fetch_loop_answers _ _ _ _ Hrun). intros i x Hx.
    simpl in Hx. destruct i; discriminate.
  - destruct (fetch_loop_run _ _ _ _ Hrun) as [mid [last [He [_ [_ [Hf _]]]]]].
    simpl in He, Hf. rewrite He. exact Hf.
  - intros Hno.
    destruct (fetch_loop_run _ _ _ _ Hrun) as [mid [last [He [_ [_ [Hf Hr]]]]]].
    simpl in He, Hf. rewrite He in Hno |- *.
    apply Forall_app in Hno. destruct Hno as [_ Hlast].
    inversion Hlast as [|? ? Hl _]; subst. rewrite Hl in Hr. rewrite Hr. exact Hf.
Qed.

Lemma fetch_calls_collects_pages_witness :
  exists run,
    fetch_calls 3 api_short_pages sample_base_url sample_date_filter = Some run
    /\ returned run = flat_map (fun x => page_calls (snd x)) (exchanges run)
    /\ List.length (returned run) = 3.
Proof.
  destruct (fetch_calls_collects_pages api_short_pages sample_base_url
              sample_date_filter 2) as [run [H1 [_ [_ H4]]]].
  - intros req. reflexivity.
  - exists run. split; [apply H1; lia|].
    assert (E : fetch_calls 3 api_short_pages sample_base_url sample_date_filter
                = Some run) by (apply H1; lia).
    vm_compute in E. injection E as E. subst run.
    split; [apply H4; repeat constructor | reflexivity].
Defined.

(* ================================================================= *)
(** * Further properties of process_analytics *)

Section AggregationFields.
Context {F : Type} {ops : FloatOps F}.

(** The count metrics that do not read the category column. *)
Lemma process_analytics_fields (db : Database) (calls : list CallRecord)
    (flt : option string) (a : Analytics F) :
  process_analytics db calls flt = Some a ->
  let rows := map fst (categorize db calls (filter_exophone calls flt)) in
  total_calls a = Z.of_nat (List.length rows)
  /\ incoming_calls a
     = (if has_column Direction calls then count_rows is_inbound rows else 0%Z)
  /\ outgoing_calls a
     = (if has_column Direction calls then count_rows is_outbound rows else 0%Z)
  /\ answered_calls a
     = (if has_column Status calls
        then count_rows (fun r => pyval_eqb (Status r) (PyStr "completed")) rows
        else 0%Z)
  /\ missed_calls a
     = (if has_column Status calls then count_rows is_missed rows else 0%Z).
Proof.
  unfold process_analytics. destruct calls as [|c0 cs]; [discriminate|].
  destruct (List.length (filter_exophone (c0 :: cs) flt) =? 0); [discriminate|].
  destruct (has_column DateCreated (c0 :: cs) && _); [discriminate|].
  cbv zeta.
  match goal with |- (if ?c then _ else _) = _ -> _ => destruct c; [discriminate|] end.
  intros H. injection H as H. subst a. simpl.
  rewrite length_map, <- !count_rows_fst. repeat split.
Qed.

End AggregationFields.

Lemma str_contains_empty (hay : string) : str_contains "" hay = true.
Proof. destruct hay; reflexivity. Qed.

Lemma filter_all {A : Type} (f : A -> bool) (l : list A) :
  (forall x, In x l -> f x = true) -> filter f l = l.
Proof.
  induction l as [|x r IH]; simpl; intros H; [reflexivity|].
  rewrite (H x (or_introl eq_refl)). f_equal. apply IH.
  intros y Hy. apply H. right. exact Hy.
Qed.

Lemma str_contains_in_empty (needle : string) :
  str_contains needle "" = true -> needle = "".
Proof. destruct needle; [reflexivity | discriminate]. Qed.

Lemma has_column_In (col : CallRecord -> pyval) (calls : list CallRecord)
    (r : CallRecord) :
  In r calls -> col r <> PyNaN -> has_column col calls = true.
Proof.
  intros Hr Hc. unfold has_column. apply existsb_exists. exists r.
  split; [exact Hr|]. apply negb_true_iff, pyval_eqb_neq, Hc.
Qed.

Lemma column_dtype_text (column : list pyval) (s : string) :
  In (PyStr s) column -> column_dtype column = ObjectDtype.
Proof.
  intros H. unfold column_dtype.
  replace (existsb is_text column) with true; [reflexivity|].
  symmetry. apply existsb_exists. exists (PyStr s). split; [exact H | reflexivity].
Qed.

Section FilterFacts.
Context {F : Type} {ops : FloatOps F}.

Lemma cell_str_text (col : CallRecord -> pyval) (calls : list CallRecord)
    (r : CallRecord) (s : string) :
  In r calls -> col r = PyStr s -> cell_str col calls r = s.
Proof.
  intros Hr Hs. unfold cell_str, stored_str.
  rewrite (has_column_In col calls r Hr) by (rewrite Hs; discriminate).
  rewrite (column_dtype_text (map col calls) s), Hs; [reflexivity|].
  rewrite <- Hs. apply in_map, Hr.
Qed.

(** X9. What the exophone filter keeps.  No filter, the empty filter
    and a filter without any digit keep every record.  In a frame whose
    To and PhoneNumber cells are strings, a filter keeps the records of
    which one of the two strings contains its last ten digits.  A To
    column that pandas has turned into floats is matched on the text of
    the float: with no PhoneNumber column, a record whose To cell is
    the integer [z] is kept exactly when [str(float(z))] contains the
    digits. *)
Theorem filter_exophone_keeps (calls : list CallRecord) :
  filter_exophone calls None = calls
  /\ filter_exophone calls (Some "") = calls
  /\ (forall s, str_existsb isdigit s = false -> filter_exophone calls (Some s) = calls)
  /\ (forall s r,
        s <> "" ->
        (forall c, In c calls ->
                   exists to phone, To c = PyStr to /\ PhoneNumber c = PyStr phone) ->
        (In r (filter_exophone calls (Some s))
         <-> In r calls
             /\ str_contains (filter_digits_of s) (py_str (PhoneNumber r))
                || str_contains (filter_digits_of s) (py_str (To r)) = true))
  /\ (forall s r z,
        s <> "" ->
        has_column PhoneNumber calls = false ->
        column_dtype (map To calls) = Float64Dtype ->
        In r calls -> To r = PyInt z ->
        (In r (filter_exophone calls (Some s))
         <-> str_contains (filter_digits_of s) (float_str z) = true)).
Proof.
  split; [reflexivity|]. split; [reflexivity|]. split; [|split].
  - intros s Hs. unfold filter_exophone.
    destruct (negb (String.eqb s "")
              && (has_column PhoneNumber calls || has_column To calls));
      [|reflexivity].
    apply filter_all. intros x _.
    rewrite (str_filter_none _ _ Hs). unfold str_suffix. simpl.
    rewrite str_contains_empty. reflexivity.
  - intros s r Hs Htext. unfold filter_exophone.
    apply String.eqb_neq in Hs. rewrite Hs. cbn [negb andb].
    split.
    + intros Hin.
      assert (Hr : In r calls).
      { destruct (has_column PhoneNumber calls || has_column To calls);
          [apply filter_In in Hin; apply Hin | exact Hin]. }
      destruct (Htext r Hr) as [to [phone [Hto Hph]]].
      rewrite (has_column_In PhoneNumber calls r Hr) in Hin
        by (rewrite Hph; discriminate).
      cbn [orb] in Hin. apply filter_In in Hin. destruct Hin as [_ Hm].
      rewrite (cell_str_text PhoneNumber calls r phone Hr Hph),
        (cell_str_text To calls r to Hr Hto) in Hm.
      rewrite Hto, Hph. split; [exact Hr | exact Hm].
    + intros [Hr Hm].
      destruct (Htext r Hr) as [to [phone [Hto Hph]]].
      rewrite (has_column_In PhoneNumber calls r Hr) by (rewrite Hph; discriminate).
      cbn [orb]. apply filter_In. split; [exact Hr|].
      rewrite (cell_str_text PhoneNumber calls r phone Hr Hph),
        (cell_str_text To calls r to Hr Hto).
      rewrite Hto, Hph in Hm. exact Hm.
  - intros s r z Hs Hph Hdt Hr Hto. unfold filter_exophone.
    apply String.eqb_neq in Hs. rewrite Hs, Hph.
    rewrite (has_column_In To calls r Hr) by (rewrite Hto; discriminate).
    cbn [negb andb orb]. rewrite filter_In.
    unfold cell_str, stored_str.
    rewrite Hph, (has_column_In To calls r Hr) by (rewrite Hto; discriminate).
    rewrite Hdt, Hto. fold (filter_digits_of s).
    split.
    + intros [_ Hm]. apply orb_true_iff in Hm. destruct Hm as [Hm|Hm]; [|exact Hm].
      apply str_contains_in_empty in Hm. rewrite Hm. apply str_contains_empty.
    + intros Hm. split; [exact Hr|]. rewrite Hm. apply orb_true_r.
Qed.

End FilterFacts.

Lemma filter_exophone_keeps_witness :
  In (sample_call "c1" "+919876543210" "inbound")
    (filter_exophone (ops := exact_ops) sample_calls (Some "08047361499")).
Proof.
  apply (proj1 (proj2 (proj2 (proj2 (filter_exophone_keeps (ops := exact_ops)
                                       sample_calls))))
           "08047361499" (sample_call "c1" "+919876543210" "inbound")).
  - discriminate.
  - intros c [<-|[<-|[<-|[]]]]; exists "08047361499", "08047361499"; split; reflexivity.
  - split; [left; reflexivity | reflexivity].
Defined.

(** The value forms of the dict [batch_lookup] returns. *)
Lemma batch_lookup_value_forms (db : Database) (phones : list pyval)
    (p : pyval) (res : LookupResult) :
  In (p, res) (batch_lookup db phones) ->
  (exists info, res = (true, PyStr "service", Some info))
  \/ res = (false, PyStr "enquiry", None).
Proof.
  destruct (Fault_eqb (fault db) NoFault) eqn:Ef.
  - assert (Hf : fault db = NoFault) by (destruct (fault db); try discriminate; reflexivity).
    rewrite (batch_lookup_healthy _ _ Hf).
    set (live := live_results_of _ _). set (hist := historical_results_of _ _).
    rewrite (fold_left_ext _
               (fun d e => dict_set pyval_eqb d (snd e) (classification live hist (fst e))))
      by (intros; apply classify_entry_set).
    intros Hin. apply (fold_set_In pyval_eqb pyval_eqb_eq) in Hin.
    destruct Hin as [[]|[e [_ Eq]]]. injection Eq as _ Er. subst res.
    apply classification_forms.
  - assert (Hf : fault db <> NoFault) by (intros C; rewrite C in Ef; discriminate).
    rewrite (batch_lookup_faulty _ _ Hf). intros [].
Qed.

(** The category given to an inbound call is [service] or [enquiry]. *)
Lemma lookup_category_forms (db : Database) (phones : list pyval) (phone : pyval) :
  lookup_category (batch_lookup db phones) phone = PyStr "service"
  \/ lookup_category (batch_lookup db phones) phone = PyStr "enquiry".
Proof.
  unfold lookup_category, dict_get_default.
  destruct (dict_get pyval_eqb (batch_lookup db phones) phone) as [res|] eqn:E;
    [|right; reflexivity].
  apply (dict_get_In pyval_eqb pyval_eqb_eq) in E.
  destruct (batch_lookup_value_forms _ _ _ _ E) as [[info H]|H]; subst res;
    [left | right]; reflexivity.
Qed.

Lemma frame_category_forms (db : Database) (phones column : list pyval)
    (phone : pyval) :
  frame_category column (batch_lookup db phones) phone = PyStr "service"
  \/ frame_category column (batch_lookup db phones) phone = PyStr "enquiry".
Proof.
  unfold frame_category.
  destruct (column_dtype column); try apply lookup_category_forms.
  destruct phone; try apply lookup_category_forms. right. reflexivity.
Qed.

Section AggregationMore.
Context {F : Type} {ops : FloatOps F}.

(** X10. [process_analytics] returns [None] exactly when no record is
    left after the exophone filter or pandas raises on the frame (the
    conversion of DateCreated, [.str] on a Direction column that is not
    text, the mean of Duration), whatever the database does; when it
    returns a dict, [total_calls] is at least the number of records
    left, and equal to it when the Sids are pairwise distinct. *)
Theorem process_analytics_total (db : Database) (calls : list CallRecord)
    (flt : option string) :
  (process_analytics (F := F) db calls flt = None
   <-> filter_exophone calls flt = [] \/ frame_raises calls flt = true)
  /\ forall a : Analytics F,
       process_analytics db calls flt = Some a ->
       (Z.of_nat (List.length (filter_exophone calls flt)) <= total_calls a)%Z
       /\ (NoDup (map Sid calls) ->
           total_calls a = Z.of_nat (List.length (filter_exophone calls flt))).
Proof.
  split; [apply process_analytics_none|].
  intros a Ha. apply process_analytics_fields in Ha. cbv zeta in Ha.
  destruct Ha as [Ht _]. rewrite Ht, categorize_rows. unfold frame_rows.
  - destruct (has_column Direction calls && has_column From calls).
    + split.
      * apply Nat2Z.inj_le, merge_rows_length.
      * intros N. rewrite merge_rows_distinct; [reflexivity|].
        apply filter_distinct_sids, filter_exophone_NoDup, N.
    + split; [apply Z.le_refl | reflexivity].
Qed.

(** X11. The count metrics that do not read the category column are
    the same for any two states of the database, and so is whether a
    dict is returned at all. *)
Theorem process_analytics_store_independent (db1 db2 : Database)
    (calls : list CallRecord) (flt : option string) :
  match process_analytics (F := F) db1 calls flt,
        process_analytics (F := F) db2 calls flt with
  | Some a1, Some a2 =>
      total_calls a1 = total_calls a2
      /\ incoming_calls a1 = incoming_calls a2
      /\ outgoing_calls a1 = outgoing_calls a2
      /\ answered_calls a1 = answered_calls a2
      /\ missed_calls a1 = missed_calls a2
  | None, None => True
  | _, _ => False
  end.
Proof.
  destruct (process_analytics db1 calls flt) as [a1|] eqn:E1;
    destruct (process_analytics db2 calls flt) as [a2|] eqn:E2.
  - apply process_analytics_fields in E1, E2. cbv zeta in E1, E2.
    rewrite categorize_rows in E1, E2.
    destruct E1 as [T1 [I1 [O1 [A1 M1]]]]. destruct E2 as [T2 [I2 [O2 [A2 M2]]]].
    rewrite T1, T2, I1, I2, O1, O2, A1, A2, M1, M2. repeat split.
  - apply process_analytics_none in E2.
    apply (process_analytics_none db1) in E2. rewrite E2 in E1. discriminate.
  - apply process_analytics_none in E1.
    apply (process_analytics_none db2) in E1. rewrite E1 in E2. discriminate.
  - exact I.
Qed.

(** X12. In every dict [process_analytics] returns, the inbound and the
    outbound calls together, and the answered and the missed calls
    together, are at most [total_calls], and no count is negative. *)
Theorem process_analytics_count_bounds (db : Database) (calls : list CallRecord)
    (flt : option string) (a : Analytics F) :
  process_analytics db calls flt = Some a ->
  (0 <= incoming_calls a /\ 0 <= outgoing_calls a
   /\ incoming_calls a + outgoing_calls a <= total_calls a)%Z
  /\ (0 <= answered_calls a /\ 0 <= missed_calls a
      /\ answered_calls a + missed_calls a <= total_calls a)%Z.
Proof.
  intros Ha. apply process_analytics_fields in Ha. cbv zeta in Ha.
  destruct Ha as [Ht [Hi [Ho [Han Hm]]]].
  set (rows := map fst (categorize db calls (filter_exophone calls flt))) in *.
  rewrite Ht, Hi, Ho, Han, Hm.
  assert (Hio : (count_rows is_inbound rows + count_rows is_outbound rows
                 <= Z.of_nat (List.length rows))%Z).
  { apply count_rows_disjoint. intros r _. unfold is_inbound, is_outbound.
    destruct (pyval_eqb (Direction r) (PyStr "inbound")) eqn:E; [|reflexivity].
    apply pyval_eqb_eq in E. rewrite E. reflexivity. }
  assert (Ham : (count_rows (fun r => pyval_eqb (Status r) (PyStr "completed")) rows
                 + count_rows is_missed rows <= Z.of_nat (List.length rows))%Z).
  { apply count_rows_disjoint. intros r _. unfold is_missed.
    destruct (pyval_eqb (Status r) (PyStr "completed")) eqn:E; [|reflexivity].
    apply pyval_eqb_eq in E. rewrite E. reflexivity. }
  pose proof (count_rows_nonneg is_inbound rows).
  pose proof (count_rows_nonneg is_outbound rows).
  pose proof (count_rows_nonneg (fun r => pyval_eqb (Status r) (PyStr "completed")) rows).
  pose proof (count_rows_nonneg is_missed rows).
  destruct (has_column Direction calls), (has_column Status calls); lia.
Qed.

(** X13. With pairwise-distinct Sids and both the Direction and the
    From column present, every inbound call is counted as service or as
    enquiry and nothing else is: [service_calls + enquiry_calls =
    incoming_calls]; when one of the two columns is missing, both
    counts are 0. *)
Theorem process_analytics_partition (db : Database) (calls : list CallRecord)
    (flt : option string) (a : Analytics F) :
  process_analytics db calls flt = Some a ->
  (has_column Direction calls && has_column From calls = true ->
   NoDup (map Sid calls) ->
   (service_calls a + enquiry_calls a = incoming_calls a)%Z)
  /\ (has_column Direction calls && has_column From calls = false ->
      service_calls a = 0%Z /\ enquiry_calls a = 0%Z).
Proof.
  intros Ha. apply process_analytics_some in Ha. cbv zeta in Ha.
  destruct Ha as [Hi [Hs [He _]]]. rewrite Hs, He, Hi. split.
  - intros Hcols N.
    pose proof Hcols as Hd. apply andb_true_iff in Hd. destruct Hd as [Hd _].
    rewrite Hd. apply count_rows_split.
    + intros row Hrow. unfold has_category.
      destruct (is_inbound (fst row)) eqn:Ein.
      * destruct (categorize_inbound _ _ _ _ Hcols Hrow Ein) as [r [_ [_ [_ Hc]]]].
        rewrite Hc. unfold inbound_category.
        match goal with
        | |- context [frame_category ?col (batch_lookup db ?ph) ?p] =>
            destruct (frame_category_forms db ph col p) as [E|E]
        end; rewrite E; reflexivity.
      * destruct (pyval_eqb (snd row) (PyStr "service")) eqn:E1.
        { destruct (categorize_classified_inbound db calls (filter_exophone calls flt)
                      row "service" (filter_exophone_NoDup _ _ N)
                      (or_introl eq_refl) Hrow E1) as [_ C].
          rewrite C in Ein. discriminate. }
        destruct (pyval_eqb (snd row) (PyStr "enquiry")) eqn:E2; [|reflexivity].
        destruct (categorize_classified_inbound db calls (filter_exophone calls flt)
                    row "enquiry" (filter_exophone_NoDup _ _ N)
                    (or_intror eq_refl) Hrow E2) as [_ C].
        rewrite C in Ein. discriminate.
    + intros row _. unfold has_category.
      destruct (pyval_eqb (snd row) (PyStr "service")) eqn:E; [|reflexivity].
      apply pyval_eqb_eq in E. rewrite E. reflexivity.
  - intros Hcols.
    assert (Hall : forall c, c = "service" \/ c = "enquiry" ->
              forall row, In row (categorize db calls (filter_exophone calls flt)) ->
                          has_category c row = false).
    { intros c Hc row Hrow. unfold categorize in Hrow. rewrite Hcols in Hrow.
      apply in_map_iff in Hrow. destruct Hrow as [r [E _]]. subst row.
      destruct Hc; subst c; reflexivity. }
    split; apply count_rows_none, Hall; [left | right]; reflexivity.
Qed.

End AggregationMore.

Lemma process_analytics_total_witness :
  exists a : Analytics Q,
    process_analytics (ops := exact_ops) sample_db sample_calls (Some "8047361499") = Some a
    /\ total_calls a
       = Z.of_nat (List.length (filter_exophone (ops := exact_ops) sample_calls
                                  (Some "8047361499"))).
Proof.
  eexists. split; [reflexivity|].
  apply (proj2 (process_analytics_total (ops := exact_ops) sample_db sample_calls
                  (Some "8047361499")) _ eq_refl).
  exact sample_calls_NoDup.
Defined.

Lemma process_analytics_count_bounds_witness :
  exists a : Analytics Q,
    process_analytics (ops := exact_ops) sample_db sample_calls None = Some a
    /\ (incoming_calls a + outgoing_calls a <= total_calls a)%Z
    /\ (answered_calls a + missed_calls a <= total_calls a)%Z.
Proof.
  eexists. split; [reflexivity|].
  destruct (process_analytics_count_bounds (ops := exact_ops) sample_db sample_calls
              None _ eq_refl) as [[_ [_ H1]] [_ [_ H2]]].
  split; [exact H1 | exact H2].
Defined.

Lemma process_analytics_partition_witness :
  exists a : Analytics Q,
    process_analytics (ops := exact_ops) sample_db sample_calls None = Some a
    /\ (service_calls a + enquiry_calls a = incoming_calls a)%Z.
Proof.
  eexists. split; [reflexivity|].
  apply (proj1 (process_analytics_partition (ops := exact_ops) sample_db sample_calls
                  None _ eq_refl)); [reflexivity | exact sample_calls_NoDup].
Defined.

(* ================================================================= *)
(** * Properties of the Lambda handler and its mail step *)

(** X14. The Authorization value always starts with "App ": a key that
    already has the prefix is sent as it is, any other key is sent with
    "App " put in front of it, and applying the rule twice changes
    nothing more. *)
Theorem authorization_header_app (api_key : string) :
  startswith (authorization_header api_key) "App " = true
  /\ (startswith api_key "App " = true -> authorization_header api_key = api_key)
  /\ (startswith api_key "App " = false ->
      authorization_header api_key = ("App " ++ api_key)%string)
  /\ authorization_header (authorization_header api_key) = authorization_header api_key.
Proof.
  assert (H1 : startswith (authorization_header api_key) "App " = true).
  { unfold authorization_header.
    destruct (startswith api_key "App ") eqn:E; [exact E|].
    clear E. destruct api_key; reflexivity. }
  split; [exact H1|]. split; [|split].
  - intros E. unfold authorization_header. rewrite E. reflexivity.
  - intros E. unfold authorization_header. rewrite E. reflexivity.
  - unfold authorization_header at 1. rewrite H1. reflexivity.
Qed.

Lemma authorization_header_app_witness :
  authorization_header "App 1234" = "App 1234"
  /\ authorization_header "1234" = "App 1234".
Proof.
  split.
  - apply (proj1 (proj2 (authorization_header_app "App 1234"))). reflexivity.
  - apply (proj1 (proj2 (proj2 (authorization_header_app "1234")))). reflexivity.
Defined.

(** A run that meets an exception after [k] continuing pages. *)
Lemma fetch_calls_raised (api : Api) (base_url date_filter : string)
    (k : nat) (st : FetchState) (extra : nat) :
  state_after api k (fetch_init base_url date_filter) = Some st ->
  raises (api k (current_request st)) = true ->
  option_map returned (fetch_calls (S k + extra) api base_url date_filter) = Some [].
Proof.
  intros Hs Hr.
  destruct (state_after_shape api _ _ _ Hs) as [mid [Hl [Hlen _]]].
  simpl in Hl. subst mid.
  unfold fetch_calls. replace (S k + extra) with (k + S extra) by lia.
  rewrite (fetch_loop_after api _ _ _ _ Hs). simpl. unfold fetch_iteration.
  rewrite Hlen.
  destruct (api k (current_request st)) as [|code [data|]]; simpl in Hr;
    try discriminate; [reflexivity|].
  rewrite Hr. reflexivity.
Qed.

Section HandlerFacts.
Context {F : Type} {ops : FloatOps F}.
Variable Date : Type.
Variable strptime : string -> option Date.
Variable strftime_day : Date -> string.
Variable add_days : Date -> Z -> option Date.
Variable chart_emoji : string.
Variable render_html : Analytics F -> string -> Exc string.
Variable post : EmailRequest -> Exc Z.

(** X15. With a complete configuration, a report day that does not
    parse, or a call to the Exotel API that raises (timeout, connection
    failure, unparsable body) after any number of pages, makes the
    handler answer 200 with the "no calls" body: the pages already
    fetched are not reported and no mail is sent. *)
Theorem lambda_handler_exception_no_calls
    (env : string -> option string) (event_date : option string) (yesterday : string)
    (api : Api) (db : Database) :
  missing_fields_of (handler_config env) = [] ->
  let day := handler_start event_date yesterday in
  let body := NoCalls (day ++ " to " ++ day)%string in
  (strptime day = None ->
   forall fuel,
     lambda_handler Date strptime strftime_day add_days chart_emoji render_html post
       env event_date yesterday fuel api db
     = Some (200%Z, body))
  /\ (forall date_filter k st extra,
        date_filter_of Date strptime strftime_day add_days day day = Return date_filter ->
        state_after api k
          (fetch_init (exotel_base_url (config_get (handler_config env) "exotel_account_sid"))
             date_filter) = Some st ->
        raises (api k (current_request st)) = true ->
        lambda_handler Date strptime strftime_day add_days chart_emoji render_html post
          env event_date yesterday (S k + extra) api db
        = Some (200%Z, body)).
Proof.
  intros Hm day body. split.
  - intros Hp fuel. unfold lambda_handler. rewrite Hm.
    fold day.
    unfold fetch_calls_dates, date_filter_of. rewrite Hp. reflexivity.
  - intros date_filter k st extra Hd Hs Hr. unfold lambda_handler. rewrite Hm.
    fold day.
    unfold fetch_calls_dates. rewrite Hd.
    rewrite (fetch_calls_raised _ _ _ _ _ extra Hs Hr). reflexivity.
Qed.

(** X16. The handler answers "report sent" only after a mail was
    accepted: the configuration was complete, [fetch_calls] returned
    records, [process_analytics] returned a dict, the template was
    rendered, and the POST of that mail came back with a 2xx status;
    the total it reports is that dict's [total_calls] and is at least
    1, and the recipient is the configured one. *)
Theorem lambda_handler_report_sent
    (env : string -> option string) (event_date : option string) (yesterday : string)
    (fuel : nat) (api : Api) (db : Database)
    (date_range : string) (total : Z) (sent_to : pyval) :
  lambda_handler Date strptime strftime_day add_days chart_emoji render_html post
    env event_date yesterday fuel api db
  = Some (200%Z, ReportSent date_range total sent_to) ->
  let config := handler_config env in
  let day := handler_start event_date yesterday in
  missing_fields_of config = []
  /\ sent_to = config_get config "recipient_email"
  /\ (1 <= total)%Z
  /\ exists calls exophone_filter analytics html status_code,
       fetch_calls_dates Date strptime strftime_day add_days fuel api
         (config_get config "exotel_account_sid") day day = Some calls
       /\ calls <> []
       /\ process_analytics db calls exophone_filter = Some analytics
       /\ total = total_calls analytics
       /\ render_html analytics day = Return html
       /\ post (email_request chart_emoji html day config) = Return status_code
       /\ (200 <= status_code < 300)%Z.
Proof.
  unfold lambda_handler. cbv zeta.
  destruct (missing_fields_of (handler_config env)) as [|m ms] eqn:Hm; [|discriminate].
  destruct (fetch_calls_dates Date strptime strftime_day add_days fuel api _ _ _)
    as [[|c cs]|] eqn:Hfetch; try discriminate.
  set (exo := match config_get (handler_config env) "exophone_number" with
              | PyStr s => Some s | _ => None end).
  destruct (process_analytics db (c :: cs) exo) as [a|] eqn:Hp; [|discriminate].
  destruct (send_email_via_infobip chart_emoji render_html post a _ _ _) eqn:Hsend;
    [|discriminate].
  intros H. injection H as _ Ht Hto. subst total sent_to.
  split; [reflexivity|]. split; [reflexivity|]. split.
  - pose proof (process_analytics_fields _ _ _ _ Hp) as Hfields. cbv zeta in Hfields.
    destruct Hfields as [Htot _]. rewrite Htot, categorize_rows. unfold frame_rows.
    assert (Hne : filter_exophone (c :: cs) exo <> []).
    { intros E.
      assert (Hn : process_analytics (F := F) db (c :: cs) exo = None)
        by (apply process_analytics_none; left; exact E).
      rewrite Hn in Hp. discriminate. }
    assert (1 <= List.length (filter_exophone (c :: cs) exo))%nat
      by (destruct (filter_exophone (c :: cs) exo); [contradiction | simpl; lia]).
    pose proof (merge_rows_length (filter_exophone (c :: cs) exo)
                  (map Sid (filter is_inbound (filter_exophone (c :: cs) exo)))).
    destruct (has_column Direction (c :: cs) && has_column From (c :: cs)); lia.
  - unfold send_email_via_infobip in Hsend.
    destruct (forallb truthy _); [|discriminate].
    destruct (render_html a (handler_start event_date yesterday)) as [html|] eqn:Hr;
      [|discriminate].
    simpl in Hsend.
    destruct (post (email_request chart_emoji html (handler_start event_date yesterday)
                      (handler_config env))) as [code|] eqn:Hpost; [|discriminate].
    simpl in Hsend. apply andb_true_iff in Hsend. destruct Hsend as [H1 H2].
    apply Z.leb_le in H1. apply Z.ltb_lt in H2.
    exists (c :: cs), exo, a, html, code.
    repeat split; try assumption; try reflexivity. discriminate.
Qed.

(** X17. With a complete configuration, a base url of the mail service
    that is not overridden by the empty string, and a mail path that
    renders and accepts every report, the handler sends the report
    whenever [fetch_calls] returned records of which some are left
    after the exophone filter and on which pandas does not raise,
    whatever the state of the tenant database. *)
Theorem lambda_handler_sends_despite_store
    (env : string -> option string) (event_date : option string) (yesterday : string)
    (fuel : nat) (api : Api) (db : Database) (calls : list CallRecord) :
  let config := handler_config env in
  let day := handler_start event_date yesterday in
  let exophone_filter :=
    match config_get config "exophone_number" with PyStr s => Some s | _ => None end in
  missing_fields_of config = [] ->
  env "INFOBIP_BASE_URL" <> Some "" ->
  (forall a, exists html status_code,
       render_html a day = Return html
       /\ post (email_request chart_emoji html day config) = Return status_code
       /\ (200 <= status_code < 300)%Z) ->
  fetch_calls_dates Date strptime strftime_day add_days fuel api
    (config_get config "exotel_account_sid") day day = Some calls ->
  filter_exophone calls exophone_filter <> [] ->
  frame_raises calls exophone_filter = false ->
  exists a,
    process_analytics db calls exophone_filter = Some a
    /\ lambda_handler Date strptime strftime_day add_days chart_emoji render_html post
         env event_date yesterday fuel api db
       = Some (200%Z,
               ReportSent (day ++ " to " ++ day)%string (total_calls a)
                 (config_get config "recipient_email")).
Proof.
  intros config day exo Hm Hurl Hmail Hfetch Hrows Hok.
  destruct (process_analytics_returns (F := F) db calls exo Hrows Hok) as [a Ha].
  exists a. split; [exact Ha|].
  unfold lambda_handler. cbv zeta.
  fold config. fold day.
  rewrite Hm, Hfetch.
  destruct calls as [|c cs].
  - exfalso. apply Hrows. destruct exo as [s|]; [|reflexivity].
    unfold filter_exophone. simpl. rewrite andb_false_r. reflexivity.
  - fold exo. rewrite Ha.
    assert (Hcfg : forallb truthy
                     [config_get config "infobip_api_key";
                      config_get config "infobip_base_url";
                      config_get config "infobip_from_email";
                      config_get config "recipient_email"] = true).
    { assert (Hreq : forall f, In f required_fields ->
                truthy (config_get config f) = true).
      { intros f Hf. destruct (truthy (config_get config f)) eqn:E; [reflexivity|].
        assert (Hin : In f (missing_fields_of config)).
        { unfold missing_fields_of. apply filter_In. split; [exact Hf|].
          rewrite E. reflexivity. }
        rewrite Hm in Hin. contradiction. }
      assert (Hb : truthy (config_get config "infobip_base_url") = true).
      { unfold config, config_get, handler_config, dict_get_default. simpl.
        unfold environ_get_default.
        destruct (env "INFOBIP_BASE_URL") as [v|]; [|reflexivity].
        destruct v; [exfalso; apply Hurl; reflexivity | reflexivity]. }
      simpl. rewrite Hb, !Hreq; simpl; auto 10. }
    unfold send_email_via_infobip. rewrite Hcfg.
    destruct (Hmail a) as [html [code [Hr [Hp [H1 H2]]]]].
    rewrite Hr. simpl. rewrite Hp. simpl.
    apply Z.leb_le in H1. apply Z.ltb_lt in H2. rewrite H1, H2. reflexivity.
Qed.

End HandlerFacts.

Lemma lambda_handler_exception_no_calls_witness :
  lambda_handler (ops := exact_ops) Z sample_strptime sample_strftime_day sample_add_days "*"
    sample_render sample_post sample_env (Some "2025-10-16") "2025-10-15" 2
    api_timeout sample_db
  = Some (200%Z, NoCalls "2025-10-16 to 2025-10-16").
Proof.
  pose proof (lambda_handler_exception_no_calls (ops := exact_ops) Z sample_strptime
                sample_strftime_day sample_add_days "*" sample_render sample_post sample_env
                (Some "2025-10-16") "2025-10-15" api_timeout sample_db eq_refl) as H.
  cbv zeta in H. destruct H as [_ H].
  eapply (H _ 1 _ 0); reflexivity.
Defined.

Lemma lambda_handler_report_sent_witness :
  missing_fields_of (handler_config sample_env) = []
  /\ PyStr "ops@example.com" = config_get (handler_config sample_env) "recipient_email"
  /\ (1 <= 9)%Z.
Proof.
  pose proof (lambda_handler_report_sent (ops := exact_ops) Z sample_strptime
                sample_strftime_day sample_add_days "*" sample_render sample_post sample_env
                (Some "2025-10-16") "2025-10-15" 5 api_short_pages sample_db
                "2025-10-16 to 2025-10-16" 9 (PyStr "ops@example.com") eq_refl) as H.
  cbv zeta in H. destruct H as [H1 [H2 [H3 _]]].
  split; [exact H1 | split; [exact H2 | exact H3]].
Defined.

Lemma lambda_handler_sends_despite_store_witness :
  exists a : Analytics Q,
    lambda_handler (ops := exact_ops) Z sample_strptime sample_strftime_day sample_add_days "*"
      sample_render sample_post sample_env (Some "2025-10-16") "2025-10-15" 5
      api_short_pages sample_db_down
    = Some (200%Z,
            ReportSent "2025-10-16 to 2025-10-16" (total_calls a)
              (PyStr "ops@example.com")).
Proof.
  destruct (lambda_handler_sends_despite_store (ops := exact_ops) Z sample_strptime
              sample_strftime_day sample_add_days "*" sample_render sample_post sample_env
              (Some "2025-10-16") "2025-10-15" 5 api_short_pages sample_db_down
              [sample_call "s" "9876543210" "inbound";
               sample_call "s" "9876543210" "inbound";
               sample_call "s" "9876543210" "inbound"])
    as [a [_ Ha]].
  - reflexivity.
  - discriminate.
  - intros a. exists ("<html>2025-10-16</html>"), 200%Z.
    repeat split; try reflexivity; lia.
  - reflexivity.
  - discriminate.
  - reflexivity.
  - exists a. exact Ha.
Defined.

(* ================================================================= *)
(** * Properties of the analytics routes *)

Section RouteFacts.
Context {F : Type} {ops : FloatOps F}.
Variable Date : Type.
Variable strptime : string -> option Date.
Variable strftime_day : Date -> string.
Variable add_days : Date -> Z -> option Date.

(** Records come back only for days that parse. *)
Lemma fetch_calls_dates_parsed (fuel : nat) (api : Api) (account_sid : pyval)
    (start_date end_date : string) (c : CallRecord) (cs : list CallRecord) :
  fetch_calls_dates Date strptime strftime_day add_days fuel api account_sid
    start_date end_date = Some (c :: cs) ->
  exists s e, strptime start_date = Some s /\ strptime end_date = Some e.
Proof.
  unfold fetch_calls_dates, date_filter_of.
  destruct (strptime start_date) as [s|]; [|discriminate].
  destruct (strptime end_date) as [e|]; [|discriminate].
  intros _. exists s, e. split; reflexivity.
Qed.

(** No request is made when a date does not parse or the day after the
    last day does not exist. *)
Lemma fetch_calls_dates_no_filter (fuel : nat) (api : Api) (account_sid : pyval)
    (start_date end_date : string) :
  strptime start_date = None \/ strptime end_date = None
  \/ (exists e, strptime end_date = Some e /\ add_days e 1 = None) ->
  fetch_calls_dates Date strptime strftime_day add_days fuel api account_sid
    start_date end_date = Some [].
Proof.
  unfold fetch_calls_dates, date_filter_of. intros [H|[H|[e [H1 H2]]]].
  - rewrite H. reflexivity.
  - rewrite H. destruct (strptime start_date); reflexivity.
  - rewrite H1, H2. destruct (strptime start_date); reflexivity.
Qed.

Lemma fetch_calls_dates_unparsed (fuel : nat) (api : Api) (account_sid : pyval)
    (start_date end_date : string) :
  strptime start_date = None \/ strptime end_date = None ->
  fetch_calls_dates Date strptime strftime_day add_days fuel api account_sid
    start_date end_date = Some [].
Proof.
  unfold fetch_calls_dates, date_filter_of. intros [H|H].
  - rewrite H. reflexivity.
  - rewrite H. destruct (strptime start_date); reflexivity.
Qed.



End RouteFacts.



(* ================================================================= *)
(** * Properties of the configuration route *)

Lemma string_eqb_eq (a b : string) : String.eqb a b = true <-> a = b.
Proof. apply String.eqb_eq. Qed.

Lemma safe_config_get (config : list (string * pyval)) (k : string) :
  dict_get String.eqb (safe_config config) k
  = if sensitive_key k then None else dict_get String.eqb config k.
Proof.
  unfold safe_config, sensitive_key.
  induction config as [|[a v] r IH]; simpl.
  - destruct (str_contains "password" k || str_contains "token" k); reflexivity.
  - destruct (String.eqb a k) eqn:E.
    + apply String.eqb_eq in E. subst a.
      destruct (str_contains "password" k), (str_contains "token" k); simpl;
        try rewrite String.eqb_refl; try reflexivity; exact IH.
    + destruct (negb (str_contains "password" a) && negb (str_contains "token" a));
        simpl; [rewrite E|]; exact IH.
Qed.

Lemma config_update_get (config data : list (string * pyval)) (k : string) :
  dict_get String.eqb (config_update config data) k
  = match find (fun kv => String.eqb (fst kv) k) (rev data) with
    | Some kv => Some (snd kv)
    | None => dict_get String.eqb config k
    end.
Proof.
  unfold config_update.
  apply (dict_get_fold_set String.eqb string_eqb_eq
           (fun kv : string * pyval => fst kv) (fun kv => snd kv)).
Qed.

Lemma config_update_keeps (config data : list (string * pyval)) (k : string) :
  dict_get String.eqb config k <> None ->
  dict_get String.eqb (config_update config data) k <> None.
Proof.
  intros H. rewrite config_update_get.
  destruct (find _ _); [discriminate | exact H].
Qed.

(** X20. What GET [/api/config] shows after a POST: a key that
    contains "password" or "token" is never shown; any other key shows
    the value the POST gave it last, or, when the POST did not mention
    it, the value it had before. *)
Theorem config_post_then_get (config data : list (string * pyval)) (k : string) :
  (sensitive_key k = true ->
   dict_get String.eqb (safe_config (config_update config data)) k = None)
  /\ (sensitive_key k = false ->
      dict_get String.eqb (safe_config (config_update config data)) k
      = match find (fun kv => String.eqb (fst kv) k) (rev data) with
        | Some kv => Some (snd kv)
        | None => dict_get String.eqb config k
        end).
Proof.
  rewrite safe_config_get, config_update_get.
  split; intros H; rewrite H; reflexivity.
Qed.

Lemma config_post_then_get_witness :
  dict_get String.eqb
    (safe_config (config_update (app_config sample_env)
                    [("sender_password", PyStr "hunter2")]))
    "sender_password" = None.
Proof.
  apply (proj1 (config_post_then_get (app_config sample_env)
                  [("sender_password", PyStr "hunter2")] "sender_password")).
  reflexivity.
Defined.

(** X21. Whatever is POSTed to [/api/config], any number of times, GET
    keeps showing an entry for [exotel_api_key] and for
    [infobip_api_key] (their names contain neither "password" nor
    "token" and a POST cannot remove a key), and never shows
    [exotel_api_token] or [sender_password]. *)
Theorem config_get_exposes_api_keys (env : string -> option string)
    (posts : list (list (string * pyval))) :
  let shown := safe_config (config_after (app_config env) posts) in
  dict_get String.eqb shown "exotel_api_key" <> None
  /\ dict_get String.eqb shown "infobip_api_key" <> None
  /\ dict_get String.eqb shown "exotel_api_token" = None
  /\ dict_get String.eqb shown "sender_password" = None.
Proof.
  cbv zeta.
  assert (Hkeep : forall k c,
             dict_get String.eqb c k <> None ->
             dict_get String.eqb (config_after c posts) k <> None).
  { intros k. unfold config_after. induction posts as [|d r IH]; intros c H; simpl.
    - exact H.
    - apply IH, config_update_keeps, H. }
  rewrite !safe_config_get. simpl.
  repeat split; apply Hkeep; discriminate.
Qed.

(* ================================================================= *)
(** * Properties of the caller tally of validate_incoming_calls.py *)

Lemma dict_get_key_listed {V : Type} (d : list (pyval * V)) (k : pyval) :
  In k (map fst d) <-> dict_get pyval_eqb d k <> None.
Proof.
  induction d as [|[a v] r IH]; simpl.
  - split; [intros [] | intros H; apply H; reflexivity].
  - destruct (pyval_eqb a k) eqn:E.
    + apply pyval_eqb_eq in E. split; [discriminate | intros _; left; exact E].
    + apply pyval_eqb_neq in E. rewrite <- IH. split.
      * intros [H|H]; [contradiction | exact H].
      * intros H. right. exact H.
Qed.

(** The keys of the dict [batch_lookup] returns. *)
Lemma batch_lookup_keys (db : Database) (phones : list pyval) :
  NoDup (map fst (batch_lookup db phones))
  /\ forall p, In p (map fst (batch_lookup db phones)) -> In p phones.
Proof.
  destruct (Fault_eqb (fault db) NoFault) eqn:Ef.
  - assert (Hf : fault db = NoFault) by (destruct (fault db); try discriminate; reflexivity).
    rewrite (batch_lookup_healthy _ _ Hf).
    set (live := live_results_of _ _). set (hist := historical_results_of _ _).
    rewrite (fold_left_ext _
               (fun d e => dict_set pyval_eqb d (snd e) (classification live hist (fst e))))
      by (intros; apply classify_entry_set).
    split.
    + apply (fold_set_NoDup pyval_eqb pyval_eqb_eq). constructor.
    + intros p Hin. apply in_map_iff in Hin. destruct Hin as [[q res] [Eq Hin]].
      simpl in Eq. subst q.
      apply (fold_set_In pyval_eqb pyval_eqb_eq) in Hin.
      destruct Hin as [[]|[e [He Eq]]]. injection Eq as Ep _. subst p.
      apply (normalized_phones_entries _ _ He).
  - assert (Hf : fault db <> NoFault) by (intros C; rewrite C in Ef; discriminate).
    rewrite (batch_lookup_faulty _ _ Hf). split; [constructor | intros p []].
Qed.

Lemma list_sum_incl {A : Type} (f : A -> nat) (l l' : list A) :
  NoDup l -> incl l l' -> list_sum (map f l) <= list_sum (map f l').
Proof.
  revert l'. induction l as [|a r IH]; intros l' N Hincl; simpl; [lia|].
  inversion N as [|? ? Ha Hr]; subst.
  destruct (in_split a l' (Hincl a (or_introl eq_refl))) as [l1 [l2 E]]. subst l'.
  assert (Hsub : incl r (l1 ++ l2)).
  { intros x Hx. specialize (Hincl x (or_intror Hx)).
    apply in_app_or in Hincl. apply in_or_app.
    destruct Hincl as [H|[H|H]]; [left; exact H | subst x; contradiction | right; exact H]. }
  specialize (IH _ Hr Hsub).
  rewrite map_app, list_sum_app in *. simpl. lia.
Qed.

Section ScriptFacts.
Context {S : Type} (call_summary : CallRecord -> S).

Lemma tally_call_get (t : list (pyval * (nat * list S))) (call : CallRecord) (p : pyval) :
  dict_get pyval_eqb (tally_call call_summary t call) p
  = if tally_hit p call
    then match dict_get pyval_eqb t p with
         | Some (c, l) => Some (c + 1, l ++ [call_summary call])
         | None => Some (1, [call_summary call])
         end
    else dict_get pyval_eqb t p.
Proof.
  unfold tally_call, tally_hit.
  destruct (truthy (from_or_empty call)); simpl; [|reflexivity].
  set (phone := from_or_empty call).
  destruct (pyval_eqb phone p) eqn:E.
  - apply pyval_eqb_eq in E. subst p.
    destruct (dict_get pyval_eqb t phone) as [[c l]|] eqn:Eg.
    + rewrite Eg. apply (dict_get_set_same pyval_eqb pyval_eqb_eq).
    + rewrite (dict_get_set_same pyval_eqb pyval_eqb_eq).
      rewrite (dict_get_set_same pyval_eqb pyval_eqb_eq). reflexivity.
  - apply pyval_eqb_neq in E.
    destruct (dict_get pyval_eqb t phone) as [[c l]|] eqn:Eg.
    + rewrite Eg. apply (dict_get_set_other pyval_eqb pyval_eqb_eq). exact E.
    + rewrite (dict_get_set_same pyval_eqb pyval_eqb_eq).
      rewrite (dict_get_set_other pyval_eqb pyval_eqb_eq) by exact E.
      apply (dict_get_set_other pyval_eqb pyval_eqb_eq). exact E.
Qed.

Lemma tally_fold_get (calls : list CallRecord) (t0 : list (pyval * (nat * list S)))
    (p : pyval) :
  dict_get pyval_eqb (fold_left (tally_call call_summary) calls t0) p
  = match filter (tally_hit p) calls with
    | [] => dict_get pyval_eqb t0 p
    | hits =>
        match dict_get pyval_eqb t0 p with
        | Some (c, l) => Some (c + List.length hits, l ++ map call_summary hits)
        | None => Some (List.length hits, map call_summary hits)
        end
    end.
Proof.
  revert t0. induction calls as [|call r IH]; intros t0; [reflexivity|].
  cbn [fold_left filter]. rewrite IH, tally_call_get.
  destruct (tally_hit p call).
  - destruct (filter (tally_hit p) r) as [|h hs];
      destruct (dict_get pyval_eqb t0 p) as [[c l]|]; cbn [List.length map];
      try reflexivity.
    f_equal. f_equal; [lia | rewrite <- app_assoc; reflexivity].
  - reflexivity.
Qed.

Lemma tally_call_NoDup (t : list (pyval * (nat * list S))) (call : CallRecord) :
  NoDup (map fst t) -> NoDup (map fst (tally_call call_summary t call)).
Proof.
  intros N. unfold tally_call.
  destruct (truthy (from_or_empty call)); [|exact N].
  set (t1 := match dict_get pyval_eqb t (from_or_empty call) with
             | Some _ => t
             | None => dict_set pyval_eqb t (from_or_empty call) (0, [])
             end).
  assert (N1 : NoDup (map fst t1)).
  { unfold t1. destruct (dict_get pyval_eqb t (from_or_empty call));
      [exact N | apply (dict_set_NoDup pyval_eqb pyval_eqb_eq), N]. }
  destruct (dict_get pyval_eqb t1 (from_or_empty call)) as [[c l]|];
    [apply (dict_set_NoDup pyval_eqb pyval_eqb_eq), N1 | exact N1].
Qed.

Lemma tally_calls_NoDup (calls : list CallRecord) :
  NoDup (map fst (tally_calls call_summary calls)).
Proof.
  unfold tally_calls.
  assert (H : forall t0, NoDup (map fst t0) ->
                         NoDup (map fst (fold_left (tally_call call_summary) calls t0))).
  { induction calls as [|c r IH]; intros t0 N; [exact N|].
    simpl. apply IH, tally_call_NoDup, N. }
  apply H. constructor.
Qed.

Lemma tally_total_set (t : list (pyval * (nat * list S))) (k : pyval)
    (v : nat * list S) :
  tally_total (dict_set pyval_eqb t k v) + entry_count t k = tally_total t + fst v.
Proof.
  unfold tally_total, entry_count.
  induction t as [|[a w] r IH]; simpl; [lia|].
  destruct (pyval_eqb a k) eqn:E; simpl.
  - destruct w as [c l]. simpl. lia.
  - lia.
Qed.

Lemma tally_call_total (t : list (pyval * (nat * list S))) (call : CallRecord) :
  tally_total (tally_call call_summary t call)
  = tally_total t + (if has_caller call then 1 else 0).
Proof.
  unfold tally_call, has_caller.
  destruct (truthy (from_or_empty call)); [|lia].
  set (phone := from_or_empty call).
  destruct (dict_get pyval_eqb t phone) as [[c l]|] eqn:Eg.
  - rewrite Eg.
    pose proof (tally_total_set t phone (c + 1, l ++ [call_summary call])) as H.
    unfold entry_count in H. rewrite Eg in H. simpl in H. lia.
  - rewrite (dict_get_set_same pyval_eqb pyval_eqb_eq).
    pose proof (tally_total_set t phone (0, [])) as H1.
    pose proof (tally_total_set (dict_set pyval_eqb t phone (0, [])) phone
                  (0 + 1, [] ++ [call_summary call])) as H2.
    unfold entry_count in H1, H2. rewrite Eg in H1.
    rewrite (dict_get_set_same pyval_eqb pyval_eqb_eq) in H2. simpl in H1, H2.
    simpl. lia.
Qed.

Lemma tally_calls_total (calls : list CallRecord) :
  tally_total (tally_calls call_summary calls) = List.length (filter has_caller calls).
Proof.
  unfold tally_calls.
  assert (H : forall t0,
             tally_total (fold_left (tally_call call_summary) calls t0)
             = tally_total t0 + List.length (filter has_caller calls)).
  { induction calls as [|c r IH]; intros t0; simpl; [lia|].
    rewrite IH, tally_call_total. destruct (has_caller c); simpl; lia. }
  rewrite H. reflexivity.
Qed.

Lemma entry_count_keys (t : list (pyval * (nat * list S))) :
  NoDup (map fst t) ->
  list_sum (map (entry_count t) (map fst t)) = tally_total t.
Proof.
  unfold tally_total. induction t as [|[a [c l]] r IH]; intros N; [reflexivity|].
  inversion N as [|? ? Ha Hr]; subst. simpl.
  unfold entry_count at 1. simpl. rewrite pyval_eqb_refl. f_equal.
  rewrite <- (IH Hr). f_equal. apply map_ext_in. intros k Hk.
  unfold entry_count. simpl.
  destruct (pyval_eqb a k) eqn:E; [|reflexivity].
  apply pyval_eqb_eq in E. subst k. contradiction.
Qed.

(** X22. The tally of callers: its keys are pairwise distinct; a phone
    has an entry exactly when some call carries it as a non-empty From
    value, and the entry holds the number of these calls and their
    summaries in call order; the counts add up to the number of calls
    with a non-empty From value. *)
Theorem tally_calls_counts (calls : list CallRecord) :
  NoDup (map fst (tally_calls call_summary calls))
  /\ (forall p,
        dict_get pyval_eqb (tally_calls call_summary calls) p
        = match filter (tally_hit p) calls with
          | [] => None
          | hits => Some (List.length hits, map call_summary hits)
          end)
  /\ tally_total (tally_calls call_summary calls)
     = List.length (filter has_caller calls).
Proof.
  split; [apply tally_calls_NoDup|]. split; [|apply tally_calls_total].
  intros p. unfold tally_calls. rewrite tally_fold_get. reflexivity.
Qed.

Lemma script_totals_sum (t : list (pyval * (nat * list S)))
    (results : list (pyval * LookupResult)) :
  (forall p, In p (map fst results) -> In p (map fst t)) ->
  exists s e,
    script_totals t results = Return (s, e)
    /\ s + e = list_sum (map (entry_count t) (map fst results)).
Proof.
  intros Hkeys. unfold script_totals.
  assert (H : forall s0 e0,
             exists s e,
               fold_left (add_counts t) results (Return (s0, e0)) = Return (s, e)
               /\ s + e = s0 + e0 + list_sum (map (entry_count t) (map fst results))).
  { induction results as [|[p res] r IH]; intros s0 e0.
    - exists s0, e0. simpl. split; [reflexivity | lia].
    - cbn [fold_left]. unfold add_counts at 2. cbn [exc_bind fst snd].
      assert (Hp : In p (map fst t)) by (apply Hkeys; left; reflexivity).
      apply dict_get_key_listed in Hp. unfold tally_count.
      destruct (dict_get pyval_eqb t p) as [[c l]|] eqn:Eg; [|contradiction].
      cbn [exc_bind].
      assert (Hr : forall q, In q (map fst r) -> In q (map fst t))
        by (intros q Hq; apply Hkeys; right; exact Hq).
      destruct (is_service_result res).
      + destruct (IH Hr (s0 + c) e0) as [s [e [E1 E2]]].
        exists s, e. split; [exact E1|]. cbn [map list_sum fst].
        unfold entry_count at 1. rewrite Eg. simpl list_sum. lia.
      + destruct (IH Hr s0 (e0 + c)) as [s [e [E1 E2]]].
        exists s, e. split; [exact E1|]. cbn [map list_sum fst].
        unfold entry_count at 1. rewrite Eg. simpl list_sum. lia. }
  destruct (H 0 0) as [s [e [E1 E2]]]. exists s, e. split; [exact E1 | lia].
Qed.

(** X23. The totals of the script never fail.  Service and enquiry
    calls together are at most the number of calls with a non-empty
    From value; they are both 0 when the pool or a statement fails; and
    they add up to that number when the database works and every
    tallied phone is retained by [batch_lookup], that is, when no two
    tallied raw strings normalise to one key. *)
Theorem script_totals_cover (db : Database) (calls : list CallRecord) :
  let phone_numbers := tally_calls call_summary calls in
  let lookup_results := batch_lookup db (map fst phone_numbers) in
  exists service_calls enquiry_calls,
    script_totals phone_numbers lookup_results = Return (service_calls, enquiry_calls)
    /\ service_calls + enquiry_calls <= List.length (filter has_caller calls)
    /\ (fault db <> NoFault -> service_calls = 0 /\ enquiry_calls = 0)
    /\ (fault db = NoFault ->
        (forall p, In p (map fst phone_numbers) ->
                   retained (map fst phone_numbers) p = true) ->
        service_calls + enquiry_calls = List.length (filter has_caller calls)).
Proof.
  intros t results.
  destruct (batch_lookup_keys db (map fst t)) as [Nres Hkeys].
  fold results in Nres, Hkeys.
  destruct (script_totals_sum t results Hkeys) as [s [e [E1 E2]]].
  pose proof (tally_calls_NoDup calls) as Nt. fold t in Nt.
  pose proof (entry_count_keys t Nt) as Hsum.
  pose proof (tally_calls_total calls) as Htot. fold t in Htot.
  exists s, e. split; [exact E1|]. split; [|split].
  - pose proof (list_sum_incl (entry_count t) _ _ Nres Hkeys). lia.
  - intros Hf. unfold results in E1. rewrite (batch_lookup_faulty _ _ Hf) in E1.
    unfold script_totals in E1. simpl in E1. injection E1 as Hs He. auto.
  - intros Hf Hret.
    assert (Hincl : incl (map fst t) (map fst results)).
    { intros p Hp. apply dict_get_key_listed. unfold results.
      rewrite (batch_lookup_get _ _ _ Hf), (Hret p Hp). discriminate. }
    pose proof (list_sum_incl (entry_count t) _ _ Nt Hincl).
    pose proof (list_sum_incl (entry_count t) _ _ Nres Hkeys). lia.
Qed.

Lemma select_phones_raised (cond : LookupResult -> bool)
    (results : list (pyval * LookupResult)) (entries : list (pyval * (nat * list S))) :
  (select_phones cond results entries = Raised
   <-> exists p, In p (map fst entries) /\ dict_get pyval_eqb results p = None).
Proof.
  induction entries as [|[p v] r IH]; simpl.
  - split; [discriminate | intros [p [[] _]]].
  - destruct (dict_get pyval_eqb results p) as [res|] eqn:Eg.
    + destruct (select_phones cond results r) as [sel|] eqn:Es; simpl.
      * split; [discriminate|]. intros [q [[Hq|Hq] Hn]].
        -- subst q. rewrite Eg in Hn. discriminate.
        -- assert (C : Raised = @Raised (list pyval))
             by reflexivity.
           destruct IH as [_ IH]. specialize (IH (ex_intro _ q (conj Hq Hn))).
           discriminate.
      * split; [|reflexivity]. intros _.
        destruct IH as [IH _]. destruct (IH eq_refl) as [q [Hq Hn]].
        exists q. split; [right; exact Hq | exact Hn].
    + split; [|reflexivity]. intros _. exists p. split; [left; reflexivity | exact Eg].
Qed.

(** X24. The report of the script stops with an exception exactly
    when there is no incoming call at all (the percentages divide by
    their number) or some tallied phone has no entry in the dict
    [batch_lookup] returned; so it stops whenever the database fails
    and some call carries a non-empty From value. *)
Theorem script_report_raises (db : Database) (calls : list CallRecord) :
  let phone_numbers := tally_calls call_summary calls in
  let lookup_results := batch_lookup db (map fst phone_numbers) in
  (script_report call_summary db calls = Raised
   <-> calls = []
       \/ exists p, In p (map fst phone_numbers)
                    /\ dict_get pyval_eqb lookup_results p = None)
  /\ (fault db <> NoFault -> filter has_caller calls <> [] ->
      script_report call_summary db calls = Raised).
Proof.
  intros t results.
  assert (Hmain : script_report call_summary db calls = Raised
                  <-> calls = []
                      \/ exists p, In p (map fst t)
                                   /\ dict_get pyval_eqb results p = None).
  { unfold script_report. fold t. fold results.
    destruct (batch_lookup_keys db (map fst t)) as [_ Hkeys]. fold results in Hkeys.
    destruct (script_totals_sum t results Hkeys) as [s [e [E1 _]]].
    rewrite E1. cbn [exc_bind].
    destruct calls as [|c cs].
    - simpl. split; [intros _; left; reflexivity | reflexivity].
    - cbn [List.length Nat.eqb].
      pose proof (select_phones_raised is_service_result results t) as Hs.
      pose proof (select_phones_raised is_enquiry_result results t) as He.
      destruct (select_phones is_service_result results t) as [sp|]; cbn [exc_bind].
      + destruct (select_phones is_enquiry_result results t) as [ep|]; cbn [exc_bind].
        * split; [discriminate|]. intros [C|C]; [discriminate|].
          destruct Hs as [_ Hs]. specialize (Hs C). discriminate.
        * split; [|reflexivity]. intros _. right. apply He. reflexivity.
      + split; [|reflexivity]. intros _. right. apply Hs. reflexivity. }
  split; [exact Hmain|].
  intros Hf Hne. apply Hmain. right.
  pose proof (tally_calls_total calls) as Htot. fold t in Htot.
  destruct t as [|[p v] r] eqn:Et.
  - unfold tally_total in Htot. simpl in Htot.
    destruct (filter has_caller calls); [contradiction | discriminate].
  - exists p. split; [left; reflexivity|].
    unfold results. rewrite (batch_lookup_faulty _ _ Hf). reflexivity.
Qed.

End ScriptFacts.


Lemma script_totals_cover_witness :
  exists service_calls enquiry_calls,
    script_totals (tally_calls Sid (sample_calls ++ sample_calls))
      (batch_lookup sample_db_down
         (map fst (tally_calls Sid (sample_calls ++ sample_calls))))
    = Return (service_calls, enquiry_calls)
    /\ service_calls = 0 /\ enquiry_calls = 0.
Proof.
  destruct (script_totals_cover Sid sample_db_down (sample_calls ++ sample_calls))
    as [s [e [H1 [_ [H3 _]]]]].
  exists s, e. split; [exact H1|]. apply H3. discriminate.
Defined.

Lemma script_report_raises_witness :
  script_report Sid sample_db_down sample_calls = Raised.
Proof.
  apply (script_report_raises Sid sample_db_down sample_calls);
    [discriminate | vm_compute; discriminate].
Defined.


(* ================================================================= *)
(** * Properties of the validation scripts *)

(** X25. The normalisation [test_phone_formats] prints for a non-empty
    From value is the key [normalize_phone] computes exactly when the
    digits are at most twelve and are not eleven digits with a leading
    zero; in the other cases the script shows a string the lookup does
    not use. *)
Theorem shown_normalized_agrees (from_number : string) :
  from_number <> "" ->
  let digits := str_filter isdigit from_number in
  normalize_phone (PyStr from_number) = PyStr (shown_normalized from_number)
  <-> (startswith digits "0" && (String.length digits =? 11) = false
       /\ String.length digits <= 12).
Proof.
  intros Hne digits.
  rewrite normalize_phone_truthy by (apply truthy_PyStr; exact Hne).
  cbn [py_str]. fold digits. unfold shown_normalized, normalize_digits. fold digits.
  destruct (startswith digits "0" && (String.length digits =? 11)) eqn:E0.
  - apply andb_true_iff in E0. destruct E0 as [_ E0]. apply Nat.eqb_eq in E0.
    rewrite str_drop_length, E0. cbn [Nat.sub Nat.eqb].
    split; [|intros [C _]; discriminate].
    intros H. exfalso. clearbody digits. injection H as H.
    apply (f_equal String.length) in H. rewrite E0 in H.
    destruct digits as [|c r]; cbn [String.length] in H, E0; lia.
  - destruct (String.length digits =? 10) eqn:E10.
    + apply Nat.eqb_eq in E10. split; [intros _; split; [reflexivity | lia] | reflexivity].
    + destruct ((String.length digits =? 12) && startswith digits COUNTRY_CODE) eqn:E12.
      * apply andb_true_iff in E12. destruct E12 as [E12 _]. apply Nat.eqb_eq in E12.
        split; [intros _; split; [reflexivity | lia] | reflexivity].
      * destruct (12 <? String.length digits) eqn:Egt.
        -- apply Nat.ltb_lt in Egt. split; [|intros [_ C]; lia].
           intros H. injection H as H. apply (f_equal String.length) in H.
           rewrite str_suffix_length in H by lia. lia.
        -- apply Nat.ltb_ge in Egt.
           split; [intros _; split; [reflexivity | exact Egt] | reflexivity].
Qed.

Lemma shown_normalized_agrees_witness :
  normalize_phone (PyStr "+91 98765-43210") = PyStr (shown_normalized "+91 98765-43210").
Proof.
  apply (shown_normalized_agrees "+91 98765-43210"); [discriminate|].
  split; [reflexivity | vm_compute; lia].
Defined.

Section DateRangeFacts.
Variables (strptime : string -> option Z) (strftime_day : Z -> string)
  (now : nat -> Z).

Lemma days_back_same_day (today : Z) (idx : list Z) (k : nat) :
  (forall j, now j = today) ->
  (forall i, In i idx -> (i <= 999999999 /\ 1 <= today - i)%Z) ->
  days_back strftime_day now k idx
  = Return (map (fun i => strftime_day (today - i)%Z) idx).
Proof.
  intros Hnow. revert k. induction idx as [|i rest IH]; intros k Hidx; [reflexivity|].
  cbn [days_back map]. unfold days_ago. rewrite Hnow.
  destruct (Hidx i (or_introl eq_refl)) as [H1 H2].
  replace (999999999 <? i)%Z with false by (symmetry; apply Z.ltb_ge; lia).
  replace (today - i <? 1)%Z with false by (symmetry; apply Z.ltb_ge; lia).
  cbn [orb exc_bind].
  rewrite IH by (intros j Hj; apply Hidx; right; exact Hj). reflexivity.
Qed.

Lemma py_range_down_positive (n : Z) :
  (0 < n)%Z ->
  py_range_down (n - 1)
  = (n - 1)%Z :: map (fun i => (n - 1 - Z.of_nat i)%Z) (seq 1 (Z.to_nat n - 1)).
Proof.
  intros Hn. unfold py_range_down.
  replace (n - 1 + 1)%Z with n by lia.
  destruct (Z.to_nat n) as [|m] eqn:E; [lia|].
  replace (S m - 1) with m by lia. cbn [seq map]. f_equal. lia.
Qed.

Lemma py_range_down_In (n i : Z) :
  In i (py_range_down (n - 1)) -> (0 <= i <= n - 1)%Z.
Proof.
  unfold py_range_down. intros H. apply in_map_iff in H.
  destruct H as [j [Hj Hin]]. apply in_seq in Hin. lia.
Qed.

(** X26. [--last-days n] with [n] other than 0 decides the dates
    whatever the date options say.  While the clock stays on one day: a
    negative [n] gives the empty list; [n] between 1 and the ordinal of
    today gives the [n] consecutive days that end today, oldest first;
    a larger [n] ends in an uncaught [OverflowError]. *)
Theorem generate_date_range_last_days (args : Namespace) (n today : Z) :
  last_days args = Some n ->
  n <> 0%Z ->
  (forall k, now k = today) ->
  (1 <= today <= 3652059)%Z ->
  let dates := generate_date_range strptime strftime_day now args in
  ((n < 0)%Z -> dates = Done [])
  /\ ((0 < n <= today)%Z ->
      dates = Done (map (fun i => strftime_day (today - (n - 1) + Z.of_nat i)%Z)
                      (seq 0 (Z.to_nat n))))
  /\ ((today < n)%Z -> dates = Uncaught).
Proof.
  intros Hl Hn Hnow Htoday dates. unfold dates, generate_date_range.
  rewrite Hl. replace (n =? 0)%Z with false by (symmetry; apply Z.eqb_neq; exact Hn).
  split; [|split].
  - intros Hneg. unfold py_range_down.
    replace (Z.to_nat (n - 1 + 1)) with 0 by lia. reflexivity.
  - intros [Hpos Hle].
    rewrite (days_back_same_day today).
    + cbn [outcome_of]. f_equal. unfold py_range_down.
      replace (n - 1 + 1)%Z with n by lia. rewrite map_map.
      apply map_ext. intros i. f_equal. lia.
    + exact Hnow.
    + intros i Hi. apply py_range_down_In in Hi. lia.
  - intros Hgt. rewrite py_range_down_positive by lia.
    cbn [days_back]. unfold days_ago. rewrite Hnow.
    replace (today - (n - 1) <? 1)%Z with true by (symmetry; apply Z.ltb_lt; lia).
    rewrite orb_true_r. reflexivity.
Qed.

Lemma py_range_nth (stop : Z) (i : nat) :
  i < List.length (py_range stop) -> nth_error (py_range stop) i = Some (Z.of_nat i).
Proof.
  unfold py_range. rewrite length_map, length_seq. intros Hi.
  rewrite nth_error_map, nth_error_seq.
  destruct (Nat.ltb_spec i (Z.to_nat stop)); [reflexivity | lia].
Qed.

(** X27. With [--last-days] absent or 0 and both date options given,
    [generate_date_range] never ends in an exception: it returns dates
    exactly when both options parse and the start is not after the
    end, and then one date per day from the start to the end, both
    included, in order; in every other case it exits with status 1. *)
Theorem generate_date_range_between (args : Namespace) :
  last_days args = None \/ last_days args = Some 0%Z ->
  field_missing (start_date args) = false ->
  field_missing (end_date args) = false ->
  match generate_date_range strptime strftime_day now args with
  | Done dates =>
      exists start end_,
        strptime (field_text (start_date args)) = Some start
        /\ strptime (field_text (end_date args)) = Some end_
        /\ (start <= end_)%Z
        /\ List.length dates = Z.to_nat (end_ - start + 1)
        /\ forall i, i < List.length dates ->
                     nth_error dates i = Some (strftime_day (start + Z.of_nat i)%Z)
  | Exit1 =>
      strptime (field_text (start_date args)) = None
      \/ strptime (field_text (end_date args)) = None
      \/ exists start end_,
           strptime (field_text (start_date args)) = Some start
           /\ strptime (field_text (end_date args)) = Some end_
           /\ (end_ < start)%Z
  | Uncaught => False
  end.
Proof.
  intros Hl Hs He.
  assert (E : generate_date_range strptime strftime_day now args
              = date_options strptime strftime_day now args).
  { unfold generate_date_range. destruct Hl as [Hl|Hl]; rewrite Hl; reflexivity. }
  rewrite E. unfold date_options. rewrite Hs, He. cbn [negb andb].
  destruct (strptime (field_text (start_date args))) as [start|]; [|left; reflexivity].
  destruct (strptime (field_text (end_date args))) as [end_|];
    [|right; left; reflexivity].
  destruct (end_ <? start)%Z eqn:Elt.
  - apply Z.ltb_lt in Elt. right. right. exists start, end_. auto.
  - apply Z.ltb_ge in Elt. exists start, end_.
    split; [reflexivity|]. split; [reflexivity|]. split; [exact Elt|].
    rewrite length_map. split.
    + unfold py_range. rewrite length_map, length_seq. reflexivity.
    + intros i Hi. rewrite nth_error_map, py_range_nth by exact Hi. reflexivity.
Qed.

(** X28. With [--last-days] absent or 0: when the start date is
    missing the result is that of [--last-days 7] alone, so an
    [--end-date] given on its own is ignored and [--last-days 0] means
    seven days; when only the start date is given, the result is that
    one argument as it was typed if it parses, and exit status 1
    otherwise. *)
Theorem generate_date_range_fallbacks (args : Namespace) :
  last_days args = None \/ last_days args = Some 0%Z ->
  (field_missing (start_date args) = true ->
   generate_date_range strptime strftime_day now args
   = generate_date_range strptime strftime_day now
       {| start_date := None; end_date := None; last_days := Some 7%Z |})
  /\ (field_missing (start_date args) = false ->
      field_missing (end_date args) = true ->
      generate_date_range strptime strftime_day now args
      = match strptime (field_text (start_date args)) with
        | Some _ => Done [field_text (start_date args)]
        | None => Exit1
        end).
Proof.
  intros Hl.
  assert (E : generate_date_range strptime strftime_day now args
              = date_options strptime strftime_day now args).
  { unfold generate_date_range. destruct Hl as [Hl|Hl]; rewrite Hl; reflexivity. }
  rewrite E. unfold date_options. split.
  - intros Hs. rewrite Hs. reflexivity.
  - intros Hs He. rewrite Hs, He. reflexivity.
Qed.

End DateRangeFacts.

Lemma generate_date_range_last_days_witness :
  generate_date_range sample_strptime sample_strftime_day sample_now (sample_args_last 2)
  = Done ["2025-10-16"; "2025-10-17"].
Proof.
  apply (generate_date_range_last_days sample_strptime sample_strftime_day sample_now
           (sample_args_last 2) 2%Z 8%Z eq_refl);
    [discriminate | reflexivity | lia | lia].
Defined.

Lemma generate_date_range_between_witness :
  exists dates,
    generate_date_range sample_strptime sample_strftime_day sample_now
      sample_args_between = Done dates
    /\ List.length dates = 8
    /\ nth_error dates 7 = Some "2025-10-16".
Proof.
  pose proof (generate_date_range_between sample_strptime sample_strftime_day sample_now
                sample_args_between (or_introl eq_refl) eq_refl eq_refl) as H.
  destruct (generate_date_range sample_strptime sample_strftime_day sample_now
              sample_args_between) as [dates| |] eqn:E;
    [|vm_compute in E; discriminate|contradiction].
  exists dates. split; [reflexivity|].
  destruct H as [start [end_ [Hs [He [_ [Hlen Hnth]]]]]].
  vm_compute in Hs, He. injection Hs as <-. injection He as <-.
  split; [exact Hlen|]. rewrite Hnth by (rewrite Hlen; vm_compute; lia). reflexivity.
Defined.

Lemma generate_date_range_fallbacks_witness :
  generate_date_range sample_strptime sample_strftime_day sample_now
    {| start_date := None; end_date := Some "2025-10-16"; last_days := Some 0%Z |}
  = generate_date_range sample_strptime sample_strftime_day sample_now
      {| start_date := None; end_date := None; last_days := Some 7%Z |}.
Proof.
  apply (generate_date_range_fallbacks sample_strptime sample_strftime_day sample_now
           {| start_date := None; end_date := Some "2025-10-16";
              last_days := Some 0%Z |});
    [right; reflexivity | reflexivity].
Defined.


(* ================================================================= *)
(** * Properties of the run of the validation script *)

Lemma fetch_iteration_refused (api : Api) (st : FetchState) :
  non_success (api (List.length (log st)) (current_request st)) = true ->
  exists st',
    fetch_iteration api st = Break st'
    /\ all_calls st' = all_calls st
    /\ log st' = log st ++ [(current_request st,
                             api (List.length (log st)) (current_request st))].
Proof.
  intros H. unfold fetch_iteration.
  destruct (api (List.length (log st)) (current_request st)) as [|code body];
    [discriminate|].
  cbn [non_success] in H. apply negb_true_iff in H. rewrite H.
  eexists. split; [reflexivity|]. split; reflexivity.
Qed.

Lemma fetch_days_refused (api : Api) (account_sid : pyval) (fuel : nat)
    (dates : list string) :
  (forall k req, non_success (api k req) = true) ->
  forall log0 acc,
  exists log1,
    fetch_days (S fuel) api account_sid dates log0 acc = Some (Return (acc, log0 ++ log1))
    /\ map fst log1 = map (day_request account_sid) dates.
Proof.
  intros Hapi. induction dates as [|date rest IH]; intros log0 acc.
  - exists []. rewrite app_nil_r. split; reflexivity.
  - cbn [fetch_days day_loop].
    destruct (fetch_iteration_refused api (day_init account_sid date log0)
                (Hapi _ _)) as [st' [E [Hcalls Hlog]]].
    rewrite E, Hcalls. cbn [day_init all_calls incoming_of].
    rewrite app_nil_r, Hlog.
    destruct (IH (log (day_init account_sid date log0)
                  ++ [(current_request (day_init account_sid date log0),
                       api (List.length (log (day_init account_sid date log0)))
                         (current_request (day_init account_sid date log0)))]) acc)
      as [log1 [E1 E2]].
    eexists. rewrite E1, <- app_assoc. split; [reflexivity|].
    cbn [app map fst]. rewrite E2. reflexivity.
Qed.

Section ScriptRunFacts.
Context {Summary : Type} (call_summary : CallRecord -> Summary).
Variables (strptime : string -> option Z) (strftime_day : Z -> string)
  (now : nat -> Z).

(** X29. When the API answers every request with a status other than
    200 (wrong credentials, say) and the arguments give a list of
    dates, the script issues exactly one request per date, the first
    request of that date, finds no incoming call, and then does not
    report the failure but stops with an uncaught exception where it
    divides by the number of incoming calls. *)
Theorem script_run_refused (args : Namespace) (account_sid : pyval) (fuel : nat)
    (api : Api) (db : Database) (dates : list string) :
  generate_date_range strptime strftime_day now args = Done dates ->
  (forall k req, non_success (api k req) = true) ->
  (exists log,
     fetch_days (S fuel) api account_sid dates [] [] = Some (Return ([], log))
     /\ map fst log = map (day_request account_sid) dates)
  /\ script_run call_summary strptime strftime_day now args account_sid (S fuel) api db
     = Some Uncaught.
Proof.
  intros Hdates Hapi.
  destruct (fetch_days_refused api account_sid fuel dates Hapi [] [])
    as [log1 [E1 E2]].
  split.
  - exists log1. split; [exact E1 | exact E2].
  - unfold script_run. rewrite Hdates, E1. reflexivity.
Qed.

End ScriptRunFacts.

Lemma script_run_refused_witness :
  script_run Sid sample_strptime sample_strftime_day sample_now (sample_args_last 2)
    (PyStr "acc") 1 api_refused sample_db
  = Some Uncaught.
Proof.
  apply (script_run_refused Sid sample_strptime sample_strftime_day sample_now
           (sample_args_last 2) (PyStr "acc") 0 api_refused sample_db
           ["2025-10-16"; "2025-10-17"]);
    [reflexivity | intros k req; reflexivity].
Defined.

Lemma has_column_text (col : CallRecord -> pyval) (calls : list CallRecord) :
  calls <> [] ->
  (forall c, In c calls -> exists s, col c = PyStr s) ->
  has_column col calls = true.
Proof.
  intros Hne Hstr. destruct calls as [|c cs]; [contradiction|].
  unfold has_column. cbn [existsb].
  destruct (Hstr c (or_introl eq_refl)) as [s Hs]. rewrite Hs. reflexivity.
Qed.

Lemma no_direction_no_inbound (calls : list CallRecord) :
  has_column Direction calls = false -> filter is_inbound calls = [].
Proof.
  unfold has_column. induction calls as [|c cs IH]; [reflexivity|].
  cbn [existsb filter]. intros H. apply orb_false_iff in H. destruct H as [Hc Hcs].
  apply negb_false_iff, pyval_eqb_eq in Hc. unfold is_inbound at 1. rewrite Hc.
  cbn [pyval_eqb]. apply IH, Hcs.
Qed.

Lemma incoming_of_text (calls : list CallRecord) :
  (forall c, In c calls ->
             exists to phone, To c = PyStr to /\ PhoneNumber c = PyStr phone) ->
  incoming_of calls
  = Return (filter is_inbound
              (filter (fun row =>
                         str_contains "8047361499" (py_str (PhoneNumber row))
                         || str_contains "8047361499" (py_str (To row)))
                 calls)).
Proof.
  induction calls as [|c cs IH]; intros Hstr; [reflexivity|].
  cbn [incoming_of filter].
  rewrite IH by (intros x Hx; apply Hstr; right; exact Hx).
  destruct (Hstr c (or_introl eq_refl)) as [to [phone [Hto Hph]]].
  unfold is_incoming. rewrite Hto, Hph. cbn [py_in_text py_str exc_bind].
  fold (is_inbound c).
  destruct (is_inbound c) eqn:Ein.
  - destruct (str_contains "8047361499" to) eqn:Et; cbn [exc_bind].
    + rewrite orb_true_r. cbn [filter]. rewrite Ein. reflexivity.
    + rewrite orb_false_r.
      destruct (str_contains "8047361499" phone); cbn [filter];
        [rewrite Ein|]; reflexivity.
  - cbn [exc_bind].
    destruct (str_contains "8047361499" phone || str_contains "8047361499" to);
      cbn [filter]; [rewrite Ein|]; reflexivity.
Qed.

Section ScriptAndDashboard.
Context {F : Type} {ops : FloatOps F}.

(** X30. The script and the dashboard count the same incoming calls.
    For records with pairwise-distinct Sids whose To and PhoneNumber
    values are strings, and an exophone filter whose last ten digits
    are 8047361499, the selection of the script succeeds, and the
    number of calls it keeps is [incoming_calls] of the dict
    [process_analytics] returns for these records and this filter; when
    [process_analytics] returns None, either the script keeps no call
    or pandas raised on the frame. *)
Theorem script_incoming_matches_dashboard (db : Database) (calls : list CallRecord)
    (flt : string) :
  NoDup (map Sid calls) ->
  (forall c, In c calls ->
             exists to phone, To c = PyStr to /\ PhoneNumber c = PyStr phone) ->
  filter_digits_of flt = "8047361499" ->
  exists incoming,
    incoming_of calls = Return incoming
    /\ match process_analytics (F := F) db calls (Some flt) with
       | Some a => incoming_calls a = Z.of_nat (List.length incoming)
       | None => incoming = [] \/ frame_raises calls (Some flt) = true
       end.
Proof.
  intros Hsid Hstr Hflt.
  eexists. split; [apply incoming_of_text, Hstr|].
  assert (Hdf : filter_exophone calls (Some flt)
                = filter (fun row =>
                            str_contains "8047361499" (py_str (PhoneNumber row))
                            || str_contains "8047361499" (py_str (To row)))
                    calls).
  { destruct calls as [|c0 cs] eqn:Ec.
    - unfold filter_exophone. destruct (_ && _); reflexivity.
    - rewrite <- Ec in *.
      assert (Hne : calls <> []) by (rewrite Ec; discriminate).
      unfold filter_exophone.
      assert (Hf : String.eqb flt "" = false).
      { destruct flt; [discriminate Hflt | reflexivity]. }
      rewrite Hf.
      rewrite (has_column_text PhoneNumber calls Hne)
        by (intros c Hc; destruct (Hstr c Hc) as [to [phone [_ H]]];
            exists phone; exact H).
      rewrite (has_column_text To calls Hne)
        by (intros c Hc; destruct (Hstr c Hc) as [to [phone [H _]]];
            exists to; exact H).
      cbn [negb andb orb].
      change (str_suffix 10 (str_filter isdigit flt)) with (filter_digits_of flt).
      rewrite Hflt. apply filter_ext_in. intros r Hr.
      destruct (Hstr r Hr) as [to [phone [Hto Hph]]].
      rewrite (cell_str_text PhoneNumber calls r phone Hr Hph),
        (cell_str_text To calls r to Hr Hto), Hto, Hph.
      reflexivity. }
  rewrite <- Hdf.
  destruct (process_analytics (F := F) db calls (Some flt)) as [a|] eqn:Ep.
  - destruct (process_analytics_fields db calls (Some flt) a Ep) as [_ [Hin _]].
    rewrite Hin, categorize_rows. unfold frame_rows.
    assert (Hrows : merge_rows (filter_exophone calls (Some flt))
                      (map Sid (filter is_inbound (filter_exophone calls (Some flt))))
                    = filter_exophone calls (Some flt)).
    { apply merge_rows_distinct, filter_distinct_sids, filter_exophone_NoDup, Hsid. }
    rewrite Hrows.
    destruct (has_column Direction calls) eqn:Ed.
    + destruct (has_column From calls); reflexivity.
    + cbn [andb].
      destruct (filter_exophone_filter calls (Some flt)) as [p Hp]. rewrite Hp.
      assert (Hnone : filter is_inbound (filter p calls) = []).
      { pose proof (no_direction_no_inbound calls Ed) as Hn.
        clear - Hn. induction calls as [|c cs IH]; [reflexivity|].
        cbn [filter] in *. destruct (is_inbound c) eqn:E; [discriminate|].
        destruct (p c); cbn [filter]; [rewrite E|]; apply IH, Hn. }
      rewrite Hnone. reflexivity.
  - apply process_analytics_none in Ep. destruct Ep as [Ep|Ep].
    + left. rewrite Ep. reflexivity.
    + right. exact Ep.
Qed.

End ScriptAndDashboard.

Lemma script_incoming_matches_dashboard_witness :
  exists incoming a,
    incoming_of sample_calls = Return incoming
    /\ process_analytics (ops := exact_ops) sample_db sample_calls (Some "08047361499")
       = Some a
    /\ incoming_calls a = Z.of_nat (List.length incoming).
Proof.
  destruct (script_incoming_matches_dashboard (ops := exact_ops) sample_db sample_calls
              "08047361499" sample_calls_NoDup) as [incoming [E H]].
  - intros c [<-|[<-|[<-|[]]]]; exists "08047361499", "08047361499"; split; reflexivity.
  - reflexivity.
  - destruct (process_analytics (ops := exact_ops) sample_db sample_calls
                (Some "08047361499")) as [a|] eqn:Ep.
    + exists incoming, a. split; [exact E|]. split; [reflexivity | exact H].
    + vm_compute in Ep. discriminate.
Defined.
